(** * GoBank transfer engine: a shallow embedding of the Go sources

    The development follows the layering of the repository:

    - [entity]    : internal/domain/entity (accounts, transfers, ledger rows);
    - [apperror]  : internal/pkg/apperror, the error values the use cases
                    return;
    - [database]  : the store, the statement layer and [WithTransaction];
    - [postgres]  : internal/adapter/repository/postgres (one function per
                    SQL statement the transfer use case issues);
    - [transfer]  : internal/usecase/transfer/service.go;
    - [account_entity], [account_repo], [transaction_repo], [account] :
                    the account side of the same layers (NewAccount, the
                    account and transaction repositories, the account use
                    case);
    - [apperror_fields], [handler] : the fields of the [*AppError] values
                    and the transfer handlers that answer with them;
    - [redis], [middleware] : the rate limiter over Redis and the
                    middleware that applies it.

    Modelling conventions.

    - [decimal.Decimal] is an arbitrary-precision decimal; it is embedded as a
      rational [Q].  [Add]/[Sub] are the exact operations and the comparisons
      are the numeric ones.  Two decimals are the same number when they are
      equal for [==]; the representation of a number is of no account.
    - The columns balance, amount and balance_after are DECIMAL(19,4): a
      value written to one of them is rounded to four decimals, halves away
      from zero, and that is the value read back.  The struct the service
      holds keeps the value it was given.
    - A table is the list of its rows, oldest first.  [SELECT ... WHERE]
      scans it, [UPDATE ... WHERE] rewrites every matching row, [INSERT]
      appends.
    - Every statement may report a driver error (lost connection, cancelled
      context, violated CHECK or UNIQUE constraint, value out of the range
      of its column).  Which statements do so is decided by the [fails]
      oracle of the environment; a statement that reports an error writes
      nothing.  "The store reports no error" therefore includes that no
      constraint of the schema is violated.
    - An instant is counted in the unit the store keeps (TIMESTAMPTZ,
      microseconds); what time.Now() holds below that is not modelled.
    - Writes made through an open transaction stay in its private view until
      [Commit] succeeds; they are discarded otherwise.
    - Go's [int] is taken as the 64-bit two's complement integer. *)

From Stdlib Require Import ZArith QArith Lia Ascii String.
From stdpp Require Import base decidable option list strings numbers sorting
  pretty gmap.

Set Default Proof Using "Type".
Local Open Scope string_scope.
Local Open Scope Z_scope.

(** uuid.UUID: an opaque 128-bit identifier. *)
Definition UUID := N.
(** time.Time: an instant, counted from an arbitrary epoch. *)
Definition Time := Z.
(** decimal.Decimal *)
Definition Decimal := Q.

#[global] Instance Q_eq_dec : EqDecision Q.
Proof. solve_decision. Defined.

(** Two's complement wrap-around of Go's 64-bit [int]. *)
Definition wrap64 (z : Z) : Z := (z + 2 ^ 63) mod 2 ^ 64 - 2 ^ 63.

(* ------------------------------------------------------------------ *)
(** ** internal/domain/entity *)

Module entity.

Definition AccountStatusActive : string := "active".
Definition AccountStatusInactive : string := "inactive".
Definition AccountStatusFrozen : string := "frozen".

Definition CurrencyUSD : string := "USD".
Definition CurrencyEUR : string := "EUR".
Definition CurrencyGBP : string := "GBP".

Definition TransactionTypeCredit : string := "credit".
Definition TransactionTypeDebit : string := "debit".

Definition TransferStatusPending : string := "pending".
Definition TransferStatusCompleted : string := "completed".
Definition TransferStatusFailed : string := "failed".

Module Account.
Record t : Type := mk {
  ID : UUID;
  UserID : UUID;
  AccountNumber : string;
  AccountType : string;
  Currency : string;
  Balance : Decimal;
  Status : string;
  CreatedAt : Time;
  UpdatedAt : Time
  }.

(** a.Status == AccountStatusActive && a.Balance.GreaterThanOrEqual(amount) *)
Definition CanDebit (a : t) (amount : Decimal) : bool :=
  bool_decide (Status a = AccountStatusActive) && Qle_bool amount (Balance a).

(** a.Status == AccountStatusActive *)
Definition CanCredit (a : t) : bool :=
  bool_decide (Status a = AccountStatusActive).
End Account.

Module Transaction.
Record t : Type := mk {
  ID : UUID;
  AccountID : UUID;
  Type_ : string;
  Amount : Decimal;
  BalanceAfter : Decimal;
  Description : string;
  ReferenceID : option UUID;
  CreatedAt : Time
  }.
End Transaction.

Module Transfer.
Record t : Type := mk {
  ID : UUID;
  IdempotencyKey : option string;
  FromAccountID : UUID;
  ToAccountID : UUID;
  Amount : Decimal;
  Currency : string;
  Status : string;
  CreatedAt : Time;
  CompletedAt : option Time
  }.

#[global] Instance eq_dec : EqDecision t.
Proof. solve_decision. Defined.
End Transfer.

Module CreateTransferInput.
Record t : Type := mk {
  FromAccountID : UUID;
  ToAccountID : UUID;
  Amount : string;
  IdempotencyKey : string
  }.
End CreateTransferInput.

(** NewTransfer; [id] is the value of uuid.New() and [now] the value of
    time.Now().UTC() at the call. *)
Definition NewTransfer (id : UUID) (now : Time)
    (fromAccountID toAccountID : UUID) (amount : Decimal)
    (currency : string) (idempotencyKey : option string) : Transfer.t :=
  {| Transfer.ID := id;
     Transfer.IdempotencyKey := idempotencyKey;
     Transfer.FromAccountID := fromAccountID;
     Transfer.ToAccountID := toAccountID;
     Transfer.Amount := amount;
     Transfer.Currency := currency;
     Transfer.Status := TransferStatusPending;
     Transfer.CreatedAt := now;
     Transfer.CompletedAt := None |}.

(** NewTransaction, with the same convention for [id] and [now]. *)
Definition NewTransaction (id : UUID) (now : Time)
    (accountID : UUID) (txType : string) (amount balanceAfter : Decimal)
    (description : string) (referenceID : option UUID) : Transaction.t :=
  {| Transaction.ID := id;
     Transaction.AccountID := accountID;
     Transaction.Type_ := txType;
     Transaction.Amount := amount;
     Transaction.BalanceAfter := balanceAfter;
     Transaction.Description := description;
     Transaction.ReferenceID := referenceID;
     Transaction.CreatedAt := now |}.

End entity.

Import entity.

(* ------------------------------------------------------------------ *)
(** ** Errors *)

Module apperror.

(** The Go [error] values that reach the caller of the service.  The
    first eight constructors are the sentinel [*AppError] values of
    internal/pkg/apperror that the transfer and account use cases return;
    [Wrap] is [apperror.Wrap] and keeps its four arguments.  The remaining
    constructors are the errors that are not [*AppError]: an error of the
    database driver and the results of [fmt.Errorf]. *)
Inductive error : Type :=
| ErrInvalidAmount
| ErrSameAccount
| ErrAccountNotFound
| ErrForbidden
| ErrCurrencyMismatch
| ErrInsufficientBalance
| ErrAccountInactive
| ErrTransferNotFound
| Wrap (err : error) (code message : string) (status : Z)
| DriverError (msg : string)
| Errorf1 (format : string) (a : error)
| Errorf2 (format : string) (a b : error).

(** The typed failures: the values of the apperror package. *)
Definition isAppError (e : error) : bool :=
  match e with
  | DriverError _ | Errorf1 _ _ | Errorf2 _ _ _ => false
  | _ => true
  end.

End apperror.

Import apperror.

(* ------------------------------------------------------------------ *)
(** ** internal/infrastructure/database *)

Module database.

(** The nearest integer to [num / den], halves away from zero. *)
Definition roundHalfAway (num : Z) (den : positive) : Z :=
  Z.sgn num * ((2 * Z.abs num + Z.pos den) / (2 * Z.pos den)).

(** DECIMAL(19,4), the type of the columns accounts.balance,
    transfers.amount, transactions.amount and transactions.balance_after:
    the number a value becomes when it is written to such a column. *)
Definition decimal_19_4 (v : Decimal) : Decimal :=
  Qred (roundHalfAway (Qnum v * 10000) (Qden v) # 10000).

(** The three tables the transfer use case touches. *)
Record DB : Type := mkDB {
  accounts : list Account.t;
  transfers : list Transfer.t;
  transactions : list Transaction.t
}.

(** The store as the service sees it: the committed tables, the private
    view of the open transaction (if any), and the history of the row locks
    taken by [SELECT ... FOR UPDATE], oldest first. *)
Record World : Type := mkWorld {
  committed : DB;
  pending : option DB;
  lockLog : list UUID
}.

(** A context either carries a transaction under [TxKey] or does not. *)
Inductive Ctx : Type :=
| Background
| TxCtx.

(** The statements sent to the store. *)
Inductive Stmt : Type :=
| Begin
| Commit
| Rollback
| SelectAccount (id : UUID)
| SelectAccountForUpdate (id : UUID)
| UpdateAccountBalance (id : UUID) (newBalance : Decimal)
| InsertTransfer (t : Transfer.t)
| SelectTransfer (id : UUID)
| SelectTransferByIdempotencyKey (key : string)
| SelectTransfersByUser (userID : UUID) (limit offset : Z)
| UpdateTransferStatus (id : UUID) (status : string) (completedAt : option Time)
| InsertTransaction (tx : Transaction.t).

(** What one invocation of the service draws from outside the program: the
    statements on which the store reports an error, the values of
    uuid.New() and time.Now().UTC() in the order of the calls in [Create],
    and the store's NOW(). *)
Record Env : Type := mkEnv {
  fails : Stmt -> option string;
  transferID : UUID;
  transferCreatedAt : Time;
  debitID : UUID;
  debitCreatedAt : Time;
  creditID : UUID;
  creditCreatedAt : Time;
  completedAt : Time;
  dbNow : Time
}.

(** Go functions that return [(A, error)] and act on the store. *)
Definition M (A : Type) : Type := World -> (error + A) * World.

Definition ret {A} (a : A) : M A := fun w => (inr a, w).

Definition throw {A} (e : error) : M A := fun w => (inl e, w).

Definition bind {A B} (m : M A) (k : A -> M B) : M B :=
  fun w =>
    match m w with
    | (inl e, w') => (inl e, w')
    | (inr a, w') => k a w'
    end.

(** [if err != nil { return apperror.Wrap(err, code, message, status) }] *)
Definition wrapping {A} (m : M A) (code message : string) (status : Z) : M A :=
  fun w =>
    match m w with
    | (inl e, w') => (inl (Wrap e code message status), w')
    | (inr a, w') => (inr a, w')
    end.

Section statements.
Variable env : Env.

(** [pool.QueryRow] / [pool.Query]: reads the committed tables. *)
Definition poolQuery {A} (s : Stmt) (f : DB -> A) : M A :=
  fun w =>
    match fails env s with
    | Some msg => (inl (DriverError msg), w)
    | None => (inr (f (committed w)), w)
    end.

(** [pool.Exec]: an autocommitted write. *)
Definition poolExec (s : Stmt) (f : DB -> DB) : M unit :=
  fun w =>
    match fails env s with
    | Some msg => (inl (DriverError msg), w)
    | None => (inr tt, mkWorld (f (committed w)) (pending w) (lockLog w))
    end.

(** [tx.QueryRow]: reads the view of the open transaction. *)
Definition txQuery {A} (s : Stmt) (f : DB -> A) : M A :=
  fun w =>
    match fails env s with
    | Some msg => (inl (DriverError msg), w)
    | None =>
        match pending w with
        | Some d => (inr (f d), w)
        | None => (inl (DriverError "tx is closed"), w)
        end
    end.

(** [tx.Exec]: a write into the view of the open transaction. *)
Definition txExec (s : Stmt) (f : DB -> DB) : M unit :=
  fun w =>
    match fails env s with
    | Some msg => (inl (DriverError msg), w)
    | None =>
        match pending w with
        | Some d => (inr tt, mkWorld (committed w) (Some (f d)) (lockLog w))
        | None => (inl (DriverError "tx is closed"), w)
        end
    end.

(** The row lock of [FOR UPDATE], recorded when a row was selected. *)
Definition lockRow {A} (id : UUID) (row : option A) : M unit :=
  fun w =>
    match row with
    | Some _ => (inr tt, mkWorld (committed w) (pending w) (lockLog w ++ [id]))
    | None => (inr tt, w)
    end.

(** WithTransaction.  [fn]'s result stands for the variable the closure
    assigns; it is dropped when the transaction does not commit.  The
    deferred [recover] is not modelled: nothing below panics. *)
Definition WithTransaction {A} (ctx : Ctx) (fn : Ctx -> M A) : M A :=
  fun w =>
    match fails env Begin with
    | Some msg =>
        (inl (Errorf1 "failed to begin transaction: %w" (DriverError msg)), w)
    | None =>
        let w0 := mkWorld (committed w) (Some (committed w)) (lockLog w) in
        match fn TxCtx w0 with
        | (inl err, w1) =>
            let w2 := mkWorld (committed w1) None (lockLog w1) in
            match fails env Rollback with
            | Some rb =>
                (inl (Errorf2 "tx error: %v, rollback error: %v" err (DriverError rb)), w2)
            | None => (inl err, w2)
            end
        | (inr a, w1) =>
            match fails env Commit with
            | Some msg =>
                (inl (Errorf1 "failed to commit transaction: %w" (DriverError msg)),
                 mkWorld (committed w1) None (lockLog w1))
            | None =>
                (inr a, mkWorld (default (committed w1) (pending w1)) None (lockLog w1))
            end
        end
    end.

End statements.

End database.

Import database.

Notation "'let*' x ':=' m 'in' k" := (bind m (fun x => k))
  (at level 10, x name, m at level 100, k at level 200).

Notation "'do*' m 'in' k" := (bind m (fun _ => k))
  (at level 10, m at level 100, k at level 200).

(* ------------------------------------------------------------------ *)
(** ** internal/adapter/repository/postgres *)

Module postgres.

Module accountRepository.

(** SELECT ... FROM accounts WHERE id = $1 *)
Definition selectByID (id : UUID) (d : DB) : option Account.t :=
  List.find (fun a => bool_decide (Account.ID a = id)) (accounts d).

(** UPDATE accounts SET balance = $2, updated_at = NOW() WHERE id = $1;
    balance is DECIMAL(19,4). *)
Definition updateBalance (now : Time) (id : UUID) (newBalance : Decimal)
    (d : DB) : DB :=
  mkDB
    (List.map
       (fun a =>
          if bool_decide (Account.ID a = id)
          then Account.mk (Account.ID a) (Account.UserID a)
                 (Account.AccountNumber a) (Account.AccountType a)
                 (Account.Currency a) (decimal_19_4 newBalance)
                 (Account.Status a) (Account.CreatedAt a) now
          else a)
       (accounts d))
    (transfers d) (transactions d).

(** GetByID always goes through the pool. *)
Definition GetByID (env : Env) (ctx : Ctx) (id : UUID) : M (option Account.t) :=
  poolQuery env (SelectAccount id) (selectByID id).

(** GetByIDForUpdate: the row is read, and locked, through the transaction
    of the context when there is one.  [pgx.ErrNoRows] gives [nil, nil]. *)
Definition GetByIDForUpdate (env : Env) (ctx : Ctx) (id : UUID)
    : M (option Account.t) :=
  let* row :=
    match ctx with
    | TxCtx => txQuery env (SelectAccountForUpdate id) (selectByID id)
    | Background => poolQuery env (SelectAccountForUpdate id) (selectByID id)
    end in
  do* lockRow id row in
  ret row.

Definition UpdateBalance (env : Env) (ctx : Ctx) (id : UUID)
    (newBalance : Decimal) : M unit :=
  match ctx with
  | TxCtx =>
      txExec env (UpdateAccountBalance id newBalance)
        (updateBalance (dbNow env) id newBalance)
  | Background =>
      poolExec env (UpdateAccountBalance id newBalance)
        (updateBalance (dbNow env) id newBalance)
  end.

End accountRepository.

Module transactionRepository.

(** The row the INSERT below leaves for a struct: amount and balance_after
    are DECIMAL(19,4). *)
Definition row (tx : Transaction.t) : Transaction.t :=
  Transaction.mk (Transaction.ID tx) (Transaction.AccountID tx)
    (Transaction.Type_ tx) (decimal_19_4 (Transaction.Amount tx))
    (decimal_19_4 (Transaction.BalanceAfter tx)) (Transaction.Description tx)
    (Transaction.ReferenceID tx) (Transaction.CreatedAt tx).

(** INSERT INTO transactions (...) VALUES ($1, ..., $8) *)
Definition insert (tx : Transaction.t) (d : DB) : DB :=
  mkDB (accounts d) (transfers d) (transactions d ++ [row tx]).

Definition Create (env : Env) (ctx : Ctx) (transaction : Transaction.t) : M unit :=
  match ctx with
  | TxCtx => txExec env (InsertTransaction transaction) (insert transaction)
  | Background => poolExec env (InsertTransaction transaction) (insert transaction)
  end.

End transactionRepository.

Module transferRepository.

(** The row the INSERT below leaves for a struct: amount is
    DECIMAL(19,4), and the column completed_at is not listed and starts as
    NULL. *)
Definition row (t : Transfer.t) : Transfer.t :=
  Transfer.mk (Transfer.ID t) (Transfer.IdempotencyKey t)
    (Transfer.FromAccountID t) (Transfer.ToAccountID t)
    (decimal_19_4 (Transfer.Amount t)) (Transfer.Currency t)
    (Transfer.Status t) (Transfer.CreatedAt t) None.

(** INSERT INTO transfers (id, idempotency_key, from_account_id,
    to_account_id, amount, currency, status, created_at) *)
Definition insert (t : Transfer.t) (d : DB) : DB :=
  mkDB (accounts d) (transfers d ++ [row t]) (transactions d).

(** UPDATE transfers SET status = $2, completed_at = $3 WHERE id = $1 *)
Definition updateStatus (id : UUID) (status : string)
    (completedAt : option Time) (d : DB) : DB :=
  mkDB (accounts d)
    (List.map
       (fun t =>
          if bool_decide (Transfer.ID t = id)
          then Transfer.mk (Transfer.ID t) (Transfer.IdempotencyKey t)
                 (Transfer.FromAccountID t) (Transfer.ToAccountID t)
                 (Transfer.Amount t) (Transfer.Currency t) status
                 (Transfer.CreatedAt t) completedAt
          else t)
       (transfers d))
    (transactions d).

(** SELECT ... FROM transfers WHERE id = $1 *)
Definition selectByID (id : UUID) (d : DB) : option Transfer.t :=
  List.find (fun t => bool_decide (Transfer.ID t = id)) (transfers d).

(** SELECT ... FROM transfers WHERE idempotency_key = $1 *)
Definition selectByIdempotencyKey (key : string) (d : DB) : option Transfer.t :=
  List.find (fun t => bool_decide (Transfer.IdempotencyKey t = Some key))
    (transfers d).

(** t JOIN accounts a ON (t.from_account_id = a.id OR t.to_account_id = a.id)
    WHERE a.user_id = $1 *)
Definition joinAccounts (userID : UUID) (d : DB) : list Transfer.t :=
  flat_map
    (fun t =>
       flat_map
         (fun a =>
            if (bool_decide (Transfer.FromAccountID t = Account.ID a)
                || bool_decide (Transfer.ToAccountID t = Account.ID a))
               && bool_decide (Account.UserID a = userID)
            then [t] else [])
         (accounts d))
    (transfers d).

(** ORDER BY t.created_at DESC *)
Definition newerFirst (t1 t2 : Transfer.t) : Prop :=
  Transfer.CreatedAt t2 <= Transfer.CreatedAt t1.

#[global] Instance newerFirst_dec : RelDecision newerFirst.
Proof. intros t1 t2. unfold newerFirst. apply _. Defined.

(** SELECT DISTINCT ... ORDER BY t.created_at DESC, before LIMIT and
    OFFSET.  Rows with equal created_at come in the order the sort leaves
    them. *)
Definition selectByUser (userID : UUID) (d : DB) : list Transfer.t :=
  merge_sort newerFirst (remove_dups (joinAccounts userID d)).

(** LIMIT $2 OFFSET $3 *)
Definition limitOffset {A} (limit offset : Z) (rows : list A) : list A :=
  take (Z.to_nat limit) (drop (Z.to_nat offset) rows).

Definition Create (env : Env) (ctx : Ctx) (transfer : Transfer.t) : M unit :=
  match ctx with
  | TxCtx => txExec env (InsertTransfer transfer) (insert transfer)
  | Background => poolExec env (InsertTransfer transfer) (insert transfer)
  end.

Definition GetByID (env : Env) (ctx : Ctx) (id : UUID) : M (option Transfer.t) :=
  poolQuery env (SelectTransfer id) (selectByID id).

Definition GetByIdempotencyKey (env : Env) (ctx : Ctx) (key : string)
    : M (option Transfer.t) :=
  poolQuery env (SelectTransferByIdempotencyKey key) (selectByIdempotencyKey key).

(** GetByUserID.  The store rejects a negative LIMIT or OFFSET. *)
Definition GetByUserID (env : Env) (ctx : Ctx) (userID : UUID)
    (limit offset : Z) : M (list Transfer.t) :=
  if (limit <? 0) || (offset <? 0)
  then throw (DriverError "LIMIT and OFFSET must not be negative")
  else
    poolQuery env (SelectTransfersByUser userID limit offset)
      (fun d => limitOffset limit offset (selectByUser userID d)).

Definition UpdateStatus (env : Env) (ctx : Ctx) (id : UUID) (status : string)
    (completedAt : option Time) : M unit :=
  match ctx with
  | TxCtx =>
      txExec env (UpdateTransferStatus id status completedAt)
        (updateStatus id status completedAt)
  | Background =>
      poolExec env (UpdateTransferStatus id status completedAt)
        (updateStatus id status completedAt)
  end.

End transferRepository.

End postgres.

Import postgres.

(* ------------------------------------------------------------------ *)
(** ** internal/usecase/transfer *)

Module transfer.

Section service.

(** decimal.NewFromString, of the decimal library: [None] stands for its
    error. *)
Variable NewFromString : string -> option Decimal.
Variable env : Env.

(** The closure [Create] hands to [WithTransaction]; its value is the
    transfer the closure assigns to the captured variable. *)
Definition createTx (userID : UUID) (input : CreateTransferInput.t)
    (amount : Decimal) (txCtx : Ctx) : M Transfer.t :=
  let* fromAccount :=
    wrapping
      (accountRepository.GetByIDForUpdate env txCtx
         (CreateTransferInput.FromAccountID input))
      "INTERNAL_ERROR" "Failed to get source account" 500 in
  match fromAccount with
  | None => throw ErrAccountNotFound
  | Some fromAccount =>
  if negb (bool_decide (Account.UserID fromAccount = userID))
  then throw ErrForbidden
  else
  let* toAccount :=
    wrapping
      (accountRepository.GetByIDForUpdate env txCtx
         (CreateTransferInput.ToAccountID input))
      "INTERNAL_ERROR" "Failed to get destination account" 500 in
  match toAccount with
  | None => throw ErrAccountNotFound
  | Some toAccount =>
  if negb (bool_decide (Account.Currency fromAccount = Account.Currency toAccount))
  then throw ErrCurrencyMismatch
  else
  if negb (Account.CanDebit fromAccount amount)
  then throw ErrInsufficientBalance
  else
  if negb (Account.CanCredit toAccount)
  then throw ErrAccountInactive
  else
  let idempotencyKey :=
    if negb (bool_decide (CreateTransferInput.IdempotencyKey input = ""))
    then Some (CreateTransferInput.IdempotencyKey input)
    else None in
  let transfer :=
    NewTransfer (transferID env) (transferCreatedAt env)
      (CreateTransferInput.FromAccountID input)
      (CreateTransferInput.ToAccountID input)
      amount (Account.Currency fromAccount) idempotencyKey in
  do* wrapping (transferRepository.Create env txCtx transfer)
        "INTERNAL_ERROR" "Failed to create transfer" 500 in
  let newFromBalance := Qminus (Account.Balance fromAccount) amount in
  do* wrapping
        (accountRepository.UpdateBalance env txCtx (Account.ID fromAccount)
           newFromBalance)
        "INTERNAL_ERROR" "Failed to update source account balance" 500 in
  let newToBalance := Qplus (Account.Balance toAccount) amount in
  do* wrapping
        (accountRepository.UpdateBalance env txCtx (Account.ID toAccount)
           newToBalance)
        "INTERNAL_ERROR" "Failed to update destination account balance" 500 in
  let debitTx :=
    NewTransaction (debitID env) (debitCreatedAt env)
      (Account.ID fromAccount) TransactionTypeDebit amount newFromBalance
      ("Transfer to account " +:+ Account.AccountNumber toAccount)
      (Some (Transfer.ID transfer)) in
  do* wrapping (transactionRepository.Create env txCtx debitTx)
        "INTERNAL_ERROR" "Failed to create debit transaction" 500 in
  let creditTx :=
    NewTransaction (creditID env) (creditCreatedAt env)
      (Account.ID toAccount) TransactionTypeCredit amount newToBalance
      ("Transfer from account " +:+ Account.AccountNumber fromAccount)
      (Some (Transfer.ID transfer)) in
  do* wrapping (transactionRepository.Create env txCtx creditTx)
        "INTERNAL_ERROR" "Failed to create credit transaction" 500 in
  do* wrapping
        (transferRepository.UpdateStatus env txCtx (Transfer.ID transfer)
           TransferStatusCompleted (Some (completedAt env)))
        "INTERNAL_ERROR" "Failed to update transfer status" 500 in
  ret (Transfer.mk (Transfer.ID transfer) (Transfer.IdempotencyKey transfer)
         (Transfer.FromAccountID transfer) (Transfer.ToAccountID transfer)
         (Transfer.Amount transfer) (Transfer.Currency transfer)
         TransferStatusCompleted (Transfer.CreatedAt transfer)
         (Some (completedAt env)))
  end
  end.

(** The lookup that opens [Create]: made only for a non-empty key. *)
Definition checkIdempotencyKey (ctx : Ctx) (input : CreateTransferInput.t)
    : M (option Transfer.t) :=
  if negb (bool_decide (CreateTransferInput.IdempotencyKey input = ""))
  then
    wrapping
      (transferRepository.GetByIdempotencyKey env ctx
         (CreateTransferInput.IdempotencyKey input))
      "INTERNAL_ERROR" "Failed to check idempotency key" 500
  else ret None.

Definition Create (ctx : Ctx) (userID : UUID) (input : CreateTransferInput.t)
    : M Transfer.t :=
  let* existingTransfer := checkIdempotencyKey ctx input in
  match existingTransfer with
  | Some existingTransfer => ret existingTransfer
  | None =>
  match NewFromString (CreateTransferInput.Amount input) with
  | None => throw ErrInvalidAmount
  | Some amount =>
  if Qle_bool amount 0
  then throw ErrInvalidAmount
  else
  if bool_decide (CreateTransferInput.FromAccountID input
                  = CreateTransferInput.ToAccountID input)
  then throw ErrSameAccount
  else WithTransaction env ctx (createTx userID input amount)
  end
  end.

Definition GetByID (ctx : Ctx) (userID transferID : UUID) : M Transfer.t :=
  let* transfer :=
    wrapping (transferRepository.GetByID env ctx transferID)
      "INTERNAL_ERROR" "Failed to get transfer" 500 in
  match transfer with
  | None => throw ErrTransferNotFound
  | Some transfer =>
  let* fromAccount :=
    wrapping (accountRepository.GetByID env ctx (Transfer.FromAccountID transfer))
      "INTERNAL_ERROR" "Failed to get account" 500 in
  let* toAccount :=
    wrapping (accountRepository.GetByID env ctx (Transfer.ToAccountID transfer))
      "INTERNAL_ERROR" "Failed to get account" 500 in
  let owns (a : option Account.t) : bool :=
    match a with
    | Some a => bool_decide (Account.UserID a = userID)
    | None => false
    end in
  if owns fromAccount || owns toAccount
  then ret transfer
  else throw ErrForbidden
  end.

(** The page bounds of [GetByUserID], as the two [if]s set them. *)
Definition effectivePage (page : Z) : Z :=
  if page <? 1 then 1 else page.

Definition effectivePageSize (pageSize : Z) : Z :=
  if (pageSize <? 1) || (100 <? pageSize) then 10 else pageSize.

Definition GetByUserID (ctx : Ctx) (userID : UUID) (page pageSize : Z)
    : M (list Transfer.t * Z) :=
  let page := effectivePage page in
  let pageSize := effectivePageSize pageSize in
  let offset := wrap64 ((page - 1) * pageSize) in
  let* transfers :=
    wrapping (transferRepository.GetByUserID env ctx userID pageSize offset)
      "INTERNAL_ERROR" "Failed to get transfers" 500 in
  ret (transfers, Z.of_nat (length transfers)).

End service.

End transfer.

Import transfer.

(* ------------------------------------------------------------------ *)
(** * Vocabulary of the properties *)

(** The transfer stored under the key of a request, if the request has a
    key at all: what the opening lookup of [Create] finds. *)
Definition storedFor (input : CreateTransferInput.t) (d : DB) : option Transfer.t :=
  if bool_decide (CreateTransferInput.IdempotencyKey input = "")
  then None
  else transferRepository.selectByIdempotencyKey
         (CreateTransferInput.IdempotencyKey input) d.

(** The key column of a new transfer. *)
Definition keyOf (input : CreateTransferInput.t) : option string :=
  if bool_decide (CreateTransferInput.IdempotencyKey input = "")
  then None
  else Some (CreateTransferInput.IdempotencyKey input).

(** The transfer [Create] returns after an execution. *)
Definition completedTransfer (env : Env) (input : CreateTransferInput.t)
    (amount : Decimal) (currency : string) : Transfer.t :=
  Transfer.mk (transferID env) (keyOf input)
    (CreateTransferInput.FromAccountID input)
    (CreateTransferInput.ToAccountID input)
    amount currency TransferStatusCompleted (transferCreatedAt env)
    (Some (completedAt env)).

(** A decimal of at most four decimals: a value the DECIMAL(19,4) columns
    keep as it is. *)
Definition atScale4 (v : Decimal) : Prop :=
  (Qnum v * 10000) mod Z.pos (Qden v) = 0.

(** A transfer as the transfer table holds it: the amount is at the scale
    of its column. *)
Definition asStored (t : Transfer.t) : Transfer.t :=
  Transfer.mk (Transfer.ID t) (Transfer.IdempotencyKey t)
    (Transfer.FromAccountID t) (Transfer.ToAccountID t)
    (decimal_19_4 (Transfer.Amount t)) (Transfer.Currency t)
    (Transfer.Status t) (Transfer.CreatedAt t) (Transfer.CompletedAt t).

(** The two ledger structs the closure builds in an execution. *)
Definition debitTx (env : Env) (fromAccount toAccount : Account.t)
    (amount : Decimal) : Transaction.t :=
  NewTransaction (debitID env) (debitCreatedAt env) (Account.ID fromAccount)
    TransactionTypeDebit amount (Qminus (Account.Balance fromAccount) amount)
    ("Transfer to account " +:+ Account.AccountNumber toAccount)
    (Some (transferID env)).

Definition creditTx (env : Env) (fromAccount toAccount : Account.t)
    (amount : Decimal) : Transaction.t :=
  NewTransaction (creditID env) (creditCreatedAt env) (Account.ID toAccount)
    TransactionTypeCredit amount (Qplus (Account.Balance toAccount) amount)
    ("Transfer from account " +:+ Account.AccountNumber fromAccount)
    (Some (transferID env)).

(** The two ledger rows of an execution, as the ledger holds them. *)
Definition debitRow (env : Env) (fromAccount toAccount : Account.t)
    (amount : Decimal) : Transaction.t :=
  transactionRepository.row (debitTx env fromAccount toAccount amount).

Definition creditRow (env : Env) (fromAccount toAccount : Account.t)
    (amount : Decimal) : Transaction.t :=
  transactionRepository.row (creditTx env fromAccount toAccount amount).

(** The tables after the statements of one execution, in the order the
    closure issues them. *)
Definition executed (env : Env) (input : CreateTransferInput.t)
    (amount : Decimal) (fromAccount toAccount : Account.t) (d : DB) : DB :=
  transferRepository.updateStatus (transferID env) TransferStatusCompleted
    (Some (completedAt env))
    (transactionRepository.insert (creditTx env fromAccount toAccount amount)
       (transactionRepository.insert (debitTx env fromAccount toAccount amount)
          (accountRepository.updateBalance (dbNow env) (Account.ID toAccount)
             (Qplus (Account.Balance toAccount) amount)
             (accountRepository.updateBalance (dbNow env) (Account.ID fromAccount)
                (Qminus (Account.Balance fromAccount) amount)
                (transferRepository.insert
                   (NewTransfer (transferID env) (transferCreatedAt env)
                      (CreateTransferInput.FromAccountID input)
                      (CreateTransferInput.ToAccountID input)
                      amount (Account.Currency fromAccount) (keyOf input))
                   d))))).

(** A computation that leaves the committed tables alone. *)
Definition keepsCommitted {A} (m : M A) : Prop :=
  forall w r w', m w = (r, w') -> committed w' = committed w.

(** A run of the closure that returns an error returns a typed failure:
    one of the five business failures, or [Wrap] around the error of the
    statement that failed. *)
Definition scopeFailure (e : error) : Prop :=
  e = ErrAccountNotFound \/ e = ErrForbidden \/ e = ErrCurrencyMismatch \/
  e = ErrInsufficientBalance \/ e = ErrAccountInactive \/
  exists msg message, e = Wrap (DriverError msg) "INTERNAL_ERROR" message 500.

(** The errors a computation can return. *)
Definition errorsIn {A} (P : error -> Prop) (m : M A) : Prop :=
  forall w e w', m w = (inl e, w') -> P e.

Definition isDriverError (e : error) : Prop := exists msg, e = DriverError msg.

(** The request passes the lookup and the two checks made before the
    transaction is opened; [amount] is its parsed amount. *)
Definition entersScope (NewFromString : string -> option Decimal) (env : Env)
    (ctx : Ctx) (input : CreateTransferInput.t) (w : World) (amount : Decimal)
    : Prop :=
  checkIdempotencyKey env ctx input w = (inr None, w) /\
  NewFromString (CreateTransferInput.Amount input) = Some amount /\
  (0 < amount)%Q /\
  CreateTransferInput.FromAccountID input <> CreateTransferInput.ToAccountID input.

(** The account [a] with another balance and another updated_at. *)
Definition withBalance (now : Time) (newBalance : Decimal) (a : Account.t)
    : Account.t :=
  Account.mk (Account.ID a) (Account.UserID a) (Account.AccountNumber a)
    (Account.AccountType a) (Account.Currency a) newBalance (Account.Status a)
    (Account.CreatedAt a) now.

(** The world in which [WithTransaction] starts the closure. *)
Definition begun (w : World) : World :=
  mkWorld (committed w) (Some (committed w)) (lockLog w).

(** Every account has a balance of at least zero. *)
Definition nonNegative (d : DB) : Prop :=
  Forall (fun a => (0 <= Account.Balance a)%Q) (accounts d).

(** A transfer touches an account of the user: the condition of the join
    in [GetByUserID]. *)
Definition touchesUser (userID : UUID) (d : DB) (t : Transfer.t) : Prop :=
  exists a, In a (accounts d) /\ Account.UserID a = userID /\
    (Transfer.FromAccountID t = Account.ID a \/
     Transfer.ToAccountID t = Account.ID a).

(** The checks of the closure on the two rows it reads, in the order the
    closure makes them: the failure of the first check that does not pass,
    if any. *)
Definition businessFailure (userID : UUID) (amount : Decimal)
    (fromRow toRow : option Account.t) : option error :=
  match fromRow with
  | None => Some ErrAccountNotFound
  | Some fromAccount =>
      if bool_decide (Account.UserID fromAccount = userID)
      then
        match toRow with
        | None => Some ErrAccountNotFound
        | Some toAccount =>
            if negb (bool_decide (Account.Currency fromAccount
                                  = Account.Currency toAccount))
            then Some ErrCurrencyMismatch
            else if negb (Account.CanDebit fromAccount amount)
            then Some ErrInsufficientBalance
            else if negb (Account.CanCredit toAccount)
            then Some ErrAccountInactive
            else None
        end
      else Some ErrForbidden
  end.

(* ------------------------------------------------------------------ *)
(** * A worked example *)

Module Example.

(** A parser for the examples: an optional sign, digits, an optional
    fraction. *)
Definition digitOf (c : ascii) : option Z :=
  let n := Z.of_N (N_of_ascii c) in
  if (48 <=? n) && (n <=? 57) then Some (n - 48) else None.

Fixpoint digits (s : string) (seenDot any : bool) (num : Z) (den : positive)
    : option Q :=
  match s with
  | EmptyString => if any then Some (num # den) else None
  | String c s' =>
      if Ascii.eqb c "."%char
      then if seenDot then None else digits s' true any num den
      else
        match digitOf c with
        | Some n =>
            digits s' seenDot true (10 * num + n)
              (if seenDot then (10 * den)%positive else den)
        | None => None
        end
  end.

Definition plainDecimal (s : string) : option Decimal :=
  match s with
  | String c s' =>
      if Ascii.eqb c "-"%char
      then Qopp <$> digits s' false false 0 1
      else digits s false false 0 1
  | EmptyString => None
  end.

Definition alice : UUID := 1%N.
Definition bob : UUID := 2%N.
Definition carol : UUID := 3%N.

(** X holds 100 USD and belongs to alice; Y holds 50 USD and belongs to
    bob. *)
Definition X : Account.t :=
  Account.mk 10%N alice "0000000010" "checking" CurrencyUSD (100 # 1)
    AccountStatusActive 0 0.

Definition Y : Account.t :=
  Account.mk 20%N bob "0000000020" "checking" CurrencyUSD (50 # 1)
    AccountStatusActive 0 0.

Definition db0 : DB := mkDB [X; Y] [] [].

Definition w0 : World := mkWorld db0 None [].

(** A store on which no statement fails. *)
Definition healthy : Stmt -> option string := fun _ => None.

Definition env0 : Env := mkEnv healthy 100%N 1000 101%N 1001 102%N 1002 1003 1004.

(** A second invocation draws other identifiers and later instants. *)
Definition env1 : Env := mkEnv healthy 200%N 2000 201%N 2001 202%N 2002 2003 2004.

(** The connection is lost once the source is debited: the update of the
    destination fails, and so does the rollback. *)
Definition connectionLost : Stmt -> option string :=
  fun s =>
    match s with
    | UpdateAccountBalance id _ =>
        if N.eqb id 20 then Some "connection lost" else None
    | Rollback => Some "connection lost"
    | _ => None
    end.

Definition envLost : Env :=
  mkEnv connectionLost 100%N 1000 101%N 1001 102%N 1002 1003 1004.

(** alice moves 40 from X to Y; bob moves 40 from Y to X. *)
Definition fromXtoY (key : string) : CreateTransferInput.t :=
  CreateTransferInput.mk 10%N 20%N "40" key.

Definition fromYtoX (key : string) : CreateTransferInput.t :=
  CreateTransferInput.mk 20%N 10%N "40" key.

(** alice moves 40.00001 from X to Y, and half a ten-thousandth. *)
Definition fineFromXtoY (key : string) : CreateTransferInput.t :=
  CreateTransferInput.mk 10%N 20%N "40.00001" key.

Definition tinyFromXtoY : CreateTransferInput.t :=
  CreateTransferInput.mk 10%N 20%N "0.00005" "".

(** alice moves 40 from X to an account that does not exist; so does
    bob, who does not own X. *)
Definition fromXtoNowhere : CreateTransferInput.t :=
  CreateTransferInput.mk 10%N 30%N "40" "".

(** The store once alice's transfer under the key k1 is executed. *)
Definition w1 : World :=
  snd (Create plainDecimal env0 Background alice (fromXtoY "k1") w0).

(** A request under the key k1 that could not be executed: no amount,
    the source is the destination, and no such account exists. *)
Definition nonsense : CreateTransferInput.t :=
  CreateTransferInput.mk 77%N 77%N "not a number" "k1".

(** Three transfers of alice, created at the instants 1, 2 and 3. *)
Definition threeTransfers : list Transfer.t :=
  [ Transfer.mk 301%N None 10%N 20%N (1 # 1) CurrencyUSD TransferStatusCompleted 1 (Some 1);
    Transfer.mk 302%N None 10%N 20%N (2 # 1) CurrencyUSD TransferStatusCompleted 2 (Some 2);
    Transfer.mk 303%N None 20%N 10%N (3 # 1) CurrencyUSD TransferStatusCompleted 3 (Some 3) ].

Definition w3 : World := mkWorld (mkDB [X; Y] threeTransfers []) None [].

(** The identifiers and the total of a listing. *)
Definition listed (r : (error + list Transfer.t * Z) * World)
    : option (list UUID * Z) :=
  match fst r with
  | inr (ts, total) => Some (List.map Transfer.ID ts, total)
  | inl _ => None
  end.

End Example.

(* ------------------------------------------------------------------ *)
(** * Further vocabulary *)

(** The money held by all accounts together. *)
Definition totalBalance (d : DB) : Decimal :=
  fold_right (fun a s => (Account.Balance a + s)%Q) 0%Q (accounts d).

(** What identifies an account and is not its balance: every column but
    balance and updated_at. *)
Definition identityOf (a : Account.t)
    : UUID * UUID * string * string * string * string * Time :=
  (Account.ID a, Account.UserID a, Account.AccountNumber a,
   Account.AccountType a, Account.Currency a, Account.Status a,
   Account.CreatedAt a).

(** The idempotency keys in use: the non-null values of the column. *)
Definition keysInUse (d : DB) : list string :=
  omap Transfer.IdempotencyKey (transfers d).

(** The user owns the account the identifier selects. *)
Definition ownsAccount (userID : UUID) (d : DB) (id : UUID) : bool :=
  match accountRepository.selectByID id d with
  | Some a => bool_decide (Account.UserID a = userID)
  | None => false
  end.

(** No stored transfer is pending. *)
Definition nonePending (d : DB) : Prop :=
  Forall (fun t => Transfer.Status t <> TransferStatusPending) (transfers d).

(** Every character of the string is a decimal digit. *)
Fixpoint allDigits (s : string) : bool :=
  match s with
  | EmptyString => true
  | String c s' =>
      let n := N_of_ascii c in
      (48 <=? n)%N && (n <=? 57)%N && allDigits s'
  end.

(* ------------------------------------------------------------------ *)
(** * The rest of the store, and the account use case *)

(** ** internal/domain/entity: account.go *)

Module account_entity.

Module CreateAccountInput.
Record t : Type := mk {
  AccountType : string;
  Currency : string
}.
End CreateAccountInput.

(** NewAccount; [id] is the value of uuid.New() and [now] the value of
    time.Now().UTC() at the call. *)
Definition NewAccount (id : UUID) (now : Time) (userID : UUID)
    (accountNumber accountType currency : string) : Account.t :=
  Account.mk id userID accountNumber accountType currency 0%Q
    AccountStatusActive now now.

End account_entity.

Import account_entity.

(** ** fmt: the verbs the sources use on integers *)

Module fmt.

(** [%d] *)
Definition Sprintf_d (n : Z) : string := pretty n.

Fixpoint zeros (k : nat) : string :=
  match k with
  | O => ""
  | S k => String "0"%char (zeros k)
  end.

(** [%010d]: the sign, then zeros up to a width of ten, then the digits. *)
Definition Sprintf_010d (n : Z) : string :=
  let sign := if n <? 0 then "-" else "" in
  let digits := pretty (Z.abs n) in
  sign +:+ zeros (10 - String.length sign - String.length digits)%nat +:+ digits.

End fmt.

(** ** The statements of the account use case *)

Module store.

Inductive AccountStmt : Type :=
| InsertAccount (a : Account.t)
| SelectAccountByNumber (accountNumber : string)
| SelectAccountsByUser (userID : UUID) (limit offset : Z)
| CountAccountsByUser (userID : UUID)
| UpdateAccount (id : UUID) (accountType currency status : string)
| SelectTransactionsByAccount (accountID : UUID) (limit offset : Z)
| CountTransactionsByAccount (accountID : UUID).

(** What an invocation of the account use case draws from outside the
    program, besides [Env]: the statements above on which the store
    reports an error, the values of uuid.New() and time.Now().UTC() in
    [NewAccount], and the number [rng.Int63n(10000000000)] returns in
    [generateAccountNumber]. *)
Record AccountEnv : Type := mkAccountEnv {
  failsAccount : AccountStmt -> option string;
  accountID : UUID;
  accountCreatedAt : Time;
  drawn : Z
}.

(** [pool.QueryRow], [pool.Exec] and [tx.Exec] on a statement whose
    outcome at the store is [failure]. *)
Definition poolQueryOn {A} (failure : option string) (f : DB -> A) : M A :=
  fun w =>
    match failure with
    | Some msg => (inl (DriverError msg), w)
    | None => (inr (f (committed w)), w)
    end.

Definition poolExecOn (failure : option string) (f : DB -> DB) : M unit :=
  fun w =>
    match failure with
    | Some msg => (inl (DriverError msg), w)
    | None => (inr tt, mkWorld (f (committed w)) (pending w) (lockLog w))
    end.

Definition txExecOn (failure : option string) (f : DB -> DB) : M unit :=
  fun w =>
    match failure with
    | Some msg => (inl (DriverError msg), w)
    | None =>
        match pending w with
        | Some d => (inr tt, mkWorld (committed w) (Some (f d)) (lockLog w))
        | None => (inl (DriverError "tx is closed"), w)
        end
    end.

End store.

Import store.

(** ** internal/adapter/repository/postgres: account_repo.go *)

Module account_repo.

(** fmt.Sprintf("%010d", rng.Int63n(10000000000)), on the number drawn. *)
Definition generateAccountNumber (drawn : Z) : string :=
  fmt.Sprintf_010d drawn.

(** INSERT INTO accounts (all nine columns).  The balance of the struct is
    kept as it is: the use case inserts the zero of [NewAccount], which
    the DECIMAL(19,4) column holds unchanged. *)
Definition insert (a : Account.t) (d : DB) : DB :=
  mkDB (accounts d ++ [a]) (transfers d) (transactions d).

(** Create.  The account number is filled in, in the caller's struct, when
    it is empty; the value of the computation is that struct after the
    call. *)
Definition Create (aenv : AccountEnv) (ctx : Ctx) (account : Account.t)
    : M Account.t :=
  let account :=
    if bool_decide (Account.AccountNumber account = "")
    then Account.mk (Account.ID account) (Account.UserID account)
           (generateAccountNumber (drawn aenv)) (Account.AccountType account)
           (Account.Currency account) (Account.Balance account)
           (Account.Status account) (Account.CreatedAt account)
           (Account.UpdatedAt account)
    else account in
  do* match ctx with
      | TxCtx =>
          txExecOn (failsAccount aenv (InsertAccount account)) (insert account)
      | Background =>
          poolExecOn (failsAccount aenv (InsertAccount account)) (insert account)
      end in
  ret account.



(** ORDER BY created_at DESC *)
Definition newerFirst (a1 a2 : Account.t) : Prop :=
  Account.CreatedAt a2 <= Account.CreatedAt a1.

#[global] Instance newerFirst_dec : RelDecision newerFirst.
Proof. intros a1 a2. unfold newerFirst. apply _. Defined.

(** SELECT ... FROM accounts WHERE user_id = $1 ORDER BY created_at DESC,
    before LIMIT and OFFSET. *)
Definition selectByUser (userID : UUID) (d : DB) : list Account.t :=
  merge_sort newerFirst
    (List.filter (fun a => bool_decide (Account.UserID a = userID))
       (accounts d)).

(** GetByUserID.  The store rejects a negative LIMIT or OFFSET. *)
Definition GetByUserID (aenv : AccountEnv) (ctx : Ctx) (userID : UUID)
    (limit offset : Z) : M (list Account.t) :=
  if (limit <? 0) || (offset <? 0)
  then throw (DriverError "LIMIT and OFFSET must not be negative")
  else
    poolQueryOn (failsAccount aenv (SelectAccountsByUser userID limit offset))
      (fun d => transferRepository.limitOffset limit offset (selectByUser userID d)).

(** SELECT COUNT( * ) FROM accounts WHERE user_id = $1 *)
Definition countByUser (userID : UUID) (d : DB) : Z :=
  Z.of_nat
    (length (List.filter (fun a => bool_decide (Account.UserID a = userID))
               (accounts d))).

Definition CountByUserID (aenv : AccountEnv) (ctx : Ctx) (userID : UUID) : M Z :=
  poolQueryOn (failsAccount aenv (CountAccountsByUser userID))
    (countByUser userID).

(** UPDATE accounts SET account_type = $2, currency = $3, status = $4,
    updated_at = NOW() WHERE id = $1 *)
Definition update (now : Time) (id : UUID) (accountType currency status : string)
    (d : DB) : DB :=
  mkDB
    (List.map
       (fun a =>
          if bool_decide (Account.ID a = id)
          then Account.mk (Account.ID a) (Account.UserID a)
                 (Account.AccountNumber a) accountType currency
                 (Account.Balance a) status (Account.CreatedAt a) now
          else a)
       (accounts d))
    (transfers d) (transactions d).

Definition Update (env : Env) (aenv : AccountEnv) (ctx : Ctx)
    (account : Account.t) : M unit :=
  let s := UpdateAccount (Account.ID account) (Account.AccountType account)
             (Account.Currency account) (Account.Status account) in
  let f := update (dbNow env) (Account.ID account) (Account.AccountType account)
             (Account.Currency account) (Account.Status account) in
  match ctx with
  | TxCtx => txExecOn (failsAccount aenv s) f
  | Background => poolExecOn (failsAccount aenv s) f
  end.

End account_repo.

(** ** internal/adapter/repository/postgres: the transaction repository *)

Module transaction_repo.

(** ORDER BY created_at DESC *)
Definition newerFirst (t1 t2 : Transaction.t) : Prop :=
  Transaction.CreatedAt t2 <= Transaction.CreatedAt t1.

#[global] Instance newerFirst_dec : RelDecision newerFirst.
Proof. intros t1 t2. unfold newerFirst. apply _. Defined.

(** WHERE account_id = $1 *)
Definition ofAccount (accountID : UUID) (d : DB) : list Transaction.t :=
  List.filter (fun tx => bool_decide (Transaction.AccountID tx = accountID))
    (transactions d).

(** SELECT ... WHERE account_id = $1 ORDER BY created_at DESC, before LIMIT
    and OFFSET. *)
Definition selectByAccount (accountID : UUID) (d : DB) : list Transaction.t :=
  merge_sort newerFirst (ofAccount accountID d).

Definition GetByAccountID (aenv : AccountEnv) (ctx : Ctx) (accountID : UUID)
    (limit offset : Z) : M (list Transaction.t) :=
  if (limit <? 0) || (offset <? 0)
  then throw (DriverError "LIMIT and OFFSET must not be negative")
  else
    poolQueryOn
      (failsAccount aenv (SelectTransactionsByAccount accountID limit offset))
      (fun d =>
         transferRepository.limitOffset limit offset (selectByAccount accountID d)).

(** SELECT COUNT( * ) FROM transactions WHERE account_id = $1 *)
Definition countByAccount (accountID : UUID) (d : DB) : Z :=
  Z.of_nat (length (ofAccount accountID d)).

Definition CountByAccountID (aenv : AccountEnv) (ctx : Ctx) (accountID : UUID)
    : M Z :=
  poolQueryOn (failsAccount aenv (CountTransactionsByAccount accountID))
    (countByAccount accountID).

End transaction_repo.

(** ** internal/usecase/account *)

Module account.

Section service.
Variable env : Env.
Variable aenv : AccountEnv.

(** Create.  The account read back may be [nil]: the value is an option. *)
Definition Create (ctx : Ctx) (userID : UUID) (input : CreateAccountInput.t)
    : M (option Account.t) :=
  let account :=
    NewAccount (accountID aenv) (accountCreatedAt aenv) userID ""
      (CreateAccountInput.AccountType input)
      (CreateAccountInput.Currency input) in
  let* account :=
    wrapping (account_repo.Create aenv ctx account)
      "INTERNAL_ERROR" "Failed to create account" 500 in
  let* createdAccount :=
    wrapping (accountRepository.GetByID env ctx (Account.ID account))
      "INTERNAL_ERROR" "Failed to get created account" 500 in
  ret createdAccount.

Definition GetByID (ctx : Ctx) (userID accountID : UUID) : M Account.t :=
  let* account :=
    wrapping (accountRepository.GetByID env ctx accountID)
      "INTERNAL_ERROR" "Failed to get account" 500 in
  match account with
  | None => throw ErrAccountNotFound
  | Some account =>
      if negb (bool_decide (Account.UserID account = userID))
      then throw ErrForbidden
      else ret account
  end.

Definition GetByUserID (ctx : Ctx) (userID : UUID) (page pageSize : Z)
    : M (list Account.t * Z) :=
  let page := if page <? 1 then 1 else page in
  let pageSize := if (pageSize <? 1) || (100 <? pageSize) then 10 else pageSize in
  let offset := wrap64 ((page - 1) * pageSize) in
  let* accounts :=
    wrapping (account_repo.GetByUserID aenv ctx userID pageSize offset)
      "INTERNAL_ERROR" "Failed to get accounts" 500 in
  let* total :=
    wrapping (account_repo.CountByUserID aenv ctx userID)
      "INTERNAL_ERROR" "Failed to count accounts" 500 in
  ret (accounts, total).

Definition GetTransactions (ctx : Ctx) (userID accountID : UUID)
    (page pageSize : Z) : M (list Transaction.t * Z) :=
  let* account :=
    wrapping (accountRepository.GetByID env ctx accountID)
      "INTERNAL_ERROR" "Failed to get account" 500 in
  match account with
  | None => throw ErrAccountNotFound
  | Some account =>
  if negb (bool_decide (Account.UserID account = userID))
  then throw ErrForbidden
  else
  let page := if page <? 1 then 1 else page in
  let pageSize := if (pageSize <? 1) || (100 <? pageSize) then 10 else pageSize in
  let offset := wrap64 ((page - 1) * pageSize) in
  let* transactions :=
    wrapping (transaction_repo.GetByAccountID aenv ctx accountID pageSize offset)
      "INTERNAL_ERROR" "Failed to get transactions" 500 in
  let* total :=
    wrapping (transaction_repo.CountByAccountID aenv ctx accountID)
      "INTERNAL_ERROR" "Failed to count transactions" 500 in
  ret (transactions, total)
  end.

End service.

End account.

(* ------------------------------------------------------------------ *)
(** * The HTTP side of the transfer use case *)

(** ** internal/pkg/apperror: the fields of the errors *)

Module apperror_fields.

(** AppError; the field [Err] is the wrapped error, if any. *)
Record AppError : Type := mkAppError {
  Code : string;
  Message : string;
  StatusCode : Z;
  Err : option error
}.

Definition ErrUnauthorized : AppError :=
  mkAppError "UNAUTHORIZED" "Unauthorized access" 401 None.

Definition ErrInternalServer : AppError :=
  mkAppError "INTERNAL_ERROR" "Internal server error" 500 None.

Definition ErrTooManyRequests : AppError :=
  mkAppError "TOO_MANY_REQUESTS" "Too many requests" 429 None.

(** The [*AppError] an error value is, when it is one. *)
Definition asAppError (e : error) : option AppError :=
  match e with
  | ErrInvalidAmount => Some (mkAppError "INVALID_AMOUNT" "Invalid amount" 400 None)
  | ErrSameAccount =>
      Some (mkAppError "SAME_ACCOUNT" "Cannot transfer to the same account" 400 None)
  | ErrAccountNotFound =>
      Some (mkAppError "ACCOUNT_NOT_FOUND" "Account not found" 404 None)
  | ErrForbidden => Some (mkAppError "FORBIDDEN" "Access forbidden" 403 None)
  | ErrCurrencyMismatch =>
      Some (mkAppError "CURRENCY_MISMATCH" "Currency mismatch between accounts"
              400 None)
  | ErrInsufficientBalance =>
      Some (mkAppError "INSUFFICIENT_BALANCE" "Insufficient balance" 400 None)
  | ErrAccountInactive =>
      Some (mkAppError "ACCOUNT_INACTIVE" "Account is not active" 403 None)
  | ErrTransferNotFound =>
      Some (mkAppError "TRANSFER_NOT_FOUND" "Transfer not found" 404 None)
  | Wrap err code message status =>
      Some (mkAppError code message status (Some err))
  | DriverError _ | Errorf1 _ _ | Errorf2 _ _ _ => None
  end.

(** GetAppError: [errors.As] follows the chain of [Unwrap].  An
    [*AppError] is found at once; the errors built with the verb %w
    ([Errorf1]: the two calls in [WithTransaction]) unwrap to their
    operand; the error built with %v ([Errorf2]) and the errors of the
    driver hold no [*AppError]. *)
Fixpoint GetAppError (e : error) : option AppError :=
  match e with
  | Errorf1 _ a => GetAppError a
  | DriverError _ | Errorf2 _ _ _ => None
  | _ => asAppError e
  end.

End apperror_fields.

Import apperror_fields.

(** ** internal/adapter/handler: transfer_handler.go *)

Module handler.

(** TransferResponse *)
Record TransferResponse : Type := mkTransferResponse {
  ID : UUID;
  FromAccountID : UUID;
  ToAccountID : UUID;
  Amount : string;
  Currency : string;
  Status : string;
  CreatedAt : Time;
  CompletedAt : option Time
}.

(** What a handler leaves in the response: a JSON error body (the fields
    [code] and [message] of the [*AppError]; the others are not
    serialised), the listing with its pagination block, or a panic. *)
Inductive Response : Type :=
| JSONError (status : Z) (code message : string)
| JSONList (status : Z) (data : list TransferResponse)
    (page pageSize total totalPages : Z)
| Panic (reason : string).

(** The part of the gin context the handler reads: the value the Auth
    middleware stored under user_id, if any, and the query string. *)
Record Context : Type := mkContext {
  userID : option UUID;
  query : string -> option string
}.

(** c.DefaultQuery *)
Definition DefaultQuery (c : Context) (key defaultValue : string) : string :=
  default defaultValue (query c key).

Section handlers.

(** decimal.Decimal.StringFixed and strconv.Atoi, of the libraries; of
    [Atoi] only the integer it returns is used, the error is dropped. *)
Variable StringFixed : Decimal -> Z -> string.
Variable Atoi : string -> Z.
Variable env : Env.

(** (t *Transfer) ToResponse *)
Definition ToResponse (t : Transfer.t) : TransferResponse :=
  mkTransferResponse (Transfer.ID t) (Transfer.FromAccountID t)
    (Transfer.ToAccountID t) (StringFixed (Transfer.Amount t) 2)
    (Transfer.Currency t) (Transfer.Status t) (Transfer.CreatedAt t)
    (Transfer.CompletedAt t).

Definition handleError (err : error) : Response :=
  match GetAppError err with
  | Some appErr => JSONError (StatusCode appErr) (Code appErr) (Message appErr)
  | None =>
      JSONError 500 (Code ErrInternalServer) (Message ErrInternalServer)
  end.

(** (h *TransferHandler) List.  The division is Go's: it truncates, and
    panics on a zero divisor. *)
Definition List (ctx : Ctx) (c : Context) (w : World) : Response * World :=
  match userID c with
  | None =>
      (JSONError 401 (Code ErrUnauthorized) (Message ErrUnauthorized), w)
  | Some userID =>
      let page := Atoi (DefaultQuery c "page" "1") in
      let pageSize := Atoi (DefaultQuery c "page_size" "10") in
      match GetByUserID env ctx userID page pageSize w with
      | (inl err, w') => (handleError err, w')
      | (inr (transfers, total), w') =>
          let responses := List.map ToResponse transfers in
          if pageSize =? 0
          then (Panic "runtime error: integer divide by zero", w')
          else
            (JSONList 200 responses page pageSize total
               (wrap64 (Z.quot (wrap64 (wrap64 (total + pageSize) - 1)) pageSize)),
             w')
      end
  end.

End handlers.

End handler.

(** ** Redis, as the rate limiter uses it *)

Module redis.

(** A key holds an integer and, once EXPIRE was called on it, the instant
    (in seconds) at which it expires. *)
Record Entry : Type := mkEntry {
  value : Z;
  expiresAt : option Z
}.

Inductive Cmd : Type :=
| INCR (key : string)
| EXPIRE (key : string) (seconds : Z).

(** The Redis server: its keys, and the commands on which it, or the
    connection, reports an error. *)
Record Server : Type := mkServer {
  keys : gmap string Entry;
  failing : Cmd -> option string
}.

(** The entry of a key at the instant [now]: an expired key is no key. *)
Definition live (now : Z) (s : Server) (key : string) : option Entry :=
  match keys s !! key with
  | Some e =>
      match expiresAt e with
      | Some t => if t <=? now then None else Some e
      | None => Some e
      end
  | None => None
  end.

(** (r *RedisDB) Incr: INCR creates the key at 1 and keeps the expiry of
    a key it finds; it fails on a value at the top of the 64-bit range. *)
Definition Incr (now : Z) (key : string) (s : Server)
    : (string + Z) * Server :=
  match failing s (INCR key) with
  | Some msg => (inl msg, s)
  | None =>
      match live now s key with
      | Some e =>
          if value e =? 2 ^ 63 - 1
          then (inl "ERR increment or decrement would overflow", s)
          else
            (inr (value e + 1),
             mkServer (<[key := mkEntry (value e + 1) (expiresAt e)]> (keys s))
               (failing s))
      | None =>
          (inr 1, mkServer (<[key := mkEntry 1 None]> (keys s)) (failing s))
      end
  end.

(** (r *RedisDB) Expire: EXPIRE sets the instant at which a key it finds
    expires, and deletes the key when the time to live is not positive. *)
Definition Expire (now : Z) (key : string) (seconds : Z) (s : Server)
    : option string * Server :=
  match failing s (EXPIRE key seconds) with
  | Some msg => (Some msg, s)
  | None =>
      match live now s key with
      | Some e =>
          if seconds <=? 0
          then (None, mkServer (delete key (keys s)) (failing s))
          else
            (None,
             mkServer
               (<[key := mkEntry (value e) (Some (now + seconds))]> (keys s))
               (failing s))
      | None => (None, s)
      end
  end.

(** RateLimiter; windowSize is time.Minute, sixty seconds. *)
Record RateLimiter : Type := mkRateLimiter {
  requestsPerMinute : Z;
  windowSize : Z
}.

Definition NewRateLimiter (requestsPerMinute : Z) : RateLimiter :=
  mkRateLimiter requestsPerMinute 60.

(** fmt.Sprintf("ratelimit:%s:%d", key, now/60) *)
Definition windowKey (key : string) (now : Z) : string :=
  "ratelimit:" +:+ key +:+ ":" +:+ fmt.Sprintf_d (Z.quot now 60).

(** (rl *RateLimiter) Allow; [now] is time.Now().Unix(), and the clock of
    the Redis server shows the same second. *)
Definition Allow (rl : RateLimiter) (now : Z) (key : string) (s : Server)
    : (string + bool * Z) * Server :=
  let windowKey := windowKey key now in
  match Incr now windowKey s with
  | (inl err, s1) => (inl err, s1)
  | (inr count, s1) =>
      let expired :=
        if count =? 1
        then Expire now windowKey (windowSize rl) s1
        else (None, s1) in
      match expired with
      | (Some err, s2) => (inl err, s2)
      | (None, s2) =>
          let remaining := wrap64 (requestsPerMinute rl - count) in
          let remaining := if remaining <? 0 then 0 else remaining in
          (inr (count <=? requestsPerMinute rl, remaining), s2)
      end
  end.

Definition GetLimit (rl : RateLimiter) : Z := requestsPerMinute rl.

(** Several calls of [Allow] with one key, at the instants given. *)
Fixpoint AllowEach (rl : RateLimiter) (nows : list Z) (key : string)
    (s : Server) : list (string + bool * Z) * Server :=
  match nows with
  | [] => ([], s)
  | now :: nows =>
      let '(r, s1) := Allow rl now key s in
      let '(rs, s2) := AllowEach rl nows key s1 in
      (r :: rs, s2)
  end.

(** What the first [n] requests of a window are answered by a limiter of
    [requestsPerMinute] requests: request [i] is allowed when [i] is
    within the limit, and is told how many requests remain. *)
Definition counted (requestsPerMinute : Z) (first n : Z)
    : list (string + bool * Z) :=
  map (fun i => inr (i <=? requestsPerMinute, Z.max 0 (requestsPerMinute - i)))
      (seqZ first n).

(** The instants of the minute [n] (since 1970). *)
Definition inWindow (n : Z) (now : Z) : Prop :=
  0 <= now /\ Z.quot now 60 = n.

End redis.

(* ------------------------------------------------------------------ *)
(** ** internal/adapter/middleware *)

Module middleware.

Import redis.

(** What a middleware does with the request: it hands it on with
    c.Next(), or answers it itself.  Both carry the response headers the
    middleware has set. *)
Inductive Outcome : Type :=
| Next (headers : list (string * string))
| AbortWithStatusJSON (headers : list (string * string)) (status : Z)
    (error : apperror_fields.AppError).

(** RateLimitByIP *)
Definition RateLimitByIP (limiter : RateLimiter) (now : Z) (clientIP : string)
    (s : Server) : Outcome * Server :=
  let key := "ip:" +:+ clientIP in
  match Allow limiter now key s with
  | (inl err, s1) => (Next [], s1)
  | (inr (allowed, remaining), s1) =>
      let headers :=
        [("X-RateLimit-Limit", fmt.Sprintf_d (GetLimit limiter));
         ("X-RateLimit-Remaining", fmt.Sprintf_d remaining)] in
      if negb allowed
      then
        (AbortWithStatusJSON headers 429 apperror_fields.ErrTooManyRequests, s1)
      else (Next headers, s1)
  end.

End middleware.

(* ------------------------------------------------------------------ *)
(** * Further worked examples *)

Module Scenario.

Import Example.

(** The store of accounts reports no error; the next account gets the
    identifier 30, and the draw of its number is 42. *)
Definition aenv0 : AccountEnv := mkAccountEnv (fun _ => None) 30%N 500 42.

Definition savings : CreateAccountInput.t :=
  CreateAccountInput.mk "savings" CurrencyUSD.

(** X once it is frozen. *)
Definition Xfrozen : Account.t :=
  Account.mk 10%N alice "0000000010" "checking" CurrencyUSD (100 # 1)
    AccountStatusFrozen 0 0.

Definition wFrozen : World := mkWorld (mkDB [Xfrozen; Y] [] []) None [].

(** A transaction is open on the store of the first example. *)
Definition wOpen : World := mkWorld db0 (Some db0) [].

(** The store once alice's second transfer, under the key k2, is
    executed. *)
Definition w2 : World :=
  snd (Create plainDecimal env1 Background alice (fromXtoY "k2") w1).

(** A transfer of 5.00005 whose struct carries a completion instant. *)
Definition settled : Transfer.t :=
  Transfer.mk 400%N (Some "k4") 10%N 20%N (500005 # 100000) CurrencyUSD
    TransferStatusCompleted 4 (Some 5).

(** A reading of strconv.Atoi for the examples: an optional minus sign
    and digits; 0 for any other text. *)
Fixpoint digitsZ (s : string) (any : bool) (acc : Z) : option Z :=
  match s with
  | EmptyString => if any then Some acc else None
  | String c s' =>
      match digitOf c with
      | Some n => digitsZ s' true (10 * acc + n)
      | None => None
      end
  end.

Definition atoi (s : string) : Z :=
  match s with
  | String c s' =>
      if Ascii.eqb c "-"%char
      then default 0 (Z.opp <$> digitsZ s' false 0)
      else default 0 (digitsZ s false 0)
  | EmptyString => 0
  end.

(** A reading of StringFixed for the examples: the integral part. *)
Definition fixed (d : Decimal) (places : Z) : string :=
  fmt.Sprintf_d (Z.quot (Qnum d) (Z.pos (Qden d))).

(** alice lists her transfers with the query page_size=0, and with the
    query page_size=2. *)
Definition listWith (pageSize : string) : handler.Context :=
  handler.mkContext (Some alice)
    (fun k => if String.eqb k "page_size" then Some pageSize else None).

(** A Redis server without keys that reports no error, and one that
    cannot be reached. *)
Definition srv0 : redis.Server := redis.mkServer ∅ (fun _ => None).

Definition srvDown : redis.Server :=
  redis.mkServer ∅ (fun _ => Some "dial tcp: connection refused").

(** The server once a limiter of one request per minute has counted a
    request of 1.2.3.4 at the instant 60. *)
Definition srv1 : redis.Server :=
  snd (redis.Allow (redis.NewRateLimiter 1) 60 "ip:1.2.3.4" srv0).

End Scenario.

(* ------------------------------------------------------------------ *)
(** * Properties of the transfer engine *)

(** ** The scale of the columns *)

Lemma roundHalfAway_nonneg num den : 0 <= num -> 0 <= roundHalfAway num den.
Proof.
  intros H. unfold roundHalfAway.
  apply Z.mul_nonneg_nonneg; [lia|].
  apply Z.div_pos; lia.
Qed.

(** An integer multiple of the denominator rounds to the quotient. *)
Lemma roundHalfAway_exact k den : roundHalfAway (k * Z.pos den) den = k.
Proof.
  unfold roundHalfAway.
  assert (Hq : (2 * Z.abs (k * Z.pos den) + Z.pos den) / (2 * Z.pos den)
               = Z.abs k).
  { rewrite Z.abs_mul, (Z.abs_eq (Z.pos den)) by lia.
    symmetry. apply (Z.div_unique_pos _ _ _ (Z.pos den)); lia. }
  rewrite Hq, Z.sgn_mul. change (Z.sgn (Z.pos den)) with 1.
  rewrite Z.mul_1_r. lia.
Qed.

Lemma decimal_19_4_nonneg v : (0 <= v)%Q -> (0 <= decimal_19_4 v)%Q.
Proof.
  intros H. unfold decimal_19_4. rewrite Qred_correct.
  unfold Qle in *. simpl in *.
  pose proof (roundHalfAway_nonneg (Qnum v * 10000) (Qden v)). lia.
Qed.

(** A value of at most four decimals is kept as the number it is. *)
Lemma decimal_19_4_atScale4 v : atScale4 v -> (decimal_19_4 v == v)%Q.
Proof.
  unfold atScale4, decimal_19_4. intros H. rewrite Qred_correct.
  apply Z.mod_divide in H; [|lia]. destruct H as [k Hk].
  rewrite Hk, roundHalfAway_exact. unfold Qeq. simpl. lia.
Qed.

(** The two representations of a number are written as the same row. *)
Lemma roundHalfAway_scale num den c :
  roundHalfAway (num * Z.pos c) (den * c) = roundHalfAway num den.
Proof.
  unfold roundHalfAway. rewrite Z.sgn_mul, Z.abs_mul.
  change (Z.sgn (Z.pos c)) with 1. rewrite Z.mul_1_r, (Z.abs_eq (Z.pos c)) by lia.
  f_equal. rewrite Pos2Z.inj_mul.
  replace (2 * (Z.abs num * Z.pos c) + Z.pos den * Z.pos c)
    with ((2 * Z.abs num + Z.pos den) * Z.pos c) by ring.
  replace (2 * (Z.pos den * Z.pos c)) with ((2 * Z.pos den) * Z.pos c) by ring.
  apply Z.div_mul_cancel_r; lia.
Qed.

Lemma decimal_19_4_proper v1 v2 : (v1 == v2)%Q -> decimal_19_4 v1 = decimal_19_4 v2.
Proof.
  intros H. unfold decimal_19_4. apply Qred_complete.
  unfold Qeq in *. simpl.
  f_equal.
  rewrite <- (roundHalfAway_scale (Qnum v1 * 10000) (Qden v1) (Qden v2)).
  rewrite <- (roundHalfAway_scale (Qnum v2 * 10000) (Qden v2) (Qden v1)).
  f_equal; [lia|]. apply Pos.mul_comm.
Qed.

Lemma atScale4_decimal_19_4 v : atScale4 (decimal_19_4 v).
Proof.
  unfold atScale4, decimal_19_4.
  set (z := roundHalfAway _ _).
  pose proof (Qred_correct (z # 10000)) as H. unfold Qeq in H. simpl in H.
  apply Z.mod_divide; [lia|].
  exists z. lia.
Qed.

Lemma atScale4_plus a b : atScale4 a -> atScale4 b -> atScale4 (a + b)%Q.
Proof.
  unfold atScale4. intros Ha Hb.
  apply Z.mod_divide in Ha; [|lia]. apply Z.mod_divide in Hb; [|lia].
  destruct Ha as [ka Ha], Hb as [kb Hb].
  apply Z.mod_divide; [simpl; lia|]. exists (ka + kb).
  simpl. rewrite Pos2Z.inj_mul. nia.
Qed.

Lemma atScale4_opp a : atScale4 a -> atScale4 (- a)%Q.
Proof.
  unfold atScale4. intros Ha.
  apply Z.mod_divide in Ha; [|lia]. destruct Ha as [ka Ha].
  apply Z.mod_divide; [simpl; lia|]. exists (- ka). simpl. lia.
Qed.

Lemma atScale4_minus a b : atScale4 a -> atScale4 b -> atScale4 (a - b)%Q.
Proof. intros Ha Hb. apply atScale4_plus; [exact Ha|by apply atScale4_opp]. Qed.

(** ** The committed tables and the open transaction *)

Lemma keepsCommitted_ret {A} (a : A) : keepsCommitted (ret a).
Proof. intros w r w' H. inversion H. reflexivity. Qed.

Lemma keepsCommitted_throw {A} (e : error) : keepsCommitted (@throw A e).
Proof. intros w r w' H. inversion H. reflexivity. Qed.

Lemma keepsCommitted_bind {A B} (m : M A) (k : A -> M B) :
  keepsCommitted m -> (forall a, keepsCommitted (k a)) -> keepsCommitted (bind m k).
Proof.
  intros Hm Hk w r w' H. unfold bind in H.
  destruct (m w) as [[e|a] w1] eqn:E.
  - inversion H; subst. eauto.
  - rewrite (Hk a _ _ _ H). eauto.
Qed.

Lemma keepsCommitted_wrapping {A} (m : M A) code message status :
  keepsCommitted m -> keepsCommitted (wrapping m code message status).
Proof.
  intros Hm w r w' H. unfold wrapping in H.
  destruct (m w) as [[e|a] w1] eqn:E; inversion H; subst; eauto.
Qed.

Lemma keepsCommitted_txQuery {A} env s (f : DB -> A) :
  keepsCommitted (txQuery env s f).
Proof.
  intros w r w' H. unfold txQuery in H.
  repeat case_match; inversion H; reflexivity.
Qed.

Lemma keepsCommitted_txExec env s (f : DB -> DB) :
  keepsCommitted (txExec env s f).
Proof.
  intros w r w' H. unfold txExec in H.
  repeat case_match; inversion H; reflexivity.
Qed.

Lemma keepsCommitted_poolQuery {A} env s (f : DB -> A) :
  keepsCommitted (poolQuery env s f).
Proof.
  intros w r w' H. unfold poolQuery in H.
  repeat case_match; inversion H; reflexivity.
Qed.

Lemma keepsCommitted_lockRow {A} id (row : option A) :
  keepsCommitted (lockRow id row).
Proof.
  intros w r w' H. unfold lockRow in H.
  repeat case_match; inversion H; reflexivity.
Qed.

Create HintDb committed.
#[local] Hint Resolve keepsCommitted_ret keepsCommitted_throw
  keepsCommitted_wrapping keepsCommitted_txQuery keepsCommitted_txExec
  keepsCommitted_poolQuery keepsCommitted_lockRow : committed.

Ltac keeps_committed :=
  repeat first
    [ apply keepsCommitted_bind; [ | intros ? ]
    | apply keepsCommitted_wrapping
    | solve [ auto with committed ]
    | case_match ].

(** Inside the transaction every statement of the closure goes to the
    transaction: none reaches the committed tables. *)
Lemma createTx_keepsCommitted env userID input amount :
  keepsCommitted (createTx env userID input amount TxCtx).
Proof.
  unfold createTx, accountRepository.GetByIDForUpdate,
    accountRepository.UpdateBalance, transferRepository.Create,
    transactionRepository.Create, transferRepository.UpdateStatus.
  keeps_committed.
Qed.

(** [WithTransaction] publishes the view of the transaction only when the
    closure returns no error and the commit succeeds. *)
Lemma WithTransaction_error {A} env ctx (fn : Ctx -> M A) w e w' :
  keepsCommitted (fn TxCtx) ->
  WithTransaction env ctx fn w = (inl e, w') ->
  committed w' = committed w.
Proof.
  intros Hfn H. unfold WithTransaction in H.
  destruct (fails env Begin); [inversion H; reflexivity|].
  destruct (fn TxCtx _) as [[err|a] w1] eqn:E.
  - apply Hfn in E. simpl in E.
    destruct (fails env Rollback); inversion H; subst; simpl; exact E.
  - apply Hfn in E. simpl in E.
    destruct (fails env Commit); inversion H; subst; simpl; exact E.
Qed.

(** ** The runs of the closure *)

Ltac unfold_store :=
  unfold accountRepository.GetByIDForUpdate, accountRepository.UpdateBalance,
    transferRepository.Create, transactionRepository.Create,
    transferRepository.UpdateStatus, transferRepository.GetByIdempotencyKey,
    wrapping, bind, ret, throw, txQuery, txExec, poolQuery, lockRow in *.

(** A run of the closure that returns no error read both accounts, passed
    the five checks and issued every statement. *)
Lemma createTx_ok env userID input amount w t w' :
  createTx env userID input amount TxCtx w = (inr t, w') ->
  exists d fromAccount toAccount,
    pending w = Some d /\
    accountRepository.selectByID (CreateTransferInput.FromAccountID input) d
      = Some fromAccount /\
    accountRepository.selectByID (CreateTransferInput.ToAccountID input) d
      = Some toAccount /\
    Account.UserID fromAccount = userID /\
    Account.Currency fromAccount = Account.Currency toAccount /\
    Account.CanDebit fromAccount amount = true /\
    Account.CanCredit toAccount = true /\
    t = completedTransfer env input amount (Account.Currency fromAccount) /\
    w' = mkWorld (committed w)
           (Some (executed env input amount fromAccount toAccount d))
           (lockLog w ++ [CreateTransferInput.FromAccountID input;
                          CreateTransferInput.ToAccountID input]).
Proof.
  intros H. destruct w as [c p l]. unfold createTx in H. unfold_store.
  simpl in H.
  repeat (case_match; simplify_eq/=).
  all: repeat match goal with
       | H : negb _ = false |- _ => apply negb_false_iff in H
       | H : negb _ = true |- _ => apply negb_true_iff in H
       | H : bool_decide _ = true |- _ => apply bool_decide_eq_true in H
       end.
  all: match goal with
       | Hf : accountRepository.selectByID
                (CreateTransferInput.FromAccountID _) ?d = Some ?a,
         Ht : accountRepository.selectByID
                (CreateTransferInput.ToAccountID _) _ = Some ?b |- _ =>
           exists d, a, b
       end; unfold completedTransfer, executed, keyOf, debitTx,
         creditTx, NewTransaction; simpl.
  all: match goal with H : bool_decide _ = _ |- _ => rewrite H | _ => idtac end.
  all: rewrite <- app_assoc; simpl.
  all: repeat split; try done.
  all: rewrite bool_decide_eq_true_2 by assumption; reflexivity.
Qed.

Lemma scopeFailure_isAppError e : scopeFailure e -> isAppError e = true.
Proof.
  intros [->|[->|[->|[->|[->|(msg & message & ->)]]]]]; reflexivity.
Qed.

Lemma errorsIn_ret {A} P (a : A) : errorsIn P (ret a).
Proof. intros w e w' H. inversion H. Qed.

Lemma errorsIn_throw {A} (P : error -> Prop) e : P e -> errorsIn P (@throw A e).
Proof. intros HP w e' w' H. inversion H; subst. exact HP. Qed.

Lemma errorsIn_bind {A B} P (m : M A) (k : A -> M B) :
  errorsIn P m -> (forall a, errorsIn P (k a)) -> errorsIn P (bind m k).
Proof.
  intros Hm Hk w e w' H. unfold bind in H.
  destruct (m w) as [[e0|a] w1] eqn:E.
  - inversion H; subst. exact (Hm _ _ _ E).
  - exact (Hk a _ _ _ H).
Qed.

Lemma errorsIn_wrapping {A} (m : M A) message :
  errorsIn isDriverError m ->
  errorsIn scopeFailure (wrapping m "INTERNAL_ERROR" message 500).
Proof.
  intros Hm w e w' H. unfold wrapping in H.
  destruct (m w) as [[e0|a] w1] eqn:E; inversion H; subst.
  destruct (Hm _ _ _ E) as [msg ->].
  do 5 right. eauto.
Qed.

Lemma errorsIn_txQuery {A} env s (f : DB -> A) :
  errorsIn isDriverError (txQuery env s f).
Proof.
  intros w e w' H. unfold txQuery in H.
  repeat case_match; inversion H; eexists; reflexivity.
Qed.

Lemma errorsIn_txExec env s (f : DB -> DB) :
  errorsIn isDriverError (txExec env s f).
Proof.
  intros w e w' H. unfold txExec in H.
  repeat case_match; inversion H; eexists; reflexivity.
Qed.

Lemma errorsIn_lockRow {A} P id (row : option A) : errorsIn P (lockRow id row).
Proof. intros w e w' H. unfold lockRow in H. case_match; inversion H. Qed.

Lemma createTx_error env userID input amount w e w' :
  createTx env userID input amount TxCtx w = (inl e, w') -> scopeFailure e.
Proof.
  revert w e w'. change (errorsIn scopeFailure (createTx env userID input amount TxCtx)).
  unfold createTx, accountRepository.GetByIDForUpdate,
    accountRepository.UpdateBalance, transferRepository.Create,
    transactionRepository.Create, transferRepository.UpdateStatus.
  repeat first
    [ apply errorsIn_ret
    | apply errorsIn_throw; unfold scopeFailure; tauto
    | apply errorsIn_wrapping
    | apply errorsIn_txQuery
    | apply errorsIn_txExec
    | apply errorsIn_lockRow
    | apply errorsIn_bind; [ | intros ? ]
    | case_match ].
Qed.

(** The locks a run of the closure takes, whatever its outcome: the source
    row first, the destination row second, and none besides. *)
Lemma createTx_locks env userID input amount w r w' :
  createTx env userID input amount TxCtx w = (r, w') ->
  exists l,
    lockLog w' = (lockLog w ++ l)%list /\
    (l = [] \/ l = [CreateTransferInput.FromAccountID input] \/
     l = [CreateTransferInput.FromAccountID input;
          CreateTransferInput.ToAccountID input]).
Proof.
  intros H. destruct w as [c p l]. unfold createTx in H. unfold_store.
  simpl in H.
  repeat (case_match; simplify_eq/=);
    rewrite <- ?app_assoc; simpl;
    first [ by exists []; rewrite app_nil_r; auto
          | by eexists [_]; auto
          | by eexists [_; _]; auto ].
Qed.

(** ** The runs of [Create] *)

Section create_runs.
Variable NewFromString : string -> option Decimal.
Variable env : Env.
Variable ctx : Ctx.
Variable userID : UUID.
Variable input : CreateTransferInput.t.

(** The request is answered from the transfer store. *)
Lemma Create_replay w t :
  CreateTransferInput.IdempotencyKey input <> "" ->
  fails env (SelectTransferByIdempotencyKey
               (CreateTransferInput.IdempotencyKey input)) = None ->
  transferRepository.selectByIdempotencyKey
    (CreateTransferInput.IdempotencyKey input) (committed w) = Some t ->
  Create NewFromString env ctx userID input w = (inr t, w).
Proof.
  intros Hkey Hfail Hsel.
  unfold Create, checkIdempotencyKey. unfold_store.
  rewrite bool_decide_eq_false_2 by exact Hkey. simpl.
  rewrite Hfail, Hsel. reflexivity.
Qed.

Lemma Create_scope w amount :
  entersScope NewFromString env ctx input w amount ->
  Create NewFromString env ctx userID input w
  = WithTransaction env ctx (createTx env userID input amount) w.
Proof.
  intros (Hchk & Hparse & Hpos & Hne).
  unfold Create, bind. rewrite Hchk, Hparse.
  destruct (Qle_bool amount 0) eqn:E.
  - apply Qle_bool_iff in E. exfalso. exact (Qlt_not_le _ _ Hpos E).
  - rewrite bool_decide_eq_false_2 by exact Hne. reflexivity.
Qed.

(** The lookup neither fails nor finds a transfer exactly when the request
    has no key or no transfer is stored under it. *)
Lemma checkIdempotencyKey_none w w' :
  checkIdempotencyKey env ctx input w = (inr None, w') ->
  storedFor input (committed w) = None /\ w' = w.
Proof.
  unfold checkIdempotencyKey, storedFor. unfold_store.
  destruct (bool_decide _); simpl; intros H.
  - inversion H; auto.
  - repeat (case_match; simplify_eq/=). auto.
Qed.

Lemma checkIdempotencyKey_some w t w' :
  checkIdempotencyKey env ctx input w = (inr (Some t), w') ->
  storedFor input (committed w) = Some t /\ w' = w.
Proof.
  unfold checkIdempotencyKey, storedFor. unfold_store.
  destruct (bool_decide _); simpl; intros H.
  - inversion H.
  - repeat (case_match; simplify_eq/=). auto.
Qed.

Lemma checkIdempotencyKey_error w e w' :
  checkIdempotencyKey env ctx input w = (inl e, w') -> w' = w.
Proof.
  unfold checkIdempotencyKey. unfold_store.
  destruct (bool_decide _); simpl; intros H.
  - inversion H.
  - repeat (case_match; simplify_eq/=). auto.
Qed.

(** A [Create] that returns a transfer either answered from the transfer
    store, leaving the store as it was, or executed the transfer. *)
Lemma Create_ok w t w' :
  Create NewFromString env ctx userID input w = (inr t, w') ->
  (storedFor input (committed w) = Some t /\ w' = w) \/
  (storedFor input (committed w) = None /\
   exists amount fromAccount toAccount,
     entersScope NewFromString env ctx input w amount /\
     accountRepository.selectByID (CreateTransferInput.FromAccountID input)
       (committed w) = Some fromAccount /\
     accountRepository.selectByID (CreateTransferInput.ToAccountID input)
       (committed w) = Some toAccount /\
     Account.UserID fromAccount = userID /\
     Account.Currency fromAccount = Account.Currency toAccount /\
     Account.CanDebit fromAccount amount = true /\
     Account.CanCredit toAccount = true /\
     t = completedTransfer env input amount (Account.Currency fromAccount) /\
     w' = mkWorld
            (executed env input amount fromAccount toAccount (committed w))
            None
            (lockLog w ++ [CreateTransferInput.FromAccountID input;
                           CreateTransferInput.ToAccountID input])).
Proof.
  intros H. unfold Create in H. unfold bind at 1 in H.
  destruct (checkIdempotencyKey env ctx input w) as [[e|[t0|]] w0] eqn:Hchk.
  - inversion H.
  - apply checkIdempotencyKey_some in Hchk as [Hs ->].
    inversion H; subst. left. auto.
  - pose proof Hchk as Hchk'.
    apply checkIdempotencyKey_none in Hchk as [Hs ->].
    right. split; [exact Hs|].
    destruct (NewFromString _) as [amount|] eqn:Hparse; [|inversion H].
    destruct (Qle_bool amount 0) eqn:Hle; [inversion H|].
    destruct (bool_decide _) eqn:Hne; [inversion H|].
    apply bool_decide_eq_false in Hne.
    assert (Hpos : (0 < amount)%Q).
    { apply Qnot_le_lt. intros Hc. apply Qle_bool_iff in Hc. congruence. }
    unfold WithTransaction in H.
    destruct (fails env Begin); [inversion H|].
    destruct (createTx _ _ _ _ _ _) as [[err|a] w1] eqn:Htx.
    { destruct (fails env Rollback); inversion H. }
    destruct (fails env Commit); [inversion H|].
    apply createTx_ok in Htx
      as (d & fa & ta & Hd & Hf & Ht & Hu & Hc & Hdeb & Hcred & -> & ->).
    simpl in Hd. inversion Hd; subst d.
    inversion H; subst. simpl.
    exists amount, fa, ta. repeat split; auto.
Qed.

(** A [Create] that returns an error leaves the committed tables as they
    were. *)
Lemma Create_error_committed w e w' :
  Create NewFromString env ctx userID input w = (inl e, w') ->
  committed w' = committed w.
Proof.
  intros H. unfold Create in H. unfold bind at 1 in H.
  destruct (checkIdempotencyKey env ctx input w) as [[e0|[t0|]] w0] eqn:Hchk.
  - apply checkIdempotencyKey_error in Hchk. inversion H; subst. reflexivity.
  - inversion H.
  - apply checkIdempotencyKey_none in Hchk as [_ ->].
    destruct (NewFromString _) as [amount|]; [|inversion H; reflexivity].
    destruct (Qle_bool amount 0); [inversion H; reflexivity|].
    destruct (bool_decide _); [inversion H; reflexivity|].
    eapply WithTransaction_error; [|exact H].
    apply createTx_keepsCommitted.
Qed.

End create_runs.

(** ** The tables after an execution *)

Lemma find_map_same {A} (p : A -> bool) (f : A -> A) (l : list A) :
  (forall x, p (f x) = p x) ->
  List.find p (List.map f l) = f <$> List.find p l.
Proof.
  intros Hp. induction l as [|x l IH]; simpl; [reflexivity|].
  rewrite Hp. destruct (p x); [reflexivity|exact IH].
Qed.

Lemma find_app_none {A} (p : A -> bool) (l1 l2 : list A) :
  List.find p l1 = None -> List.find p (l1 ++ l2) = List.find p l2.
Proof.
  induction l1 as [|x l1 IH]; simpl; [reflexivity|].
  destruct (p x); [discriminate|exact IH].
Qed.

Lemma selectByID_ID id d a :
  accountRepository.selectByID id d = Some a -> Account.ID a = id.
Proof.
  unfold accountRepository.selectByID. intros H.
  apply List.find_some in H as [_ H]. by apply bool_decide_eq_true in H.
Qed.

Lemma selectByID_In id d a :
  accountRepository.selectByID id d = Some a -> In a (accounts d).
Proof.
  unfold accountRepository.selectByID. intros H.
  by apply List.find_some in H as [H _].
Qed.

Lemma selectByID_updateBalance now id b k d :
  accountRepository.selectByID k (accountRepository.updateBalance now id b d)
  = (fun a => if bool_decide (k = id)
              then withBalance now (decimal_19_4 b) a else a)
      <$> accountRepository.selectByID k d.
Proof.
  unfold accountRepository.selectByID, accountRepository.updateBalance. simpl.
  rewrite find_map_same.
  - destruct (List.find _ _) as [a|] eqn:E; simpl; [|reflexivity].
    apply List.find_some in E as [_ E]. apply bool_decide_eq_true in E.
    subst k. reflexivity.
  - intros x. destruct (bool_decide (Account.ID x = id)); reflexivity.
Qed.

(** The accounts after an execution: the source and the destination carry
    their new balances, every other identifier selects the row it selected
    before. *)
Lemma executed_selectByID env input amount fromAccount toAccount d k :
  Account.ID fromAccount <> Account.ID toAccount ->
  accountRepository.selectByID k
    (executed env input amount fromAccount toAccount d)
  = (fun a =>
       if bool_decide (k = Account.ID fromAccount)
       then withBalance (dbNow env)
              (decimal_19_4 (Qminus (Account.Balance fromAccount) amount)) a
       else if bool_decide (k = Account.ID toAccount)
       then withBalance (dbNow env)
              (decimal_19_4 (Qplus (Account.Balance toAccount) amount)) a
       else a)
      <$> accountRepository.selectByID k d.
Proof.
  intros Hne. unfold executed.
  match goal with
  | |- _ = ?rhs =>
      change (accountRepository.selectByID k
                (accountRepository.updateBalance (dbNow env)
                   (Account.ID toAccount)
                   (Qplus (Account.Balance toAccount) amount)
                   (accountRepository.updateBalance (dbNow env)
                      (Account.ID fromAccount)
                      (Qminus (Account.Balance fromAccount) amount) d)) = rhs)
  end.
  rewrite !selectByID_updateBalance.
  destruct (accountRepository.selectByID k d) as [a|]; simpl; [|reflexivity].
  f_equal. repeat case_bool_decide; subst; try reflexivity. congruence.
Qed.

Lemma executed_accounts env input amount fromAccount toAccount d :
  accounts (executed env input amount fromAccount toAccount d)
  = List.map
      (fun a =>
         if bool_decide (Account.ID a = Account.ID toAccount)
         then withBalance (dbNow env)
                (decimal_19_4 (Qplus (Account.Balance toAccount) amount)) a
         else a)
      (List.map
         (fun a =>
            if bool_decide (Account.ID a = Account.ID fromAccount)
            then withBalance (dbNow env)
                   (decimal_19_4 (Qminus (Account.Balance fromAccount) amount)) a
            else a)
         (accounts d)).
Proof. reflexivity. Qed.

(** The ledger after an execution: the debit row and the credit row are
    appended, in this order. *)
Lemma executed_transactions env input amount fromAccount toAccount d :
  transactions (executed env input amount fromAccount toAccount d)
  = (transactions d ++
       [debitRow env fromAccount toAccount amount;
        creditRow env fromAccount toAccount amount])%list.
Proof. unfold executed. simpl. by rewrite <- app_assoc. Qed.

(** The transfer store after an execution of a request with a key under
    which nothing was stored: the key now selects the completed transfer,
    with its amount at the scale of the column. *)
Lemma executed_selectByIdempotencyKey env input amount fromAccount toAccount d :
  CreateTransferInput.IdempotencyKey input <> "" ->
  transferRepository.selectByIdempotencyKey
    (CreateTransferInput.IdempotencyKey input) d = None ->
  transferRepository.selectByIdempotencyKey
    (CreateTransferInput.IdempotencyKey input)
    (executed env input amount fromAccount toAccount d)
  = Some (asStored
            (completedTransfer env input amount (Account.Currency fromAccount))).
Proof.
  intros Hkey Hnone.
  assert (Hk : keyOf input = Some (CreateTransferInput.IdempotencyKey input)).
  { unfold keyOf. by rewrite bool_decide_eq_false_2 by exact Hkey. }
  unfold transferRepository.selectByIdempotencyKey, executed in *. simpl.
  rewrite find_map_same.
  - rewrite find_app_none by exact Hnone. simpl. rewrite Hk.
    rewrite !bool_decide_eq_true_2 by reflexivity. simpl.
    rewrite bool_decide_eq_true_2 by reflexivity.
    unfold completedTransfer. by rewrite Hk.
  - intros x. destruct (bool_decide (Transfer.ID x = transferID env)); reflexivity.
Qed.

(** Row by row: an execution keeps the identifier of every account row and
    rewrites only the rows of the source and of the destination. *)
Lemma executed_rows env input amount fromAccount toAccount d :
  Forall2
    (fun a a' =>
       Account.ID a' = Account.ID a /\
       (Account.ID a <> Account.ID fromAccount ->
        Account.ID a <> Account.ID toAccount -> a' = a))
    (accounts d)
    (accounts (executed env input amount fromAccount toAccount d)).
Proof.
  rewrite executed_accounts.
  induction (accounts d) as [|a l IH]; simpl; constructor; [|exact IH].
  repeat case_bool_decide; simpl in *; split; try reflexivity; try congruence.
Qed.

Lemma CanDebit_covers a amount :
  Account.CanDebit a amount = true -> (0 <= Account.Balance a - amount)%Q.
Proof.
  unfold Account.CanDebit. intros H.
  apply andb_true_iff in H as [_ H]. apply Qle_bool_iff in H.
  by apply (proj1 (Qle_minus_iff amount (Account.Balance a))).
Qed.

Lemma executed_nonNegative env input amount fromAccount toAccount d :
  (0 <= Account.Balance fromAccount - amount)%Q ->
  (0 <= Account.Balance toAccount + amount)%Q ->
  nonNegative d ->
  nonNegative (executed env input amount fromAccount toAccount d).
Proof.
  intros Hf Ht Hd. unfold nonNegative in *. rewrite executed_accounts.
  apply decimal_19_4_nonneg in Hf, Ht.
  induction Hd as [|a l Ha Hl IH]; simpl; constructor; [|exact IH].
  repeat case_bool_decide; simpl; assumption.
Qed.

(** The balances the source and the destination carry after an execution:
    the old balance minus, and plus, the amount, at the scale of the
    column. *)
Lemma executed_balances env input amount fromAccount toAccount d :
  accountRepository.selectByID (CreateTransferInput.FromAccountID input) d
    = Some fromAccount ->
  accountRepository.selectByID (CreateTransferInput.ToAccountID input) d
    = Some toAccount ->
  CreateTransferInput.FromAccountID input <> CreateTransferInput.ToAccountID input ->
  Account.Balance <$>
    accountRepository.selectByID (CreateTransferInput.FromAccountID input)
      (executed env input amount fromAccount toAccount d)
    = Some (decimal_19_4 (Account.Balance fromAccount - amount)%Q) /\
  Account.Balance <$>
    accountRepository.selectByID (CreateTransferInput.ToAccountID input)
      (executed env input amount fromAccount toAccount d)
    = Some (decimal_19_4 (Account.Balance toAccount + amount)%Q).
Proof.
  intros Hf Ht Hne.
  pose proof (selectByID_ID _ _ _ Hf) as Hfid.
  pose proof (selectByID_ID _ _ _ Ht) as Htid.
  assert (Hne' : Account.ID fromAccount <> Account.ID toAccount) by congruence.
  rewrite !executed_selectByID by exact Hne'. rewrite Hf, Ht. simpl. split.
  - rewrite bool_decide_eq_true_2 by congruence. reflexivity.
  - rewrite bool_decide_eq_false_2 by congruence.
    rewrite bool_decide_eq_true_2 by congruence. reflexivity.
Qed.

(** The transfer an execution returns is in the transfer store, with its
    amount at the scale of the column. *)
Lemma executed_stored_In env input amount fromAccount toAccount d :
  In (asStored (completedTransfer env input amount (Account.Currency fromAccount)))
     (transfers (executed env input amount fromAccount toAccount d)).
Proof.
  unfold executed, transferRepository.updateStatus. cbn [transfers].
  apply in_map_iff.
  exists (transferRepository.row
            (NewTransfer (transferID env) (transferCreatedAt env)
               (CreateTransferInput.FromAccountID input)
               (CreateTransferInput.ToAccountID input)
               amount (Account.Currency fromAccount) (keyOf input))).
  split.
  - simpl. rewrite bool_decide_eq_true_2 by reflexivity. reflexivity.
  - simpl. apply in_or_app. right. left. reflexivity.
Qed.

Lemma selectByIdempotencyKey_None key d :
  Forall (fun t => Transfer.IdempotencyKey t <> Some key) (transfers d) ->
  transferRepository.selectByIdempotencyKey key d = None.
Proof.
  unfold transferRepository.selectByIdempotencyKey.
  induction 1 as [|t l Ht _ IH]; simpl; [reflexivity|].
  rewrite bool_decide_eq_false_2 by exact Ht. exact IH.
Qed.

Lemma selectByIdempotencyKey_Some key d t :
  transferRepository.selectByIdempotencyKey key d = Some t ->
  In t (transfers d) /\ Transfer.IdempotencyKey t = Some key.
Proof.
  unfold transferRepository.selectByIdempotencyKey. intros H.
  apply List.find_some in H as [Hin H]. split; [exact Hin|].
  by apply bool_decide_eq_true in H.
Qed.

(** ** The listing query *)

#[local] Instance newerFirst_trans : Transitive transferRepository.newerFirst.
Proof. intros x y z. unfold transferRepository.newerFirst. lia. Qed.

#[local] Instance newerFirst_total : Total transferRepository.newerFirst.
Proof. intros x y. unfold transferRepository.newerFirst. lia. Qed.

Lemma joinAccounts_In userID d t :
  In t (transferRepository.joinAccounts userID d) <->
  In t (transfers d) /\ touchesUser userID d t.
Proof.
  unfold transferRepository.joinAccounts, touchesUser.
  rewrite in_flat_map. split.
  - intros (t' & Ht' & H). apply in_flat_map in H as (a & Ha & H).
    destruct (_ && _) eqn:E; [|destruct H].
    destruct H as [<-|[]].
    apply andb_true_iff in E as [E1 E2]. apply bool_decide_eq_true in E2.
    apply orb_true_iff in E1.
    split; [exact Ht'|]. exists a. split; [exact Ha|]. split; [exact E2|].
    destruct E1 as [E1|E1]; apply bool_decide_eq_true in E1; auto.
  - intros (Ht & a & Ha & Hu & Hside).
    exists t. split; [exact Ht|]. apply in_flat_map. exists a.
    split; [exact Ha|].
    rewrite (bool_decide_eq_true_2 _ Hu), andb_true_r.
    destruct Hside as [E|E]; rewrite (bool_decide_eq_true_2 _ E);
      rewrite ?orb_true_r; simpl; auto.
Qed.

Lemma selectByUser_In userID d t :
  In t (transferRepository.selectByUser userID d) <->
  In t (transfers d) /\ touchesUser userID d t.
Proof.
  unfold transferRepository.selectByUser.
  rewrite <- joinAccounts_In, <- !list_elem_of_In.
  rewrite merge_sort_Permutation. apply elem_of_remove_dups.
Qed.

Lemma selectByUser_NoDup userID d :
  NoDup (transferRepository.selectByUser userID d).
Proof.
  unfold transferRepository.selectByUser.
  rewrite merge_sort_Permutation. apply NoDup_remove_dups.
Qed.

Lemma selectByUser_sorted userID d :
  StronglySorted transferRepository.newerFirst
    (transferRepository.selectByUser userID d).
Proof. apply StronglySorted_merge_sort; apply _. Qed.

Lemma effectivePage_bounds page :
  1 <= effectivePage page /\
  (1 <= page -> effectivePage page = page) /\
  (page < 1 -> effectivePage page = 1).
Proof. unfold effectivePage. destruct (Z.ltb_spec page 1); lia. Qed.

Lemma effectivePageSize_bounds pageSize :
  1 <= effectivePageSize pageSize <= 100 /\
  (1 <= pageSize <= 100 -> effectivePageSize pageSize = pageSize) /\
  (pageSize < 1 \/ 100 < pageSize -> effectivePageSize pageSize = 10).
Proof.
  unfold effectivePageSize.
  destruct (Z.ltb_spec pageSize 1), (Z.ltb_spec 100 pageSize); simpl; lia.
Qed.

Lemma wrap64_small z : 0 <= z < 2 ^ 63 -> wrap64 z = z.
Proof. intros H. unfold wrap64. rewrite Z.mod_small; lia. Qed.

(** A listing that returns rows read one page of the query. *)
Lemma GetByUserID_ok env ctx userID page pageSize w ts total w' :
  GetByUserID env ctx userID page pageSize w = (inr (ts, total), w') ->
  exists offset,
    0 <= offset /\
    ts = transferRepository.limitOffset (effectivePageSize pageSize) offset
           (transferRepository.selectByUser userID (committed w)) /\
    total = Z.of_nat (length ts) /\ w' = w.
Proof.
  unfold GetByUserID, transferRepository.GetByUserID.
  unfold wrapping, bind, ret, throw, poolQuery.
  set (offset := wrap64 _). intros H.
  destruct (effectivePageSize_bounds pageSize) as [[Hps _] _].
  destruct (Z.ltb_spec (effectivePageSize pageSize) 0); [lia|].
  destruct (Z.ltb_spec offset 0); simpl in H; [inversion H|].
  destruct (fails env _); inversion H; subst.
  exists offset. auto.
Qed.

(** On a store that reports no error the closure returns the business
    failure of the first check that does not pass. *)
Lemma createTx_businessFailure env userID input amount w d e :
  (forall s, fails env s = None) ->
  pending w = Some d ->
  businessFailure userID amount
    (accountRepository.selectByID (CreateTransferInput.FromAccountID input) d)
    (accountRepository.selectByID (CreateTransferInput.ToAccountID input) d)
    = Some e ->
  fst (createTx env userID input amount TxCtx w) = inl e.
Proof.
  intros Hok Hp Hb. destruct w as [c p l]. simpl in Hp. subst p.
  unfold businessFailure in Hb. unfold createTx. unfold_store.
  rewrite !Hok. simpl.
  destruct (accountRepository.selectByID
              (CreateTransferInput.FromAccountID input) d) as [fa|];
    simpl; [|by inversion Hb].
  destruct (bool_decide (Account.UserID fa = userID)); simpl;
    [|by inversion Hb].
  rewrite !Hok. simpl.
  destruct (accountRepository.selectByID
              (CreateTransferInput.ToAccountID input) d) as [ta|];
    simpl; [|by inversion Hb].
  destruct (negb (bool_decide (Account.Currency fa = Account.Currency ta)));
    [by inversion Hb|].
  destruct (negb (Account.CanDebit fa amount)); [by inversion Hb|].
  destruct (negb (Account.CanCredit ta)); [by inversion Hb|].
  discriminate Hb.
Qed.

(* ------------------------------------------------------------------ *)
(** * The claims *)

Section claims.
Variable NewFromString : string -> option Decimal.

(** ** Failure and rollback *)

(** C1, as amended.  A [Create] that returns an error leaves the committed
    accounts, ledger and transfer store as they were, so that no transfer
    record of the invocation is observable, pending or otherwise.  When the
    failing step lies inside the atomic scope, the error of the closure is
    a typed failure (AccountNotFound, Forbidden, CurrencyMismatch,
    InsufficientBalance, AccountInactive, or Internal around the error of
    the failing statement); [Create] returns it as it is when the rollback
    call reports no error, and returns the untyped combination
    "tx error: ..., rollback error: ..." when the rollback call reports
    one.  On a store that reports no error the failure returned is the one
    of the first check that does not pass. *)
Theorem Create_failure_rolls_back env ctx userID input w e w' :
  Create NewFromString env ctx userID input w = (inl e, w') ->
  committed w' = committed w /\
  (forall amount err wtx,
    entersScope NewFromString env ctx input w amount ->
    fails env Begin = None ->
    createTx env userID input amount TxCtx (begun w) = (inl err, wtx) ->
    scopeFailure err /\
    isAppError err = true /\
    e = match fails env Rollback with
        | None => err
        | Some rb =>
            Errorf2 "tx error: %v, rollback error: %v" err (DriverError rb)
        end) /\
  (forall amount failure,
     entersScope NewFromString env ctx input w amount ->
     (forall s, fails env s = None) ->
     businessFailure userID amount
       (accountRepository.selectByID (CreateTransferInput.FromAccountID input)
          (committed w))
       (accountRepository.selectByID (CreateTransferInput.ToAccountID input)
          (committed w))
       = Some failure ->
     e = failure).
Proof.
  intros H. split; [exact (Create_error_committed _ _ _ _ _ _ _ _ H)|]. split.
  - intros amount err wtx Hscope Hbegin Htx.
    pose proof (createTx_error _ _ _ _ _ _ _ Htx) as Hfail.
    split; [exact Hfail|]. split; [exact (scopeFailure_isAppError _ Hfail)|].
    rewrite (Create_scope _ _ _ userID _ _ _ Hscope) in H.
    unfold WithTransaction in H. rewrite Hbegin in H.
    unfold begun in Htx. rewrite Htx in H.
    destruct (fails env Rollback); inversion H; reflexivity.
  - intros amount failure Hscope Hok Hchecks.
    rewrite (Create_scope _ _ _ userID _ _ _ Hscope) in H.
    unfold WithTransaction in H. rewrite !Hok in H.
    pose proof (createTx_businessFailure env userID input amount (begun w)
                  (committed w) failure Hok eq_refl Hchecks) as Hrun.
    unfold begun in Hrun.
    destruct (createTx _ _ _ _ _ _) as [[err|a] wtx]; simpl in Hrun;
      inversion Hrun; subst. inversion H. reflexivity.
Qed.

(** ** Lock order *)

Lemma Create_locks env ctx userID input w r w' :
  Create NewFromString env ctx userID input w = (r, w') ->
  exists l,
    lockLog w' = (lockLog w ++ l)%list /\
    (l = [] \/ l = [CreateTransferInput.FromAccountID input] \/
     l = [CreateTransferInput.FromAccountID input;
          CreateTransferInput.ToAccountID input]).
Proof.
  intros H.
  assert (Hsame : forall w0 : World, w0 = w' -> w0 = w -> exists l,
            lockLog w' = (lockLog w ++ l)%list /\
            (l = [] \/ l = [CreateTransferInput.FromAccountID input] \/
             l = [CreateTransferInput.FromAccountID input;
                  CreateTransferInput.ToAccountID input])).
  { intros w0 <- ->. exists []. rewrite app_nil_r. auto. }
  unfold Create in H. unfold bind at 1 in H.
  destruct (checkIdempotencyKey env ctx input w) as [[e0|[t0|]] w0] eqn:Hchk.
  - apply checkIdempotencyKey_error in Hchk. inversion H; subst. eauto.
  - apply checkIdempotencyKey_some in Hchk as [_ ->]. inversion H; subst. eauto.
  - apply checkIdempotencyKey_none in Hchk as [_ ->].
    destruct (NewFromString _) as [amount|]; [|inversion H; subst; eauto].
    destruct (Qle_bool amount 0); [inversion H; subst; eauto|].
    destruct (bool_decide _); [inversion H; subst; eauto|].
    unfold WithTransaction in H.
    destruct (fails env Begin); [inversion H; subst; eauto|].
    destruct (createTx _ _ _ _ _ _) as [[err|a] w1] eqn:Htx;
      apply createTx_locks in Htx as (l & Hl & Hcases); simpl in Hl;
      exists l; (split; [|exact Hcases]).
    + destruct (fails env Rollback); inversion H; subst; exact Hl.
    + destruct (fails env Commit); inversion H; subst; exact Hl.
Qed.

(** C4, as amended.  [Create] takes the row locks in the order of the
    request, not of the identifiers: whatever its outcome it locks the
    source first and the destination second and no other row, and a
    [Create] that executes a transfer has locked exactly the source and
    then the destination.  A transfer from A to B and a transfer from B to
    A therefore take the two locks in opposite orders. *)
Theorem Create_locks_source_then_destination env ctx userID input w r w' :
  Create NewFromString env ctx userID input w = (r, w') ->
  exists l,
    lockLog w' = (lockLog w ++ l)%list /\
    (l = [] \/ l = [CreateTransferInput.FromAccountID input] \/
     l = [CreateTransferInput.FromAccountID input;
          CreateTransferInput.ToAccountID input]) /\
    (forall t, r = inr t -> storedFor input (committed w) = None ->
       l = [CreateTransferInput.FromAccountID input;
            CreateTransferInput.ToAccountID input]).
Proof.
  intros H. destruct (Create_locks _ _ _ _ _ _ _ H) as (l & Hl & Hcases).
  exists l. split; [exact Hl|]. split; [exact Hcases|].
  intros t -> Hnone.
  apply Create_ok in H as [[Hs _]|(_ & amount & fa & ta & _ & _ & _ & _ & _ & _ & _ & _ & ->)].
  - congruence.
  - simpl in Hl. by apply app_inv_head in Hl.
Qed.

(** ** The order of the checks inside the scope *)

(** C5, as amended.  For a request that enters the atomic scope on a store
    that reports no error: a missing source gives AccountNotFound; a source
    the requester does not own gives Forbidden, also when the destination
    is missing, because the destination is read only after the ownership
    check; a missing destination gives AccountNotFound when the requester
    owns the source. *)
Theorem Create_missing_account env ctx userID input w amount :
  entersScope NewFromString env ctx input w amount ->
  (forall s, fails env s = None) ->
  let fromRow :=
    accountRepository.selectByID (CreateTransferInput.FromAccountID input)
      (committed w) in
  let toRow :=
    accountRepository.selectByID (CreateTransferInput.ToAccountID input)
      (committed w) in
  let result := fst (Create NewFromString env ctx userID input w) in
  (fromRow = None -> result = inl ErrAccountNotFound) /\
  (forall a, fromRow = Some a -> Account.UserID a <> userID ->
     result = inl ErrForbidden) /\
  (forall a, fromRow = Some a -> Account.UserID a = userID -> toRow = None ->
     result = inl ErrAccountNotFound).
Proof.
  intros Hscope Hok fromRow toRow result. subst fromRow toRow result.
  rewrite (Create_scope _ _ _ userID _ _ _ Hscope).
  unfold WithTransaction, createTx. unfold_store.
  rewrite !Hok. simpl.
  split; [|split].
  - intros Hfrom. rewrite !Hfrom. simpl. reflexivity.
  - intros a Hfrom Hne. rewrite !Hfrom. simpl.
    rewrite bool_decide_eq_false_2 by exact Hne. reflexivity.
  - intros a Hfrom Heq Hto. rewrite !Hfrom. simpl.
    rewrite bool_decide_eq_true_2 by exact Heq. simpl.
    rewrite !Hto. reflexivity.
Qed.

(** ** Idempotency *)

(** C9.  A request with a non-empty key under which a transfer is stored is
    answered with that transfer before anything else is looked at: whoever
    the requester is and whatever the amount and the two accounts of the
    request are, [Create] returns the stored transfer and the store is left
    as it was. *)
Theorem Create_replay_returns_stored env ctx userID input w t :
  CreateTransferInput.IdempotencyKey input <> "" ->
  fails env (SelectTransferByIdempotencyKey
               (CreateTransferInput.IdempotencyKey input)) = None ->
  transferRepository.selectByIdempotencyKey
    (CreateTransferInput.IdempotencyKey input) (committed w) = Some t ->
  Create NewFromString env ctx userID input w = (inr t, w).
Proof. apply Create_replay. Qed.

(** C3, as amended.  Once a [Create] with a non-empty key has returned a
    transfer, a second [Create] with that key, by any requester and with
    any payload, returns the transfer stored under the key and leaves the
    store as the first call left it.  The stored transfer is the one the
    first call returned, with its amount at the four decimals of the
    column: the same transfer when the amount has at most four decimals.
    When no transfer carried the key before the first call, the ledger
    after the two calls is the ledger before them followed by one pair of
    rows, both of which refer to that transfer. *)
Theorem Create_idempotent env1 ctx1 userID1 input1 env2 ctx2 userID2 input2
    w t w1 :
  let key := CreateTransferInput.IdempotencyKey input1 in
  key <> "" ->
  CreateTransferInput.IdempotencyKey input2 = key ->
  fails env2 (SelectTransferByIdempotencyKey key) = None ->
  Create NewFromString env1 ctx1 userID1 input1 w = (inr t, w1) ->
  exists stored,
    Create NewFromString env2 ctx2 userID2 input2 w1 = (inr stored, w1) /\
    In stored (transfers (committed w1)) /\
    Transfer.IdempotencyKey stored = Some key /\
    (stored = t \/ stored = asStored t) /\
    (atScale4 (Transfer.Amount t) ->
     (Transfer.Amount stored == Transfer.Amount t)%Q) /\
    (Forall (fun t0 => Transfer.IdempotencyKey t0 <> Some key)
       (transfers (committed w)) ->
     stored = asStored t /\
     exists debit credit,
       transactions (committed w1)
         = (transactions (committed w) ++ [debit; credit])%list /\
       Transaction.Type_ debit = TransactionTypeDebit /\
       Transaction.Type_ credit = TransactionTypeCredit /\
       Transaction.ReferenceID debit = Some (Transfer.ID stored) /\
       Transaction.ReferenceID credit = Some (Transfer.ID stored)).
Proof.
  intros key Hkey Hsame Hfail H1.
  assert (Hstored : storedFor input1 (committed w)
            = transferRepository.selectByIdempotencyKey key (committed w)).
  { unfold storedFor. by rewrite bool_decide_eq_false_2 by exact Hkey. }
  apply Create_ok in H1
    as [[Hs ->]|(Hs & amount & fa & ta & _ & Hf & Ht & _ & _ & _ & _ & -> & ->)];
    rewrite Hstored in Hs.
  - exists t.
    destruct (selectByIdempotencyKey_Some _ _ _ Hs) as [Hin Hk].
    split; [apply Create_replay; rewrite Hsame; assumption|].
    split; [exact Hin|]. split; [exact Hk|]. split; [by left|].
    split; [reflexivity|].
    intros Hnone. apply selectByIdempotencyKey_None in Hnone. congruence.
  - pose proof (executed_selectByIdempotencyKey env1 input1 amount fa ta
                  (committed w) Hkey Hs) as Hsel.
    exists (asStored (completedTransfer env1 input1 amount (Account.Currency fa))).
    destruct (selectByIdempotencyKey_Some _ _ _ Hsel) as [Hin Hk].
    split; [apply Create_replay; rewrite Hsame; assumption|].
    split; [exact Hin|]. split; [exact Hk|]. split; [by right|].
    split; [exact (decimal_19_4_atScale4 _)|].
    intros _. split; [reflexivity|].
    cbn [committed]. rewrite executed_transactions.
    eexists _, _. split; [reflexivity|]. repeat split.
Qed.

End claims.

Section claims_balances.
Variable NewFromString : string -> option Decimal.

(** ** Balances and ledger *)

(** C2, as amended.  A [Create] that executes the transfer (the request is
    not answered from a transfer stored under its key) and returns it,
    with an amount and two old balances of at most four decimals, leaves
    the source with its old balance minus the amount and the destination
    with its old balance plus the amount, so that the sum of the two
    balances is the same before and after.  Whatever the amount, every
    other identifier selects the very row it selected before, and no
    account row with another identifier is changed. *)
Theorem Create_executed_balances env ctx userID input w t w' :
  Create NewFromString env ctx userID input w = (inr t, w') ->
  storedFor input (committed w) = None ->
  exists amount fromAccount toAccount fromAccount' toAccount',
    NewFromString (CreateTransferInput.Amount input) = Some amount /\
    Transfer.Amount t = amount /\
    accountRepository.selectByID (CreateTransferInput.FromAccountID input)
      (committed w) = Some fromAccount /\
    accountRepository.selectByID (CreateTransferInput.ToAccountID input)
      (committed w) = Some toAccount /\
    accountRepository.selectByID (CreateTransferInput.FromAccountID input)
      (committed w') = Some fromAccount' /\
    accountRepository.selectByID (CreateTransferInput.ToAccountID input)
      (committed w') = Some toAccount' /\
    (atScale4 amount -> atScale4 (Account.Balance fromAccount) ->
     atScale4 (Account.Balance toAccount) ->
     (Account.Balance fromAccount'
      == Account.Balance fromAccount - amount)%Q /\
     (Account.Balance toAccount'
      == Account.Balance toAccount + amount)%Q /\
     (Account.Balance fromAccount + Account.Balance toAccount
      == Account.Balance fromAccount' + Account.Balance toAccount')%Q) /\
    (forall k,
       k <> CreateTransferInput.FromAccountID input ->
       k <> CreateTransferInput.ToAccountID input ->
       accountRepository.selectByID k (committed w')
       = accountRepository.selectByID k (committed w)) /\
    Forall2
      (fun a a' =>
         Account.ID a' = Account.ID a /\
         (Account.ID a <> CreateTransferInput.FromAccountID input ->
          Account.ID a <> CreateTransferInput.ToAccountID input -> a' = a))
      (accounts (committed w)) (accounts (committed w')).
Proof.
  intros H Hnone.
  apply Create_ok in H
    as [[Hs _]|(_ & amount & fa & ta & Hscope & Hf & Ht & _ & _ & _ & _ & -> & ->)];
    [congruence|].
  destruct Hscope as (_ & Hparse & _ & Hne).
  pose proof (selectByID_ID _ _ _ Hf) as Hfid.
  pose proof (selectByID_ID _ _ _ Ht) as Htid.
  assert (Hne' : Account.ID fa <> Account.ID ta) by congruence.
  exists amount, fa, ta,
    (withBalance (dbNow env) (decimal_19_4 (Account.Balance fa - amount)%Q) fa),
    (withBalance (dbNow env) (decimal_19_4 (Account.Balance ta + amount)%Q) ta).
  cbn [committed].
  split; [exact Hparse|]. split; [reflexivity|].
  split; [exact Hf|]. split; [exact Ht|].
  split.
  { rewrite executed_selectByID by exact Hne'. rewrite Hf. simpl.
    rewrite bool_decide_eq_true_2 by congruence. reflexivity. }
  split.
  { rewrite executed_selectByID by exact Hne'. rewrite Ht. simpl.
    rewrite bool_decide_eq_false_2 by congruence.
    rewrite bool_decide_eq_true_2 by congruence. reflexivity. }
  split; [|split].
  - intros Ha Hbf Hbt. cbn [withBalance Account.Balance].
    rewrite !decimal_19_4_atScale4
      by (first [by apply atScale4_minus | by apply atScale4_plus]).
    repeat split; try reflexivity. ring.
  - intros k Hk1 Hk2. rewrite executed_selectByID by exact Hne'.
    destruct (accountRepository.selectByID k (committed w)); simpl; [|reflexivity].
    rewrite !bool_decide_eq_false_2 by congruence. reflexivity.
  - rewrite <- Hfid, <- Htid.
    exact (executed_rows env input amount fa ta (committed w)).
Qed.

(** C6, as amended.  A [Create] that executes the transfer and returns it
    appends exactly two rows to the ledger: a debit on the source and then
    a credit on the destination, each with the amount of the transfer as
    the transfer table holds it (the amount of the request at four
    decimals: the amount of the returned transfer when that has at most
    four), the new balance of its account as balance_after and the
    identifier of the transfer as reference.  A [Create] that answers from
    the transfer store appends nothing, and neither does a [Create] that
    returns an error. *)
Theorem Create_ledger_rows env ctx userID input w r w' :
  Create NewFromString env ctx userID input w = (r, w') ->
  match r with
  | inl _ => transactions (committed w') = transactions (committed w)
  | inr t =>
      (storedFor input (committed w) = Some t /\
       transactions (committed w') = transactions (committed w)) \/
      (storedFor input (committed w) = None /\
       In (asStored t) (transfers (committed w')) /\
       exists debit credit,
         transactions (committed w')
           = (transactions (committed w) ++ [debit; credit])%list /\
         Transaction.Type_ debit = TransactionTypeDebit /\
         Transaction.AccountID debit = CreateTransferInput.FromAccountID input /\
         Transaction.Amount debit = Transfer.Amount (asStored t) /\
         Account.Balance <$>
           accountRepository.selectByID
             (CreateTransferInput.FromAccountID input) (committed w')
           = Some (Transaction.BalanceAfter debit) /\
         Transaction.ReferenceID debit = Some (Transfer.ID t) /\
         Transaction.Type_ credit = TransactionTypeCredit /\
         Transaction.AccountID credit = CreateTransferInput.ToAccountID input /\
         Transaction.Amount credit = Transfer.Amount (asStored t) /\
         Account.Balance <$>
           accountRepository.selectByID
             (CreateTransferInput.ToAccountID input) (committed w')
           = Some (Transaction.BalanceAfter credit) /\
         Transaction.ReferenceID credit = Some (Transfer.ID t) /\
         (atScale4 (Transfer.Amount t) ->
          (Transaction.Amount debit == Transfer.Amount t)%Q /\
          (Transaction.Amount credit == Transfer.Amount t)%Q))
  end.
Proof.
  intros H. destruct r as [e|t].
  - by rewrite (Create_error_committed _ _ _ _ _ _ _ _ H).
  - apply Create_ok in H
      as [[Hs ->]|(Hs & amount & fa & ta & Hscope & Hf & Ht & _ & _ & _ & _ & Et & Ew)].
    + left. auto.
    + right. split; [exact Hs|].
      destruct Hscope as (_ & _ & _ & Hne).
      destruct (executed_balances env input amount fa ta (committed w) Hf Ht Hne)
        as [Hbf Hbt].
      subst t w'. cbn [committed].
      split; [apply executed_stored_In|].
      exists (debitRow env fa ta amount), (creditRow env fa ta amount).
      rewrite Hbf, Hbt.
      rewrite executed_transactions.
      pose proof (selectByID_ID _ _ _ Hf). pose proof (selectByID_ID _ _ _ Ht).
      repeat split; try assumption.
      all: match goal with
           | Ha : atScale4 _ |- _ => exact (decimal_19_4_atScale4 _ Ha)
           end.
Qed.

(** C7.  Non-negative balances are kept by [Create]: if every account has a
    balance of at least zero before the invocation, every account has one
    after it, whatever the invocation returns.  A [Create] that executes
    the transfer has found the source active with a balance of at least the
    amount, and the amount positive. *)
Theorem Create_keeps_balances_nonnegative env ctx userID input w r w' :
  nonNegative (committed w) ->
  Create NewFromString env ctx userID input w = (r, w') ->
  nonNegative (committed w') /\
  (forall t, r = inr t -> storedFor input (committed w) = None ->
     exists amount fromAccount,
       NewFromString (CreateTransferInput.Amount input) = Some amount /\
       accountRepository.selectByID (CreateTransferInput.FromAccountID input)
         (committed w) = Some fromAccount /\
       Account.Status fromAccount = AccountStatusActive /\
       (amount <= Account.Balance fromAccount)%Q /\
       (0 < amount)%Q).
Proof.
  intros Hinv H. destruct r as [e|t].
  - split; [by rewrite (Create_error_committed _ _ _ _ _ _ _ _ H)|].
    intros t Ht. discriminate Ht.
  - apply Create_ok in H
      as [[Hs ->]|(_ & amount & fa & ta & Hscope & Hf & Ht & _ & _ & Hdeb & _ & _ & ->)].
    { split; [exact Hinv|]. intros t' Ht' Hnone. congruence. }
    destruct Hscope as (_ & Hparse & Hpos & _). split.
    + cbn [committed]. apply executed_nonNegative; [|  |exact Hinv].
      * by apply CanDebit_covers.
      * apply selectByID_In in Ht. unfold nonNegative in Hinv.
        rewrite List.Forall_forall in Hinv. specialize (Hinv _ Ht).
        apply Qlt_le_weak in Hpos.
        replace 0%Q with (0 + 0)%Q by reflexivity.
        by apply Qplus_le_compat.
    + intros _ _ _. exists amount, fa.
      unfold Account.CanDebit in Hdeb.
      apply andb_true_iff in Hdeb as [Hact Hle].
      apply bool_decide_eq_true in Hact. apply Qle_bool_iff in Hle. auto.
Qed.

End claims_balances.

(** ** Listing the transfers of a user *)

(** C8, as amended.  [GetByUserID] treats a page below 1 as page 1, and
    replaces a page size outside [1, 100] by 10 (it does not clamp it to
    the nearest bound); a page size inside [1, 100] is used as it is.  On
    a store that reports no error, and as long as the offset fits Go's
    [int], it returns the page of that size at that position of the
    transfers that touch an account of the requester, each listed once,
    newest first. *)
Theorem GetByUserID_page env ctx userID page pageSize w :
  let p := effectivePage page in
  let ps := effectivePageSize pageSize in
  let all := transferRepository.selectByUser userID (committed w) in
  let rows := take (Z.to_nat ps) (drop (Z.to_nat ((p - 1) * ps)) all) in
  (p - 1) * ps < 2 ^ 63 ->
  fails env (SelectTransfersByUser userID ps ((p - 1) * ps)) = None ->
  (1 <= p /\ (1 <= page -> p = page) /\ (page < 1 -> p = 1)) /\
  (1 <= ps <= 100 /\ (1 <= pageSize <= 100 -> ps = pageSize) /\
   (pageSize < 1 \/ 100 < pageSize -> ps = 10)) /\
  GetByUserID env ctx userID page pageSize w
    = (inr (rows, Z.of_nat (length rows)), w) /\
  (forall t, In t all <->
     In t (transfers (committed w)) /\ touchesUser userID (committed w) t) /\
  NoDup all /\
  StronglySorted transferRepository.newerFirst all.
Proof.
  intros p ps all rows Hfit Hok.
  pose proof (effectivePage_bounds page) as Hp.
  pose proof (effectivePageSize_bounds pageSize) as Hps.
  fold p in Hp. fold ps in Hps.
  split; [exact Hp|]. split; [exact Hps|].
  split; [|split; [apply selectByUser_In|split;
    [apply selectByUser_NoDup|apply selectByUser_sorted]]].
  unfold GetByUserID, transferRepository.GetByUserID.
  fold p ps. rewrite wrap64_small by nia.
  unfold wrapping, bind, ret, poolQuery.
  destruct (Z.ltb_spec ps 0); [lia|].
  destruct (Z.ltb_spec ((p - 1) * ps) 0); [nia|]. simpl.
  rewrite Hok. reflexivity.
Qed.

(** C10, as amended.  The total [GetByUserID] returns is the length of the
    page it returns, not the number of matching transfers: it never
    exceeds the page size in force (the requested one when that lies in
    [1, 100], and 10 otherwise), and it is below the number of matching
    transfers whenever there are more of them than the page size in
    force. *)
Theorem GetByUserID_total_is_page_length env ctx userID page pageSize w
    ts total w' :
  GetByUserID env ctx userID page pageSize w = (inr (ts, total), w') ->
  let matching :=
    Z.of_nat (length (transferRepository.selectByUser userID (committed w))) in
  total = Z.of_nat (length ts) /\
  total <= effectivePageSize pageSize /\
  (1 <= pageSize <= 100 -> total <= pageSize) /\
  (effectivePageSize pageSize < matching -> total < matching).
Proof.
  intros H matching.
  apply GetByUserID_ok in H as (offset & Hoff & -> & -> & ->).
  pose proof (effectivePageSize_bounds pageSize) as [Hps [Hin _]].
  assert (Hlen : Z.of_nat (length
            (transferRepository.limitOffset (effectivePageSize pageSize) offset
               (transferRepository.selectByUser userID (committed w))))
          <= effectivePageSize pageSize).
  { unfold transferRepository.limitOffset. rewrite length_take. lia. }
  split; [reflexivity|]. split; [exact Hlen|]. split.
  - intros Hr. specialize (Hin Hr). lia.
  - intros Hmore. lia.
Qed.

(* ------------------------------------------------------------------ *)
(** * The claims on the worked example *)

Section example.
Import Example.

(** alice's transfer of 40 from X (100) to Y (50) completes: the balances
    become 60 and 90, the ledger gets the debit and the credit, and the
    locks were taken on X and then on Y. *)
Example transfer_completes :
  Create plainDecimal env0 Background alice (fromXtoY "k1") w0
  = (inr (Transfer.mk 100%N (Some "k1") 10%N 20%N (40 # 1) "USD" "completed"
            1000 (Some 1003)),
     w1)
  /\ List.map Account.Balance (accounts (committed w1)) = [60 # 1; 90 # 1]
  /\ List.map Transaction.BalanceAfter (transactions (committed w1))
     = [60 # 1; 90 # 1]
  /\ lockLog w1 = [10%N; 20%N].
Proof. repeat split; vm_compute; reflexivity. Qed.

(** The store of the example stays non-negative. *)
Lemma db0_nonNegative : nonNegative (committed w0).
Proof. repeat constructor; discriminate. Defined.

(** Witness of C1: alice asks for a transfer from X to an account
    that does not exist; the closure fails with AccountNotFound, the
    rollback succeeds, and the store is as before. *)
Lemma Create_failure_rolls_back_witness :
  Create plainDecimal env0 Background alice fromXtoNowhere w0
    = (inl ErrAccountNotFound, mkWorld db0 None [10%N]) /\
  committed (mkWorld db0 None [10%N]) = committed w0 /\
  scopeFailure ErrAccountNotFound /\
  isAppError ErrAccountNotFound = true.
Proof.
  assert (H : Create plainDecimal env0 Background alice fromXtoNowhere w0
              = (inl ErrAccountNotFound, mkWorld db0 None [10%N]))
    by reflexivity.
  destruct (Create_failure_rolls_back plainDecimal env0 Background alice
              fromXtoNowhere w0 _ _ H) as (Hc & Hs & _).
  destruct (Hs (40 # 1) ErrAccountNotFound (mkWorld db0 (Some db0) [10%N]))
    as (Hf & Ha & _).
  - repeat split; try reflexivity. discriminate.
  - reflexivity.
  - reflexivity.
  - auto.
Defined.

(** Counterexample to C1: the connection is lost after the debit of the
    source.  The closure fails with the typed Internal failure, the
    rollback call fails too, and [Create] returns the untyped combination
    of the two errors, not the typed failure. *)
Lemma Create_rollback_error_untyped :
  fst (createTx envLost alice (fromXtoY "") (40 # 1) TxCtx (begun w0))
    = inl (Wrap (DriverError "connection lost") "INTERNAL_ERROR"
             "Failed to update destination account balance" 500) /\
  Create plainDecimal envLost Background alice (fromXtoY "") w0
    = (inl (Errorf2 "tx error: %v, rollback error: %v"
              (Wrap (DriverError "connection lost") "INTERNAL_ERROR"
                 "Failed to update destination account balance" 500)
              (DriverError "connection lost")),
       mkWorld db0 None [10%N; 20%N]) /\
  isAppError
    (Errorf2 "tx error: %v, rollback error: %v"
       (Wrap (DriverError "connection lost") "INTERNAL_ERROR"
          "Failed to update destination account balance" 500)
       (DriverError "connection lost")) = false.
Proof. repeat split; vm_compute; reflexivity. Qed.

(** Atomicity under failure injection: in that run the transaction had
    debited the source when it failed, and nothing of it is committed. *)
Example debit_is_rolled_back :
  (Account.Balance <$>
     (pending (snd (createTx envLost alice (fromXtoY "") (40 # 1) TxCtx (begun w0)))
        ≫= accountRepository.selectByID 10%N)) = Some (60 # 1) /\
  committed (snd (Create plainDecimal envLost Background alice (fromXtoY "") w0))
    = db0.
Proof. split; vm_compute; reflexivity. Qed.

(** Counterexample to C2.  First, alice repeats her request under the key
    k1: [Create] returns the stored transfer, so the invocation completes,
    but the balance of the source stays at 60: it is not 60 minus 40.
    Second, alice moves 0.00005 from X (100) to Y (50): the transfer is
    executed, X keeps 100.0000, which is not 100 minus 0.00005, Y holds
    50.0001, and the sum of the two balances has grown. *)
Lemma Create_balance_is_not_old_minus_amount :
  (Create plainDecimal env1 Background alice (fromXtoY "k1") w1
     = (inr (Transfer.mk 100%N (Some "k1") 10%N 20%N (40 # 1) "USD" "completed"
               1000 (Some 1003)),
        w1) /\
   Account.Balance <$> accountRepository.selectByID 10%N (committed w1)
     = Some (60 # 1) /\
   ~ (60 # 1 == (60 # 1) - (40 # 1))%Q) /\
  (fst (Create plainDecimal env0 Background alice tinyFromXtoY w0)
     = inr (Transfer.mk 100%N None 10%N 20%N (5 # 100000) "USD" "completed"
              1000 (Some 1003)) /\
   storedFor tinyFromXtoY (committed w0) = None /\
   List.map Account.Balance
     (accounts (committed
        (snd (Create plainDecimal env0 Background alice tinyFromXtoY w0))))
     = [100 # 1; 500001 # 10000] /\
   ~ (100 # 1 == (100 # 1) - (5 # 100000))%Q /\
   ~ ((100 # 1) + (50 # 1) == (100 # 1) + (500001 # 10000))%Q).
Proof.
  repeat split; try (vm_compute; reflexivity); intros H; discriminate H.
Qed.

(** Witness of C2: alice's first transfer, of 40 from 100 to 50. *)
Lemma Create_executed_balances_witness :
  Create plainDecimal env0 Background alice (fromXtoY "k1") w0
    = (inr (Transfer.mk 100%N (Some "k1") 10%N 20%N (40 # 1) "USD" "completed"
              1000 (Some 1003)), w1) /\
  storedFor (fromXtoY "k1") (committed w0) = None /\
  exists fromAccount' toAccount',
    accountRepository.selectByID 10%N (committed w1) = Some fromAccount' /\
    accountRepository.selectByID 20%N (committed w1) = Some toAccount' /\
    (Account.Balance fromAccount' == (100 # 1) - (40 # 1))%Q /\
    (Account.Balance toAccount' == (50 # 1) + (40 # 1))%Q /\
    ((100 # 1) + (50 # 1)
     == Account.Balance fromAccount' + Account.Balance toAccount')%Q.
Proof.
  assert (H : Create plainDecimal env0 Background alice (fromXtoY "k1") w0
              = (inr (Transfer.mk 100%N (Some "k1") 10%N 20%N (40 # 1) "USD"
                        "completed" 1000 (Some 1003)), w1))
    by reflexivity.
  assert (Hs : storedFor (fromXtoY "k1") (committed w0) = None) by reflexivity.
  split; [exact H|]. split; [exact Hs|].
  destruct (Create_executed_balances plainDecimal env0 Background alice
              (fromXtoY "k1") w0 _ _ H Hs)
    as (amount & fa & ta & fa' & ta' & Hp & _ & Hf & Ht & Hf' & Ht' & Hbal & _).
  injection Hp as <-. injection Hf as <-. injection Ht as <-.
  exists fa', ta'. split; [exact Hf'|]. split; [exact Ht'|].
  apply Hbal; reflexivity.
Defined.

(** Counterexample to C3: alice moves 40.00001 under the key k1, twice.
    The first call returns a transfer of 40.00001; the second returns the
    transfer stored under the key, whose amount is 40.0000: not the same
    transfer. *)
Lemma Create_replay_returns_rounded_amount :
  fst (Create plainDecimal env0 Background alice (fineFromXtoY "k1") w0)
    = inr (Transfer.mk 100%N (Some "k1") 10%N 20%N (4000001 # 100000) "USD"
             "completed" 1000 (Some 1003)) /\
  fst (Create plainDecimal env1 Background alice (fineFromXtoY "k1")
         (snd (Create plainDecimal env0 Background alice (fineFromXtoY "k1") w0)))
    = inr (Transfer.mk 100%N (Some "k1") 10%N 20%N (40 # 1) "USD"
             "completed" 1000 (Some 1003)) /\
  ~ (4000001 # 100000 == 40 # 1)%Q.
Proof.
  repeat split; try (vm_compute; reflexivity). intros H. discriminate H.
Qed.

(** Witness of C3: carol repeats the key k1 with a request that could not
    be executed, and receives alice's transfer, of which the ledger holds
    one pair of rows. *)
Lemma Create_idempotent_witness :
  Create plainDecimal env0 Background alice (fromXtoY "k1") w0
    = (inr (Transfer.mk 100%N (Some "k1") 10%N 20%N (40 # 1) "USD" "completed"
              1000 (Some 1003)), w1) /\
  exists stored,
    Create plainDecimal env1 Background carol nonsense w1 = (inr stored, w1) /\
    stored = Transfer.mk 100%N (Some "k1") 10%N 20%N (40 # 1) "USD" "completed"
               1000 (Some 1003) /\
    exists debit credit,
      transactions (committed w1) = [debit; credit] /\
      Transaction.ReferenceID debit = Some 100%N /\
      Transaction.ReferenceID credit = Some 100%N.
Proof.
  assert (H : Create plainDecimal env0 Background alice (fromXtoY "k1") w0
              = (inr (Transfer.mk 100%N (Some "k1") 10%N 20%N (40 # 1) "USD"
                        "completed" 1000 (Some 1003)), w1))
    by reflexivity.
  split; [exact H|].
  destruct (Create_idempotent plainDecimal env0 Background alice (fromXtoY "k1")
              env1 Background carol nonsense w0
              (Transfer.mk 100%N (Some "k1") 10%N 20%N (40 # 1) "USD"
                 "completed" 1000 (Some 1003)) w1)
    as (stored & Hrun & _ & _ & _ & _ & Hfirst).
  - discriminate.
  - reflexivity.
  - reflexivity.
  - exact H.
  - destruct Hfirst as (-> & debit & credit & Htx & _ & _ & Hd & Hc).
    { constructor. }
    eexists. split; [exact Hrun|]. split; [reflexivity|].
    exists debit, credit. auto.
Defined.

(** Counterexample to C4: bob's transfer from Y (identifier 20) to X
    (identifier 10) locks 20 before 10, the larger identifier first, while
    alice's transfer from X to Y locks 10 before 20. *)
Lemma Create_locks_in_request_order :
  lockLog (snd (Create plainDecimal env0 Background alice (fromXtoY "") w0))
    = [10%N; 20%N] /\
  lockLog (snd (Create plainDecimal env0 Background bob (fromYtoX "") w0))
    = [20%N; 10%N] /\
  (10 < 20)%N.
Proof. repeat split; vm_compute; reflexivity. Qed.

(** Witness of C4: bob's transfer from Y to X. *)
Lemma Create_locks_source_then_destination_witness :
  exists t w',
    Create plainDecimal env0 Background bob (fromYtoX "") w0 = (inr t, w') /\
    exists l, lockLog w' = (lockLog w0 ++ l)%list /\ l = [20%N; 10%N].
Proof.
  destruct (Create plainDecimal env0 Background bob (fromYtoX "") w0)
    as [r w'] eqn:H.
  destruct (Create_locks_source_then_destination plainDecimal env0 Background
              bob (fromYtoX "") w0 r w' H) as (l & Hl & _ & Hexec).
  vm_compute in H. inversion H as [[Hr Hw]].
  eexists _, _. split; [reflexivity|].
  exists l. split.
  - rewrite Hw. exact Hl.
  - apply (Hexec _ (eq_sym Hr)). reflexivity.
Defined.

(** Counterexample to C5: the destination of the request does not exist,
    and bob, who does not own X, gets Forbidden, not AccountNotFound. *)
Lemma Create_missing_destination_forbidden :
  accountRepository.selectByID 30%N (committed w0) = None /\
  Create plainDecimal env0 Background bob fromXtoNowhere w0
    = (inl ErrForbidden, mkWorld db0 None [10%N]) /\
  ErrForbidden <> ErrAccountNotFound.
Proof. repeat split; try (vm_compute; reflexivity). discriminate. Qed.

(** Witness of C5: the same request, read off the theorem. *)
Lemma Create_missing_account_witness :
  entersScope plainDecimal env0 Background fromXtoNowhere w0 (40 # 1) /\
  fst (Create plainDecimal env0 Background bob fromXtoNowhere w0)
    = inl ErrForbidden /\
  fst (Create plainDecimal env0 Background alice fromXtoNowhere w0)
    = inl ErrAccountNotFound.
Proof.
  assert (Hs : entersScope plainDecimal env0 Background fromXtoNowhere w0 (40 # 1)).
  { repeat split; try reflexivity. discriminate. }
  split; [exact Hs|]. split.
  - destruct (Create_missing_account plainDecimal env0 Background bob
                fromXtoNowhere w0 (40 # 1) Hs (fun _ => eq_refl))
      as (_ & Hforbidden & _).
    apply (Hforbidden X); [reflexivity|discriminate].
  - destruct (Create_missing_account plainDecimal env0 Background alice
                fromXtoNowhere w0 (40 # 1) Hs (fun _ => eq_refl))
      as (_ & _ & Hmissing).
    apply (Hmissing X); reflexivity.
Defined.

(** Counterexample to C6.  First, the repeated request completes and
    appends no row: the ledger has its two rows before and after.  Second,
    alice moves 40.00001: the transfer returned has that amount, and the
    two rows appended have the amount 40.0000. *)
Lemma Create_ledger_not_as_claimed :
  (fst (Create plainDecimal env1 Background alice (fromXtoY "k1") w1)
     = inr (Transfer.mk 100%N (Some "k1") 10%N 20%N (40 # 1) "USD" "completed"
              1000 (Some 1003)) /\
   length (transactions (committed w1)) = 2%nat /\
   length (transactions (committed
             (snd (Create plainDecimal env1 Background alice (fromXtoY "k1") w1))))
     = 2%nat) /\
  (Transfer.Amount <$>
     match fst (Create plainDecimal env0 Background alice (fineFromXtoY "") w0)
     with inr t => Some t | inl _ => None end
     = Some (4000001 # 100000) /\
   List.map Transaction.Amount
     (transactions (committed
        (snd (Create plainDecimal env0 Background alice (fineFromXtoY "") w0))))
     = [40 # 1; 40 # 1] /\
   ~ (40 # 1 == 4000001 # 100000)%Q).
Proof.
  repeat split; try (vm_compute; reflexivity). intros H. discriminate H.
Qed.

(** Witness of C6: alice's first transfer appends the debit of X and the
    credit of Y. *)
Lemma Create_ledger_rows_witness :
  Create plainDecimal env0 Background alice (fromXtoY "k1") w0
    = (inr (Transfer.mk 100%N (Some "k1") 10%N 20%N (40 # 1) "USD" "completed"
              1000 (Some 1003)), w1) /\
  exists debit credit,
    transactions (committed w1)
      = (transactions (committed w0) ++ [debit; credit])%list /\
    Transaction.Type_ debit = "debit" /\
    Transaction.Type_ credit = "credit" /\
    Transaction.Amount debit = 40 # 1 /\
    Transaction.Amount credit = 40 # 1 /\
    Some (60 # 1) = Some (Transaction.BalanceAfter debit) /\
    Some (90 # 1) = Some (Transaction.BalanceAfter credit).
Proof.
  assert (H : Create plainDecimal env0 Background alice (fromXtoY "k1") w0
              = (inr (Transfer.mk 100%N (Some "k1") 10%N 20%N (40 # 1) "USD"
                        "completed" 1000 (Some 1003)), w1))
    by reflexivity.
  split; [exact H|].
  pose proof (Create_ledger_rows plainDecimal env0 Background alice
                (fromXtoY "k1") w0 _ _ H) as Hrows.
  cbv beta iota in Hrows.
  destruct Hrows
    as [[Hs _]|(_ & _ & debit & credit & Htx & Hd & _ & Had & Hbd & _ & Hc & _
                & Hac & Hbc & _)].
  - discriminate Hs.
  - exists debit, credit. auto 10.
Defined.

(** Witness of C7: the balances stay non-negative over alice's transfer. *)
Lemma Create_keeps_balances_nonnegative_witness :
  nonNegative (committed w0) /\ nonNegative (committed w1).
Proof.
  split; [exact db0_nonNegative|].
  apply (Create_keeps_balances_nonnegative plainDecimal env0 Background alice
           (fromXtoY "k1") w0
           (fst (Create plainDecimal env0 Background alice (fromXtoY "k1") w0))
           w1 db0_nonNegative eq_refl).
Defined.

(** Witness of C9: carol owns neither X nor Y, her request names one
    account twice and has no amount; she receives alice's transfer. *)
Lemma Create_replay_returns_stored_witness :
  Create plainDecimal env1 Background carol nonsense w1
  = (inr (Transfer.mk 100%N (Some "k1") 10%N 20%N (40 # 1) "USD" "completed"
            1000 (Some 1003)), w1).
Proof.
  apply (Create_replay_returns_stored plainDecimal env1 Background carol
           nonsense w1).
  - discriminate.
  - reflexivity.
  - reflexivity.
Defined.

(** The offset of a page far enough wraps around and the store rejects
    it. *)
Example GetByUserID_offset_wraps :
  wrap64 ((2 ^ 62 - 1) * 4) = -4 /\
  fst (GetByUserID env0 Background alice (2 ^ 62) 4 w3)
    = inl (Wrap (DriverError "LIMIT and OFFSET must not be negative")
             "INTERNAL_ERROR" "Failed to get transfers" 500).
Proof. split; vm_compute; reflexivity. Qed.

(** Counterexample to C8: alice has three transfers.  A page size of 0
    gives all three (it behaves as 10, not as 1), while a page size of 1
    gives one; and a page size of 500 becomes 10, not 100. *)
Lemma GetByUserID_page_size_defaults_to_ten :
  listed (GetByUserID env0 Background alice 1 0 w3)
    = Some ([303%N; 302%N; 301%N], 3) /\
  listed (GetByUserID env0 Background alice 1 10 w3)
    = Some ([303%N; 302%N; 301%N], 3) /\
  listed (GetByUserID env0 Background alice 1 1 w3) = Some ([303%N], 1) /\
  effectivePageSize 0 = 10 /\
  effectivePageSize 500 = 10.
Proof. repeat split; vm_compute; reflexivity. Qed.

(** Witness of C8: the first page of size 2 of alice's transfers holds the
    two newest. *)
Lemma GetByUserID_page_witness :
  listed (GetByUserID env0 Background alice 1 2 w3)
    = Some ([303%N; 302%N], 2).
Proof.
  destruct (GetByUserID_page env0 Background alice 1 2 w3)
    as (_ & _ & Hrun & _).
  - vm_compute. reflexivity.
  - reflexivity.
  - rewrite Hrun. vm_compute. reflexivity.
Defined.

(** Counterexample to C10: alice has three transfers and asks for a page
    size of 0.  The total is 3: it is above the page size of the request,
    and it does not understate the number of her transfers, of which there
    are more than the page size of the request. *)
Lemma GetByUserID_total_above_requested_size :
  listed (GetByUserID env0 Background alice 1 0 w3)
    = Some ([303%N; 302%N; 301%N], 3) /\
  ~ 3 <= 0 /\
  Z.of_nat (length (transferRepository.selectByUser alice (committed w3))) = 3 /\
  0 < 3 /\ ~ 3 < 3.
Proof. repeat split; try (vm_compute; reflexivity); lia. Qed.

(** Witness of C10: of alice's three transfers the page of size 2 reports
    a total of 2. *)
Lemma GetByUserID_total_is_page_length_witness :
  exists ts,
    GetByUserID env0 Background alice 1 2 w3 = (inr (ts, 2), w3) /\
    2 < Z.of_nat (length (transferRepository.selectByUser alice (committed w3))).
Proof.
  destruct (GetByUserID env0 Background alice 1 2 w3) as [[e|[ts total]] w']
    eqn:H; [vm_compute in H; discriminate H|].
  destruct (GetByUserID_total_is_page_length env0 Background alice 1 2 w3
              ts total w' H) as (Htotal & _ & _ & Hmore).
  vm_compute in H. inversion H; subst.
  eexists. split; [reflexivity|].
  apply Hmore. vm_compute. reflexivity.
Defined.

End example.

(* ------------------------------------------------------------------ *)
(** * Further properties of the transfer engine *)

Section engine.
Variable NewFromString : string -> option Decimal.

(** ** Before the transaction *)

(** X1.  A request that no stored transfer answers and whose amount does
    not parse, or is not positive, fails with InvalidAmount, also when its
    two accounts are the same; a request with a positive amount and the
    same account twice fails with SameAccount.  Neither opens a
    transaction, takes a lock or writes: the world is left as it was. *)
Theorem Create_rejects_before_store env ctx userID input w :
  checkIdempotencyKey env ctx input w = (inr None, w) ->
  let parsed := NewFromString (CreateTransferInput.Amount input) in
  let run := Create NewFromString env ctx userID input w in
  (parsed = None -> run = (inl ErrInvalidAmount, w)) /\
  (forall amount, parsed = Some amount -> (amount <= 0)%Q ->
     run = (inl ErrInvalidAmount, w)) /\
  (forall amount, parsed = Some amount -> (0 < amount)%Q ->
     CreateTransferInput.FromAccountID input
       = CreateTransferInput.ToAccountID input ->
     run = (inl ErrSameAccount, w)).
Proof.
  intros Hchk parsed run. subst parsed run.
  unfold Create, bind. rewrite Hchk. split; [|split].
  - intros ->. reflexivity.
  - intros amount -> Hle. apply Qle_bool_iff in Hle. rewrite Hle. reflexivity.
  - intros amount -> Hpos Hsame.
    destruct (Qle_bool amount 0) eqn:E.
    + apply Qle_bool_iff in E. exfalso. exact (Qlt_not_le _ _ Hpos E).
    + rewrite bool_decide_eq_true_2 by exact Hsame. reflexivity.
Qed.

(** ** Inside the transaction *)

Lemma createTx_runs env userID input amount w d fromAccount toAccount :
  (forall s, fails env s = None) ->
  pending w = Some d ->
  accountRepository.selectByID (CreateTransferInput.FromAccountID input) d
    = Some fromAccount ->
  accountRepository.selectByID (CreateTransferInput.ToAccountID input) d
    = Some toAccount ->
  businessFailure userID amount (Some fromAccount) (Some toAccount) = None ->
  createTx env userID input amount TxCtx w
  = (inr (completedTransfer env input amount (Account.Currency fromAccount)),
     mkWorld (committed w)
       (Some (executed env input amount fromAccount toAccount d))
       (lockLog w ++ [CreateTransferInput.FromAccountID input;
                      CreateTransferInput.ToAccountID input])).
Proof.
  intros Hok Hp Hf Ht Hb.
  destruct (createTx env userID input amount TxCtx w) as [[e|t] w'] eqn:Hrun.
  - exfalso. unfold businessFailure in Hb.
    destruct w as [c p l]. simpl in Hp. subst p.
    unfold createTx in Hrun. unfold_store. rewrite !Hok in Hrun.
    simpl in Hrun. rewrite Hf in Hrun. simpl in Hrun.
    destruct (bool_decide (Account.UserID fromAccount = userID));
      [|discriminate Hb].
    simpl in Hrun. rewrite !Hok in Hrun. simpl in Hrun.
    rewrite Ht in Hrun. simpl in Hrun.
    destruct (negb (bool_decide _)); [discriminate Hb|].
    destruct (negb (Account.CanDebit fromAccount amount)); [discriminate Hb|].
    destruct (negb (Account.CanCredit toAccount)); [discriminate Hb|].
    rewrite !Hok in Hrun. simpl in Hrun. discriminate Hrun.
  - apply createTx_ok in Hrun
      as (d' & fa & ta & Hd & Hf' & Ht' & _ & _ & _ & _ & -> & ->).
    assert (d' = d) by congruence. subst d'.
    assert (fa = fromAccount) by congruence.
    assert (ta = toAccount) by congruence. subst fa ta. reflexivity.
Qed.

(** X2.  When the store reports no error (no statement fails, so that no
    constraint and no range of the schema is violated either) and every
    check passes, [Create] completes: it returns the completed transfer
    with the amount as the request gave it, and commits exactly the writes
    of one execution, in which the amounts and the balances are at the
    four decimals of their columns, having locked the source and then the
    destination. *)
Theorem Create_succeeds env ctx userID input w amount fromAccount toAccount :
  entersScope NewFromString env ctx input w amount ->
  (forall s, fails env s = None) ->
  accountRepository.selectByID (CreateTransferInput.FromAccountID input)
    (committed w) = Some fromAccount ->
  accountRepository.selectByID (CreateTransferInput.ToAccountID input)
    (committed w) = Some toAccount ->
  businessFailure userID amount (Some fromAccount) (Some toAccount) = None ->
  Create NewFromString env ctx userID input w
  = (inr (completedTransfer env input amount (Account.Currency fromAccount)),
     mkWorld (executed env input amount fromAccount toAccount (committed w))
       None
       (lockLog w ++ [CreateTransferInput.FromAccountID input;
                      CreateTransferInput.ToAccountID input])).
Proof.
  intros Hscope Hok Hf Ht Hb.
  rewrite (Create_scope _ _ _ userID _ _ _ Hscope).
  unfold WithTransaction. rewrite !Hok.
  rewrite (createTx_runs env userID input amount
             (mkWorld (committed w) (Some (committed w)) (lockLog w))
             (committed w) fromAccount toAccount Hok eq_refl Hf Ht Hb).
  reflexivity.
Qed.

Lemma Create_businessFailure env ctx userID input w amount failure :
  entersScope NewFromString env ctx input w amount ->
  (forall s, fails env s = None) ->
  businessFailure userID amount
    (accountRepository.selectByID (CreateTransferInput.FromAccountID input)
       (committed w))
    (accountRepository.selectByID (CreateTransferInput.ToAccountID input)
       (committed w))
    = Some failure ->
  fst (Create NewFromString env ctx userID input w) = inl failure.
Proof.
  intros Hscope Hok Hb.
  rewrite (Create_scope _ _ _ userID _ _ _ Hscope).
  unfold WithTransaction. rewrite !Hok.
  pose proof (createTx_businessFailure env userID input amount (begun w)
                (committed w) failure Hok eq_refl Hb) as Hrun.
  unfold begun in Hrun.
  destruct (createTx _ _ _ _ _ _) as [[err|a] wtx]; simpl in Hrun;
    inversion Hrun; subst. reflexivity.
Qed.

(** X3.  A source account that is not active makes [Create] fail with
    InsufficientBalance, whatever its balance: the status of the source is
    checked by [CanDebit] together with the balance, and AccountInactive is
    reserved for the destination. *)
Theorem Create_inactive_source env ctx userID input w amount
    fromAccount toAccount :
  entersScope NewFromString env ctx input w amount ->
  (forall s, fails env s = None) ->
  accountRepository.selectByID (CreateTransferInput.FromAccountID input)
    (committed w) = Some fromAccount ->
  accountRepository.selectByID (CreateTransferInput.ToAccountID input)
    (committed w) = Some toAccount ->
  Account.UserID fromAccount = userID ->
  Account.Currency fromAccount = Account.Currency toAccount ->
  Account.Status fromAccount <> AccountStatusActive ->
  fst (Create NewFromString env ctx userID input w)
  = inl ErrInsufficientBalance.
Proof.
  intros Hscope Hok Hf Ht Hu Hc Hs.
  apply (Create_businessFailure env ctx userID input w amount _ Hscope Hok).
  rewrite Hf, Ht. unfold businessFailure.
  rewrite bool_decide_eq_true_2 by exact Hu.
  rewrite bool_decide_eq_true_2 by exact Hc. simpl.
  unfold Account.CanDebit. rewrite bool_decide_eq_false_2 by exact Hs.
  reflexivity.
Qed.

End engine.

(** ** What every execution keeps *)

Lemma executed_transfers env input amount fromAccount toAccount d :
  transfers (executed env input amount fromAccount toAccount d)
  = List.map
      (fun t =>
         if bool_decide (Transfer.ID t = transferID env)
         then Transfer.mk (Transfer.ID t) (Transfer.IdempotencyKey t)
                (Transfer.FromAccountID t) (Transfer.ToAccountID t)
                (Transfer.Amount t) (Transfer.Currency t)
                TransferStatusCompleted (Transfer.CreatedAt t)
                (Some (completedAt env))
         else t)
      (transfers d ++
         [Transfer.mk (transferID env) (keyOf input)
            (CreateTransferInput.FromAccountID input)
            (CreateTransferInput.ToAccountID input)
            (decimal_19_4 amount) (Account.Currency fromAccount)
            TransferStatusPending (transferCreatedAt env) None]).
Proof. reflexivity. Qed.

(** Rewriting the balance of the one row with a given identifier changes
    the total by the difference of the two balances. *)
Lemma total_after_update now id b (l : list Account.t) a :
  NoDup (List.map Account.ID l) -> In a l -> Account.ID a = id ->
  (fold_right (fun a s => Account.Balance a + s) 0
     (List.map
        (fun x => if bool_decide (Account.ID x = id)
                  then withBalance now b x else x) l)
   == fold_right (fun a s => Account.Balance a + s) 0 l
      - Account.Balance a + b)%Q.
Proof.
  intros Hnd Hin Hid. induction l as [|x l IH]; [destruct Hin|].
  simpl in Hnd. apply NoDup_cons in Hnd as [Hx Hnd]. simpl.
  case_bool_decide as Hxid.
  - assert (a = x) as ->.
    { destruct Hin as [->|Hin]; [reflexivity|]. exfalso. apply Hx.
      rewrite Hxid, <- Hid. apply list_elem_of_In, in_map, Hin. }
    assert (Hrest : List.map
              (fun x0 => if bool_decide (Account.ID x0 = id)
                         then withBalance now b x0 else x0) l = l).
    { rewrite <- (map_id l) at 2. apply map_ext_in. intros y Hy.
      case_bool_decide as Hyid; [|reflexivity]. exfalso. apply Hx.
      rewrite Hxid, <- Hyid. apply list_elem_of_In, in_map, Hy. }
    rewrite Hrest. simpl. ring.
  - destruct Hin as [->|Hin]; [congruence|].
    rewrite (IH Hnd Hin). ring.
Qed.

(** An execution with an amount and two balances of at most four decimals
    keeps the total. *)
Lemma executed_totalBalance env input amount fromAccount toAccount d :
  NoDup (List.map Account.ID (accounts d)) ->
  In fromAccount (accounts d) -> In toAccount (accounts d) ->
  Account.ID fromAccount <> Account.ID toAccount ->
  atScale4 amount ->
  atScale4 (Account.Balance fromAccount) ->
  atScale4 (Account.Balance toAccount) ->
  (totalBalance (executed env input amount fromAccount toAccount d)
   == totalBalance d)%Q.
Proof.
  intros Hnd Hf Ht Hne Ha Hbf Hbt. unfold totalBalance.
  rewrite executed_accounts.
  set (l1 := List.map _ (accounts d)).
  assert (Hids : List.map Account.ID l1 = List.map Account.ID (accounts d)).
  { unfold l1. rewrite List.map_map. apply map_ext. intros x.
    case_bool_decide; reflexivity. }
  assert (Ht1 : In toAccount l1).
  { unfold l1. apply in_map_iff. exists toAccount. split; [|exact Ht].
    rewrite bool_decide_eq_false_2 by congruence. reflexivity. }
  rewrite (total_after_update (dbNow env) (Account.ID toAccount) _ l1 toAccount)
    by (rewrite ?Hids; auto).
  unfold l1.
  rewrite (total_after_update (dbNow env) (Account.ID fromAccount) _
             (accounts d) fromAccount) by auto.
  rewrite (decimal_19_4_atScale4 (Account.Balance fromAccount - amount)%Q)
    by (by apply atScale4_minus).
  rewrite (decimal_19_4_atScale4 (Account.Balance toAccount + amount)%Q)
    by (by apply atScale4_plus).
  ring.
Qed.

Lemma omap_map_same {A B} (f : A -> option B) (g : A -> A) (l : list A) :
  (forall x, f (g x) = f x) -> omap f (List.map g l) = omap f l.
Proof.
  intros H. induction l as [|x l IH]; [reflexivity|].
  csimpl. rewrite H. unfold fmap in IH. by rewrite IH.
Qed.

Section invariants.
Variable NewFromString : string -> option Decimal.

(** X4.  [Create] neither creates nor destroys money as long as amounts
    have at most four decimals: when the account identifiers are unique,
    every stored balance has at most four decimals and so has the amount
    of the request, the total of all balances is the same after the
    invocation as before it, whatever the invocation returns. *)
Theorem Create_conserves_total env ctx userID input w r w' :
  NoDup (List.map Account.ID (accounts (committed w))) ->
  Forall (fun a => atScale4 (Account.Balance a)) (accounts (committed w)) ->
  (forall amount,
     NewFromString (CreateTransferInput.Amount input) = Some amount ->
     atScale4 amount) ->
  Create NewFromString env ctx userID input w = (r, w') ->
  (totalBalance (committed w') == totalBalance (committed w))%Q.
Proof.
  intros Hnd Hscale Hamount H. destruct r as [e|t].
  - rewrite (Create_error_committed _ _ _ _ _ _ _ _ H). reflexivity.
  - apply Create_ok in H
      as [[_ ->]|(_ & amount & fa & ta & Hscope & Hf & Ht & _ & _ & _ & _ & _ & ->)];
      [reflexivity|].
    cbn [committed]. destruct Hscope as (_ & Hparse & _ & Hne).
    rewrite List.Forall_forall in Hscale.
    apply executed_totalBalance; eauto using selectByID_In.
    rewrite (selectByID_ID _ _ _ Hf), (selectByID_ID _ _ _ Ht). exact Hne.
Qed.

(** X5.  [Create] changes nothing of an account but its balance and its
    updated_at: the rows of the account table keep their number, their
    order, and their identifier, owner, account number, type, currency,
    status and created_at, whatever the invocation returns. *)
Theorem Create_keeps_account_identity env ctx userID input w r w' :
  Create NewFromString env ctx userID input w = (r, w') ->
  List.map identityOf (accounts (committed w'))
  = List.map identityOf (accounts (committed w)).
Proof.
  intros H. destruct r as [e|t].
  - by rewrite (Create_error_committed _ _ _ _ _ _ _ _ H).
  - apply Create_ok in H
      as [[_ ->]|(_ & amount & fa & ta & _ & _ & _ & _ & _ & _ & _ & _ & ->)];
      [reflexivity|].
    cbn [committed]. rewrite executed_accounts, !List.map_map.
    apply map_ext. intros a. repeat case_bool_decide; reflexivity.
Qed.

(** X6.  [Create] leaves no pending transfer behind: if no stored transfer
    is pending before the invocation, none is after it, whatever the
    invocation returns. *)
Theorem Create_leaves_none_pending env ctx userID input w r w' :
  nonePending (committed w) ->
  Create NewFromString env ctx userID input w = (r, w') ->
  nonePending (committed w').
Proof.
  intros Hinv H. destruct r as [e|t].
  - by rewrite (Create_error_committed _ _ _ _ _ _ _ _ H).
  - apply Create_ok in H
      as [[_ ->]|(_ & amount & fa & ta & _ & _ & _ & _ & _ & _ & _ & _ & ->)];
      [exact Hinv|].
    unfold nonePending in *. cbn [committed]. rewrite executed_transfers.
    apply List.Forall_forall. intros t1 Ht1.
    apply in_map_iff in Ht1 as (t0 & <- & Ht0).
    case_bool_decide as Hid; [discriminate|].
    apply in_app_iff in Ht0 as [Ht0|[<-|[]]].
    + rewrite List.Forall_forall in Hinv. exact (Hinv _ Ht0).
    + simpl in Hid. congruence.
Qed.

(** X7.  [Create] keeps the idempotency keys unique: if no two stored
    transfers share a key before the invocation, none do after it,
    whatever the invocation returns. *)
Theorem Create_keeps_keys_unique env ctx userID input w r w' :
  NoDup (keysInUse (committed w)) ->
  Create NewFromString env ctx userID input w = (r, w') ->
  NoDup (keysInUse (committed w')).
Proof.
  intros Hinv H. destruct r as [e|t].
  - by rewrite (Create_error_committed _ _ _ _ _ _ _ _ H).
  - apply Create_ok in H
      as [[_ ->]|(Hs & amount & fa & ta & _ & _ & _ & _ & _ & _ & _ & _ & ->)];
      [exact Hinv|].
    unfold keysInUse in *. cbn [committed]. rewrite executed_transfers.
    rewrite omap_map_same by (intros x; case_bool_decide; reflexivity).
    rewrite omap_app. simpl.
    unfold storedFor, keyOf in *. case_bool_decide as Hkey.
    + simpl. by rewrite app_nil_r.
    + simpl. apply NoDup_app. split; [exact Hinv|]. split; [|apply NoDup_singleton].
      intros k Hk Hk'. apply list_elem_of_singleton in Hk'. subst k.
      apply list_elem_of_omap in Hk as (t0 & Ht0 & Hkey0).
      unfold transferRepository.selectByIdempotencyKey in Hs.
      apply list_elem_of_In in Ht0.
      pose proof (List.find_none _ _ Hs _ Ht0) as Hno. simpl in Hno.
      apply bool_decide_eq_false in Hno. congruence.
Qed.

End invariants.

(** ** Reading a transfer back *)

(** X8.  On a store that reports no error, [GetByID] fails with
    TransferNotFound when no transfer has the identifier, returns the
    transfer when the requester owns its source or its destination
    account, and fails with Forbidden otherwise (also when neither account
    exists any more); it leaves the world as it was. *)
Theorem GetByID_decision env ctx userID transferID w :
  (forall s, fails env s = None) ->
  GetByID env ctx userID transferID w
  = (match transferRepository.selectByID transferID (committed w) with
     | None => inl ErrTransferNotFound
     | Some t =>
         if ownsAccount userID (committed w) (Transfer.FromAccountID t)
            || ownsAccount userID (committed w) (Transfer.ToAccountID t)
         then inr t
         else inl ErrForbidden
     end, w).
Proof.
  intros Hok. unfold GetByID, transferRepository.GetByID,
    accountRepository.GetByID, ownsAccount.
  unfold wrapping, bind, ret, throw, poolQuery. rewrite !Hok.
  destruct (transferRepository.selectByID transferID (committed w)) as [t|];
    [|reflexivity].
  rewrite !Hok. destruct (_ || _); reflexivity.
Qed.

(** A stored transfer is returned to the owner of one of its accounts. *)
Lemma GetByID_allowed env ctx userID transferID w t :
  (forall s, fails env s = None) ->
  transferRepository.selectByID transferID (committed w) = Some t ->
  ownsAccount userID (committed w) (Transfer.FromAccountID t)
  || ownsAccount userID (committed w) (Transfer.ToAccountID t) = true ->
  GetByID env ctx userID transferID w = (inr t, w).
Proof.
  intros Hok Hsel Hown. unfold GetByID, transferRepository.GetByID,
    accountRepository.GetByID, ownsAccount in *.
  unfold wrapping, bind, ret, throw, poolQuery. rewrite !Hok, Hsel, !Hok.
  destruct (_ || _); [reflexivity|discriminate].
Qed.

Section reading_back.
Variable NewFromString : string -> option Decimal.

(** X9.  A transfer that [Create] has executed under a fresh identifier
    can be read back: [GetByID] returns to the requester, and to whoever
    owns the destination account, the transfer [Create] returned as the
    transfer table holds it, that is with its amount at the four decimals
    of the column; the amount read back is the amount returned when that
    has at most four decimals. *)
Theorem Create_then_GetByID env ctx userID input w t w' env2 ctx2 reader :
  Create NewFromString env ctx userID input w = (inr t, w') ->
  storedFor input (committed w) = None ->
  transferRepository.selectByID (transferID env) (committed w) = None ->
  (forall s, fails env2 s = None) ->
  reader = userID \/
  ownsAccount reader (committed w) (CreateTransferInput.ToAccountID input)
    = true ->
  GetByID env2 ctx2 reader (Transfer.ID t) w' = (inr (asStored t), w') /\
  (atScale4 (Transfer.Amount t) ->
   (Transfer.Amount (asStored t) == Transfer.Amount t)%Q).
Proof.
  intros H Hnone Hfresh Hok Hreader.
  split; [|exact (decimal_19_4_atScale4 _)].
  apply Create_ok in H
    as [[Hs _]|(_ & amount & fa & ta & Hscope & Hf & Ht & Hu & _ & _ & _ & -> & ->)];
    [congruence|].
  destruct Hscope as (_ & _ & _ & Hne).
  pose proof (selectByID_ID _ _ _ Hf) as Hfid.
  pose proof (selectByID_ID _ _ _ Ht) as Htid.
  assert (Hne' : Account.ID fa <> Account.ID ta) by congruence.
  assert (Hsel : transferRepository.selectByID (transferID env)
                   (executed env input amount fa ta (committed w))
                 = Some (asStored (completedTransfer env input amount
                                     (Account.Currency fa)))).
  { unfold transferRepository.selectByID in *. rewrite executed_transfers.
    rewrite find_map_same
      by (intros x;
          destruct (bool_decide (Transfer.ID x = transferID env)) eqn:E;
          simpl; rewrite ?E; reflexivity).
    rewrite find_app_none by exact Hfresh.
    do 3 (simpl; rewrite ?bool_decide_eq_true_2 by reflexivity).
    reflexivity. }
  change (Transfer.ID (completedTransfer env input amount (Account.Currency fa)))
    with (transferID env).
  apply (GetByID_allowed env2 ctx2 reader _ _ _ Hok); [exact Hsel|].
  cbn [committed]. simpl. unfold ownsAccount in *.
  rewrite !executed_selectByID by exact Hne'. rewrite Hf, Ht. simpl.
  rewrite (bool_decide_eq_true_2 _ (eq_sym Hfid)).
  rewrite (bool_decide_eq_false_2 (CreateTransferInput.ToAccountID input
                                   = Account.ID fa)) by congruence.
  rewrite (bool_decide_eq_true_2 _ (eq_sym Htid)). simpl.
  destruct Hreader as [->|Hown].
  - rewrite (bool_decide_eq_true_2 _ Hu). reflexivity.
  - rewrite Ht in Hown. rewrite Hown. by rewrite orb_true_r.
Qed.

(** X10.  A transfer that [Create] has executed is among the transfers
    the listing query finds for the requester, as the transfer table holds
    it: with its amount at the four decimals of the column. *)
Theorem Create_then_listed env ctx userID input w t w' :
  Create NewFromString env ctx userID input w = (inr t, w') ->
  storedFor input (committed w) = None ->
  In (asStored t) (transferRepository.selectByUser userID (committed w')).
Proof.
  intros H Hnone.
  apply Create_ok in H
    as [[Hs _]|(_ & amount & fa & ta & Hscope & Hf & Ht & Hu & _ & _ & _ & -> & ->)];
    [congruence|].
  destruct Hscope as (_ & _ & _ & Hne).
  pose proof (selectByID_ID _ _ _ Hf) as Hfid.
  pose proof (selectByID_ID _ _ _ Ht) as Htid.
  assert (Hne' : Account.ID fa <> Account.ID ta) by congruence.
  apply selectByUser_In. cbn [committed]. split.
  - apply executed_stored_In.
  - pose proof (executed_selectByID env input amount fa ta (committed w)
                  (CreateTransferInput.FromAccountID input) Hne') as Hsel.
    rewrite Hf in Hsel. simpl in Hsel.
    exists (withBalance (dbNow env)
              (decimal_19_4 (Account.Balance fa - amount)%Q) fa).
    rewrite (bool_decide_eq_true_2 _ (eq_sym Hfid)) in Hsel.
    split; [exact (selectByID_In _ _ _ Hsel)|].
    split; [exact Hu|]. left. simpl. congruence.
Qed.

End reading_back.

(** ** The unit of work *)

(** X11.  [WithTransaction] is all or nothing for a closure that writes
    through the transaction only: when it returns an error the committed
    tables are as before, and when it returns a value the closure has
    returned that value, the committed tables are the view of the
    transaction as the closure left it, and the transaction is closed. *)
Theorem WithTransaction_all_or_nothing {A} env ctx (fn : Ctx -> M A) w r w' :
  keepsCommitted (fn TxCtx) ->
  WithTransaction env ctx fn w = (r, w') ->
  match r with
  | inl _ => committed w' = committed w
  | inr a =>
      exists w1,
        fn TxCtx (begun w) = (inr a, w1) /\
        committed w' = default (committed w) (pending w1) /\
        pending w' = None
  end.
Proof.
  intros Hfn H. unfold WithTransaction in H. fold (begun w) in H.
  destruct (fails env Begin) eqn:Hb.
  { inversion H; subst. reflexivity. }
  destruct (fn TxCtx (begun w)) as [[err|a] w1] eqn:E;
    pose proof (Hfn _ _ _ E) as Hc; simpl in Hc.
  - destruct (fails env Rollback); inversion H; subst; simpl; auto.
  - destruct (fails env Commit); inversion H; subst; simpl; [exact Hc|].
    exists w1. rewrite Hc. auto.
Qed.

(* ------------------------------------------------------------------ *)
(** * Account numbers *)

Lemma pretty_N_char_digit x :
  (x < 10)%N ->
  exists c, pretty_N_char x = c /\
    (48 <=? N_of_ascii c)%N && (N_of_ascii c <=? 57)%N = true.
Proof.
  intros Hx. exists (pretty_N_char x). split; [reflexivity|].
  assert (x = 0 \/ x = 1 \/ x = 2 \/ x = 3 \/ x = 4 \/ x = 5 \/ x = 6 \/
          x = 7 \/ x = 8 \/ x = 9)%N as Hc by lia.
  repeat destruct Hc as [->|Hc]; try subst x; reflexivity.
Qed.

Lemma pretty_N_go_length k : forall x s,
  (x < 10 ^ N.of_nat k)%N ->
  (String.length (pretty_N_go x s) <= String.length s + k)%nat.
Proof.
  induction k as [|k IH]; intros x s Hx.
  - assert (x = 0%N) as -> by (change (N.of_nat 0) with 0%N in Hx; rewrite N.pow_0_r in Hx; lia).
    rewrite pretty_N_go_0. lia.
  - destruct (decide (x = 0%N)) as [->|Hpos].
    { rewrite pretty_N_go_0. lia. }
    rewrite pretty_N_go_step by lia.
    etransitivity; [apply IH|simpl; lia].
    rewrite Nat2N.inj_succ, N.pow_succ_r' in Hx.
    apply N.Div0.div_lt_upper_bound. lia.
Qed.

Lemma pretty_N_go_digits : forall x s,
  allDigits s = true -> allDigits (pretty_N_go x s) = true.
Proof.
  intros x. induction (N.lt_wf_0 x) as [x _ IH]. intros s Hs.
  destruct (decide (x = 0%N)) as [->|Hpos].
  { by rewrite pretty_N_go_0. }
  rewrite pretty_N_go_step by lia. apply IH.
  - apply N.div_lt; lia.
  - simpl. rewrite Hs, andb_true_r.
    destruct (pretty_N_char_digit (x `mod` 10)) as (c & -> & Hc); [|exact Hc].
    apply N.mod_lt. lia.
Qed.

(** The digits of a positive number do not start with a zero. *)
Lemma pretty_N_go_head : forall x s,
  (0 < x)%N ->
  exists c rest, pretty_N_go x s = String c rest /\ c <> "0"%char.
Proof.
  intros x. induction (N.lt_wf_0 x) as [x _ IH]. intros s Hpos.
  rewrite pretty_N_go_step by exact Hpos.
  destruct (decide (x `div` 10 = 0)%N) as [Hz|Hnz].
  - rewrite Hz, pretty_N_go_0. eexists _, _. split; [reflexivity|].
    assert (x < 10)%N by (apply N.div_small_iff in Hz; lia).
    rewrite N.mod_small by lia.
    assert (x = 1 \/ x = 2 \/ x = 3 \/ x = 4 \/ x = 5 \/ x = 6 \/
            x = 7 \/ x = 8 \/ x = 9)%N as Hc by lia.
    repeat destruct Hc as [->|Hc]; try subst x; discriminate.
  - apply IH; [apply N.div_lt; lia|by apply N.neq_0_lt_0].
Qed.

Lemma append_cons c s1 s2 : String c s1 +:+ s2 = String c (s1 +:+ s2).
Proof. reflexivity. Qed.

Lemma append_nil s : "" +:+ s = s.
Proof. reflexivity. Qed.

Lemma length_zeros k : String.length (fmt.zeros k) = k.
Proof. induction k; simpl; congruence. Qed.

Lemma allDigits_app s1 s2 :
  allDigits (s1 +:+ s2) = allDigits s1 && allDigits s2.
Proof.
  induction s1 as [|c s1 IH]; [reflexivity|].
  rewrite append_cons. simpl. rewrite IH. by rewrite !andb_assoc.
Qed.

Lemma allDigits_zeros k : allDigits (fmt.zeros k) = true.
Proof. induction k; simpl; auto. Qed.

Lemma length_app_string s1 s2 :
  String.length (s1 +:+ s2) = (String.length s1 + String.length s2)%nat.
Proof.
  induction s1 as [|c s1 IH]; [reflexivity|].
  rewrite append_cons. simpl. congruence.
Qed.

Lemma pretty_nonneg_length n :
  0 <= n < 10 ^ 10 -> (1 <= String.length (pretty n) <= 10)%nat.
Proof.
  intros Hn. destruct n as [|p|p]; [simpl; lia| |lia].
  change (pretty (Z.pos p)) with (pretty_N_go (N.pos p) "").
  split.
  - destruct (pretty_N_go_head (N.pos p) "") as (c & rest & -> & _); [lia|].
    simpl. lia.
  - pose proof (pretty_N_go_length 10 (N.pos p) "") as H. simpl in H.
    apply H. lia.
Qed.

(** The zeros in front of the digits of a number can be told from the
    digits. *)
Lemma zeros_pretty_inj k1 k2 n1 n2 :
  0 <= n1 -> 0 <= n2 ->
  fmt.zeros k1 +:+ pretty n1 = fmt.zeros k2 +:+ pretty n2 ->
  String.length (pretty n1) = String.length (pretty n2) \/ (k1 = k2) ->
  n1 = n2.
Proof.
  intros H1 H2 Heq Hlen.
  assert (k1 = k2) as ->.
  { destruct Hlen as [Hlen|]; [|assumption].
    apply (f_equal String.length) in Heq.
    rewrite !length_app_string, !length_zeros in Heq. lia. }
  clear Hlen. induction k2 as [|k IH]; simpl in Heq.
  - rewrite !append_nil in Heq. by apply (inj pretty).
  - rewrite !append_cons in Heq. apply IH. congruence.
Qed.

Lemma zeros_pretty_head k n :
  0 < n -> forall k', (k < k')%nat ->
  forall rest, fmt.zeros k +:+ pretty n <> fmt.zeros k' +:+ rest.
Proof.
  intros Hn. induction k as [|k IH]; intros k' Hk rest Heq.
  - destruct k' as [|k']; [lia|]. simpl in Heq.
    rewrite append_nil, append_cons in Heq.
    destruct n as [|p|p]; try lia.
    change (pretty (Z.pos p)) with (pretty_N_go (N.pos p) "") in Heq.
    destruct (pretty_N_go_head (N.pos p) "") as (c & r & Hc & Hne); [lia|].
    rewrite Hc in Heq. congruence.
  - destruct k' as [|k']; [lia|]. simpl in Heq.
    rewrite !append_cons in Heq.
    apply (IH k' ltac:(lia) rest). congruence.
Qed.

(** X12.  An account number generated from a draw in [0, 10^10) has
    exactly ten characters, all of them decimal digits, and two different
    draws give two different account numbers. *)
Theorem generateAccountNumber_ten_digits r1 r2 :
  0 <= r1 < 10 ^ 10 -> 0 <= r2 < 10 ^ 10 ->
  String.length (account_repo.generateAccountNumber r1) = 10%nat /\
  allDigits (account_repo.generateAccountNumber r1) = true /\
  (account_repo.generateAccountNumber r1 = account_repo.generateAccountNumber r2 ->
   r1 = r2).
Proof.
  intros Hr1 Hr2. unfold account_repo.generateAccountNumber, fmt.Sprintf_010d.
  destruct (Z.ltb_spec r1 0) as [?|_]; [lia|].
  destruct (Z.ltb_spec r2 0) as [?|_]; [lia|].
  rewrite !Z.abs_eq by lia. rewrite !append_nil.
  change (String.length "") with 0%nat.
  pose proof (pretty_nonneg_length r1 Hr1) as Hl1.
  pose proof (pretty_nonneg_length r2 Hr2) as Hl2.
  split; [|split].
  - rewrite length_app_string, length_zeros. lia.
  - rewrite allDigits_app, allDigits_zeros. simpl.
    destruct r1 as [|p|p]; [reflexivity| |lia].
    change (pretty (Z.pos p)) with (pretty_N_go (N.pos p) "").
    by apply pretty_N_go_digits.
  - intros Heq.
    set (k1 := (10 - 0 - String.length (pretty r1))%nat) in *.
    set (k2 := (10 - 0 - String.length (pretty r2))%nat) in *.
    destruct (decide (k1 = k2)) as [Hk|Hk].
    { apply (zeros_pretty_inj k1 k2); auto; lia. }
    exfalso.
    assert (Hpos : forall n, 0 <= n -> (2 <= String.length (pretty n))%nat -> 0 < n).
    { intros n Hn Hl. destruct n as [|p|p]; [simpl in Hl; lia|lia|lia]. }
    destruct (decide (k1 < k2)%nat) as [Hlt|Hge].
    + apply (zeros_pretty_head k1 r1 ltac:(apply Hpos; lia) k2 Hlt _ Heq).
    + apply (zeros_pretty_head k2 r2 ltac:(apply Hpos; lia) k1 ltac:(lia) _
               (eq_sym Heq)).
Qed.

(* ------------------------------------------------------------------ *)
(** * The repositories *)

Lemma map_no_match {A} (p : A -> bool) (g : A -> A) (l : list A) :
  List.find p l = None ->
  List.map (fun x => if p x then g x else x) l = l.
Proof.
  intros H. induction l as [|x l IH]; [reflexivity|]. simpl in *.
  destruct (p x); [discriminate|]. by rewrite IH.
Qed.

(** X13.  An update of an identifier no row carries succeeds silently:
    [UpdateBalance] and [UpdateStatus] return no error and leave the
    tables as they were. *)
Theorem update_of_unknown_id_is_silent env id newBalance status completedAt w :
  (forall s, fails env s = None) ->
  (accountRepository.selectByID id (committed w) = None ->
   accountRepository.UpdateBalance env Background id newBalance w
   = (inr tt, w)) /\
  (transferRepository.selectByID id (committed w) = None ->
   transferRepository.UpdateStatus env Background id status completedAt w
   = (inr tt, w)).
Proof.
  intros Hok. destruct w as [[acc trs txs] p l]. split; intros Hnone.
  - unfold accountRepository.UpdateBalance, poolExec. rewrite Hok.
    unfold accountRepository.updateBalance, accountRepository.selectByID in *.
    simpl in *.
    rewrite (map_no_match (fun a => bool_decide (Account.ID a = id))) by exact Hnone.
    reflexivity.
  - unfold transferRepository.UpdateStatus, poolExec. rewrite Hok.
    unfold transferRepository.updateStatus, transferRepository.selectByID in *.
    simpl in *.
    rewrite (map_no_match (fun t => bool_decide (Transfer.ID t = id))) by exact Hnone.
    reflexivity.
Qed.

(** X14.  [UpdateBalance] inside a transaction, as [Create] calls it: the
    transaction reads the account back, through [GetByIDForUpdate], with
    the new balance at the four decimals of the column (the new balance
    itself when it has at most four) and the store's NOW() as updated_at,
    and otherwise as the row it was; another identifier gives the row it
    gave before; and [GetByID], which reads through the pool, still gives
    the committed row. *)
Theorem UpdateBalance_then_GetByID env ctx id newBalance k w view :
  (forall s, fails env s = None) ->
  pending w = Some view ->
  exists w1,
    accountRepository.UpdateBalance env TxCtx id newBalance w = (inr tt, w1) /\
    fst (accountRepository.GetByIDForUpdate env TxCtx k w1)
      = inr ((fun a => if bool_decide (k = id)
                       then withBalance (dbNow env) (decimal_19_4 newBalance) a
                       else a)
               <$> accountRepository.selectByID k view) /\
    accountRepository.GetByID env ctx k w1
      = (inr (accountRepository.selectByID k (committed w)), w1) /\
    (atScale4 newBalance -> (decimal_19_4 newBalance == newBalance)%Q).
Proof.
  intros Hok Hview. eexists. split; [|split; [|split]].
  - unfold accountRepository.UpdateBalance, txExec. rewrite Hok, Hview.
    reflexivity.
  - unfold accountRepository.GetByIDForUpdate, bind, ret, txQuery, lockRow.
    rewrite Hok. cbn [pending]. rewrite selectByID_updateBalance.
    destruct (accountRepository.selectByID k view); reflexivity.
  - unfold accountRepository.GetByID, poolQuery. rewrite Hok. reflexivity.
  - apply decimal_19_4_atScale4.
Qed.

(** X15.  [Create] on the transfer repository inside a transaction that
    commits, followed by [GetByID]: a transfer inserted under a fresh
    identifier is read back with its amount at the four decimals of the
    column (the amount given when that has at most four) and with
    completed_at NULL whatever the struct held, because the INSERT does
    not list that column; its other fields are as given. *)
Theorem transfer_insert_then_read env ctx ctx2 (t : Transfer.t) w :
  (forall s, fails env s = None) ->
  transferRepository.selectByID (Transfer.ID t) (committed w) = None ->
  exists w',
    WithTransaction env ctx (fun tx => transferRepository.Create env tx t) w
      = (inr tt, w') /\
    transferRepository.GetByID env ctx2 (Transfer.ID t) w'
      = (inr (Some (Transfer.mk (Transfer.ID t) (Transfer.IdempotencyKey t)
                      (Transfer.FromAccountID t) (Transfer.ToAccountID t)
                      (decimal_19_4 (Transfer.Amount t)) (Transfer.Currency t)
                      (Transfer.Status t) (Transfer.CreatedAt t) None)), w') /\
    (atScale4 (Transfer.Amount t) ->
     (decimal_19_4 (Transfer.Amount t) == Transfer.Amount t)%Q).
Proof.
  intros Hok Hfresh. eexists. split; [|split].
  - unfold WithTransaction, transferRepository.Create, txExec.
    rewrite !Hok. reflexivity.
  - unfold transferRepository.GetByID, poolQuery. rewrite Hok.
    unfold transferRepository.selectByID, transferRepository.insert in *.
    simpl. rewrite find_app_none by exact Hfresh. simpl.
    rewrite bool_decide_eq_true_2 by reflexivity. reflexivity.
  - apply decimal_19_4_atScale4.
Qed.

(** X16.  [Update] on the account repository writes the type, the
    currency, the status and updated_at only: every account keeps its
    identifier, owner, account number, balance and created_at, so the
    total of the balances is unchanged. *)
Theorem account_Update_keeps_balances env aenv (account : Account.t) w w' :
  account_repo.Update env aenv Background account w = (inr tt, w') ->
  List.map (fun a => (Account.ID a, Account.UserID a, Account.AccountNumber a,
                      Account.Balance a, Account.CreatedAt a))
    (accounts (committed w'))
  = List.map (fun a => (Account.ID a, Account.UserID a, Account.AccountNumber a,
                        Account.Balance a, Account.CreatedAt a))
      (accounts (committed w)) /\
  totalBalance (committed w') = totalBalance (committed w) /\
  transfers (committed w') = transfers (committed w) /\
  transactions (committed w') = transactions (committed w).
Proof.
  unfold account_repo.Update, poolExecOn. intros H.
  destruct (failsAccount aenv _); inversion H; subst. cbn [committed].
  unfold account_repo.update, totalBalance. cbn [accounts transfers transactions].
  split; [|split; [|split; reflexivity]].
  - rewrite List.map_map. apply map_ext. intros a.
    case_bool_decide; reflexivity.
  - induction (accounts (committed w)) as [|a l IH]; [reflexivity|].
    simpl. rewrite IH. case_bool_decide; reflexivity.
Qed.

(* ------------------------------------------------------------------ *)
(** * The account use case *)

#[local] Instance account_newerFirst_trans : Transitive account_repo.newerFirst.
Proof. intros x y z. unfold account_repo.newerFirst. lia. Qed.

#[local] Instance account_newerFirst_total : Total account_repo.newerFirst.
Proof. intros x y. unfold account_repo.newerFirst. lia. Qed.

#[local] Instance transaction_newerFirst_trans :
  Transitive transaction_repo.newerFirst.
Proof. intros x y z. unfold transaction_repo.newerFirst. lia. Qed.

#[local] Instance transaction_newerFirst_total :
  Total transaction_repo.newerFirst.
Proof. intros x y. unfold transaction_repo.newerFirst. lia. Qed.

Lemma account_selectByUser_In userID d a :
  In a (account_repo.selectByUser userID d) <->
  In a (accounts d) /\ Account.UserID a = userID.
Proof.
  unfold account_repo.selectByUser.
  rewrite <- !list_elem_of_In, merge_sort_Permutation, !list_elem_of_In.
  rewrite filter_In, bool_decide_eq_true. reflexivity.
Qed.

Lemma account_selectByUser_length userID d :
  Z.of_nat (length (account_repo.selectByUser userID d))
  = account_repo.countByUser userID d.
Proof.
  unfold account_repo.selectByUser, account_repo.countByUser.
  by rewrite merge_sort_Permutation.
Qed.

Lemma transaction_selectByAccount_In accountID d tx :
  In tx (transaction_repo.selectByAccount accountID d) <->
  In tx (transactions d) /\ Transaction.AccountID tx = accountID.
Proof.
  unfold transaction_repo.selectByAccount, transaction_repo.ofAccount.
  rewrite <- !list_elem_of_In, merge_sort_Permutation, !list_elem_of_In.
  rewrite filter_In, bool_decide_eq_true. reflexivity.
Qed.

Lemma transaction_selectByAccount_length accountID d :
  Z.of_nat (length (transaction_repo.selectByAccount accountID d))
  = transaction_repo.countByAccount accountID d.
Proof.
  unfold transaction_repo.selectByAccount, transaction_repo.countByAccount.
  by rewrite merge_sort_Permutation.
Qed.

(** X17.  [Create] of the account use case, called outside a transaction
    on a store that reports no error and with a fresh identifier, opens
    an account that belongs to the requester, is active, holds a balance
    of zero and carries the generated account number; it returns the row
    it has appended to the account table, and touches no other table. *)
Theorem account_Create_opens_account env aenv userID input w :
  let a :=
    Account.mk (accountID aenv) userID
      (account_repo.generateAccountNumber (drawn aenv))
      (CreateAccountInput.AccountType input)
      (CreateAccountInput.Currency input) 0%Q AccountStatusActive
      (accountCreatedAt aenv) (accountCreatedAt aenv) in
  fails env (SelectAccount (accountID aenv)) = None ->
  failsAccount aenv (InsertAccount a) = None ->
  accountRepository.selectByID (accountID aenv) (committed w) = None ->
  account.Create env aenv Background userID input w
  = (inr (Some a),
     mkWorld (mkDB (accounts (committed w) ++ [a]) (transfers (committed w))
                (transactions (committed w)))
       (pending w) (lockLog w)).
Proof.
  intros a Hsel Hins Hfresh. subst a.
  unfold account.Create, account_repo.Create, accountRepository.GetByID,
    NewAccount.
  unfold wrapping, bind, ret, poolExecOn, poolQuery. cbn [Account.AccountNumber].
  rewrite bool_decide_eq_true_2 by reflexivity. cbn beta iota zeta.
  cbn [Account.ID Account.UserID Account.AccountType Account.Currency
       Account.Balance Account.Status Account.CreatedAt Account.UpdatedAt].
  rewrite Hins. cbn [Account.ID]. rewrite Hsel. cbn [committed].
  unfold accountRepository.selectByID, account_repo.insert in *.
  cbn [accounts]. rewrite find_app_none by exact Hfresh. simpl.
  rewrite bool_decide_eq_true_2 by reflexivity. reflexivity.
Qed.

(** X18.  [Create] of the account use case is not aware of transactions:
    called with a context that carries an open transaction it inserts the
    account into the transaction, reads it back through the pool, which
    does not see the uncommitted row, and returns neither an account nor
    an error. *)
Theorem account_Create_inside_transaction env aenv userID input w view :
  let a :=
    Account.mk (accountID aenv) userID
      (account_repo.generateAccountNumber (drawn aenv))
      (CreateAccountInput.AccountType input)
      (CreateAccountInput.Currency input) 0%Q AccountStatusActive
      (accountCreatedAt aenv) (accountCreatedAt aenv) in
  pending w = Some view ->
  fails env (SelectAccount (accountID aenv)) = None ->
  failsAccount aenv (InsertAccount a) = None ->
  accountRepository.selectByID (accountID aenv) (committed w) = None ->
  account.Create env aenv TxCtx userID input w
  = (inr None,
     mkWorld (committed w) (Some (account_repo.insert a view)) (lockLog w)).
Proof.
  intros a Hp Hsel Hins Hfresh. subst a.
  unfold account.Create, account_repo.Create, accountRepository.GetByID,
    NewAccount.
  unfold wrapping, bind, ret, txExecOn, poolQuery. cbn [Account.AccountNumber].
  rewrite bool_decide_eq_true_2 by reflexivity. cbn beta iota zeta.
  cbn [Account.ID Account.UserID Account.AccountType Account.Currency
       Account.Balance Account.Status Account.CreatedAt Account.UpdatedAt].
  rewrite Hins, Hp. cbn [Account.ID]. rewrite Hsel. cbn [committed].
  rewrite Hfresh. reflexivity.
Qed.

(** X19.  [GetByID] of the account use case, on a store that reports no
    error: AccountNotFound when no account has the identifier, Forbidden
    when the account belongs to someone else, the account otherwise; the
    world is left as it was. *)
Theorem account_read_outcome env ctx userID accountID w :
  fails env (SelectAccount accountID) = None ->
  account.GetByID env ctx userID accountID w
  = (match accountRepository.selectByID accountID (committed w) with
     | None => inl ErrAccountNotFound
     | Some a =>
         if bool_decide (Account.UserID a = userID)
         then inr a else inl ErrForbidden
     end, w).
Proof.
  intros Hok. unfold account.GetByID, accountRepository.GetByID.
  unfold wrapping, bind, ret, throw, poolQuery. rewrite Hok.
  destruct (accountRepository.selectByID accountID (committed w)) as [a|];
    [|reflexivity].
  destruct (bool_decide (Account.UserID a = userID)); reflexivity.
Qed.

(** X20.  [GetByUserID] of the account use case, on a store that reports
    no error and with an offset that fits Go's [int]: the page holds
    accounts of the requester only, newest first, and the total is the
    number of all accounts of the requester whatever the page, so it is
    never below the length of the page. *)
Theorem account_listing_page aenv ctx userID page pageSize w :
  let p := effectivePage page in
  let ps := effectivePageSize pageSize in
  let all := account_repo.selectByUser userID (committed w) in
  let rows := take (Z.to_nat ps) (drop (Z.to_nat ((p - 1) * ps)) all) in
  (p - 1) * ps < 2 ^ 63 ->
  (forall s, failsAccount aenv s = None) ->
  account.GetByUserID aenv ctx userID page pageSize w
    = (inr (rows, Z.of_nat (length all)), w) /\
  (forall a, In a all <-> In a (accounts (committed w)) /\ Account.UserID a = userID) /\
  StronglySorted account_repo.newerFirst all /\
  Z.of_nat (length rows) <= Z.of_nat (length all).
Proof.
  intros p ps all rows Hfit Hok.
  pose proof (effectivePage_bounds page) as Hp.
  pose proof (effectivePageSize_bounds pageSize) as Hps.
  fold p in Hp. fold ps in Hps.
  split; [|split; [apply account_selectByUser_In|split]].
  - unfold account.GetByUserID, account_repo.GetByUserID,
      account_repo.CountByUserID.
    change (if page <? 1 then 1 else page) with p.
    change (if (pageSize <? 1) || (100 <? pageSize) then 10 else pageSize) with ps.
    cbn zeta. rewrite wrap64_small by nia.
    unfold wrapping, bind, ret, poolQueryOn.
    destruct (Z.ltb_spec ps 0); [lia|].
    destruct (Z.ltb_spec ((p - 1) * ps) 0); [nia|]. simpl.
    rewrite !Hok. unfold all. rewrite account_selectByUser_length. reflexivity.
  - apply StronglySorted_merge_sort; apply _.
  - unfold rows. rewrite length_take, length_drop. lia.
Qed.

(** X21.  [GetTransactions]: AccountNotFound when the account does not
    exist and Forbidden when it belongs to someone else, in both cases
    without reading the ledger; for the owner, on a store that reports no
    error and with an offset that fits Go's [int], the page holds ledger
    rows of that account only, newest first, and the total is the number
    of all ledger rows of the account. *)
Theorem account_GetTransactions_page env aenv ctx userID accountID
    page pageSize w :
  let p := effectivePage page in
  let ps := effectivePageSize pageSize in
  let all := transaction_repo.selectByAccount accountID (committed w) in
  let rows := take (Z.to_nat ps) (drop (Z.to_nat ((p - 1) * ps)) all) in
  fails env (SelectAccount accountID) = None ->
  (accountRepository.selectByID accountID (committed w) = None ->
   account.GetTransactions env aenv ctx userID accountID page pageSize w
   = (inl ErrAccountNotFound, w)) /\
  (forall a,
     accountRepository.selectByID accountID (committed w) = Some a ->
     Account.UserID a <> userID ->
     account.GetTransactions env aenv ctx userID accountID page pageSize w
     = (inl ErrForbidden, w)) /\
  (forall a,
     accountRepository.selectByID accountID (committed w) = Some a ->
     Account.UserID a = userID ->
     (p - 1) * ps < 2 ^ 63 ->
     (forall s, failsAccount aenv s = None) ->
     account.GetTransactions env aenv ctx userID accountID page pageSize w
     = (inr (rows, Z.of_nat (length all)), w)) /\
  (forall tx, In tx all <->
     In tx (transactions (committed w)) /\ Transaction.AccountID tx = accountID) /\
  StronglySorted transaction_repo.newerFirst all.
Proof.
  intros p ps all rows Hsel.
  pose proof (effectivePage_bounds page) as Hp.
  pose proof (effectivePageSize_bounds pageSize) as Hps.
  fold p in Hp. fold ps in Hps.
  unfold account.GetTransactions, accountRepository.GetByID,
    transaction_repo.GetByAccountID, transaction_repo.CountByAccountID.
  unfold wrapping, bind, ret, throw, poolQuery, poolQueryOn. rewrite Hsel.
  change (if page <? 1 then 1 else page) with p.
  change (if (pageSize <? 1) || (100 <? pageSize) then 10 else pageSize) with ps.
  cbn zeta.
  split; [|split; [|split; [|split]]].
  - intros Hnone. rewrite Hnone. reflexivity.
  - intros a Ha Hne. rewrite Ha.
    rewrite bool_decide_eq_false_2 by exact Hne. reflexivity.
  - intros a Ha Hu Hfit Hok. rewrite Ha.
    rewrite bool_decide_eq_true_2 by exact Hu. cbn [negb].
    rewrite wrap64_small by nia.
    destruct (Z.ltb_spec ps 0); [lia|].
    destruct (Z.ltb_spec ((p - 1) * ps) 0); [nia|]. simpl.
    rewrite !Hok. unfold all.
    rewrite transaction_selectByAccount_length. reflexivity.
  - apply transaction_selectByAccount_In.
  - apply StronglySorted_merge_sort; apply _.
Qed.

Section ledger_of_an_account.
Variable NewFromString : string -> option Decimal.

(** X22.  After a [Create] that executed a transfer, the ledger of the
    source account is what it was followed by one debit row, the ledger of
    the destination account is what it was followed by one credit row, and
    the ledger of every other account is what it was. *)
Theorem Create_ledger_per_account env ctx userID input w t w' :
  Create NewFromString env ctx userID input w = (inr t, w') ->
  storedFor input (committed w) = None ->
  exists debit credit,
    Transaction.Type_ debit = TransactionTypeDebit /\
    Transaction.Type_ credit = TransactionTypeCredit /\
    transaction_repo.ofAccount (CreateTransferInput.FromAccountID input)
      (committed w')
    = (transaction_repo.ofAccount (CreateTransferInput.FromAccountID input)
         (committed w) ++ [debit])%list /\
    transaction_repo.ofAccount (CreateTransferInput.ToAccountID input)
      (committed w')
    = (transaction_repo.ofAccount (CreateTransferInput.ToAccountID input)
         (committed w) ++ [credit])%list /\
    (forall k,
       k <> CreateTransferInput.FromAccountID input ->
       k <> CreateTransferInput.ToAccountID input ->
       transaction_repo.ofAccount k (committed w')
       = transaction_repo.ofAccount k (committed w)).
Proof.
  intros H Hnone.
  apply Create_ok in H
    as [[Hs _]|(_ & amount & fa & ta & Hscope & Hf & Ht & _ & _ & _ & _ & -> & ->)];
    [congruence|].
  destruct Hscope as (_ & _ & _ & Hne).
  pose proof (selectByID_ID _ _ _ Hf) as Hfid.
  pose proof (selectByID_ID _ _ _ Ht) as Htid.
  exists (debitRow env fa ta amount), (creditRow env fa ta amount).
  split; [reflexivity|]. split; [reflexivity|].
  unfold transaction_repo.ofAccount. cbn [committed].
  rewrite executed_transactions.
  assert (Hfilter : forall k,
            List.filter
              (fun tx => bool_decide (Transaction.AccountID tx = k))
              (transactions (committed w) ++
                 [debitRow env fa ta amount; creditRow env fa ta amount])
            = (List.filter
                 (fun tx => bool_decide (Transaction.AccountID tx = k))
                 (transactions (committed w)) ++
               (if bool_decide (Account.ID fa = k)
                then [debitRow env fa ta amount] else []) ++
               (if bool_decide (Account.ID ta = k)
                then [creditRow env fa ta amount] else []))%list).
  { intros k. rewrite List.filter_app. f_equal. simpl.
    repeat case_bool_decide; reflexivity. }
  split; [|split].
  - rewrite Hfilter. rewrite (bool_decide_eq_true_2 _ Hfid).
    rewrite bool_decide_eq_false_2 by congruence. by rewrite app_nil_r.
  - rewrite Hfilter. rewrite bool_decide_eq_false_2 by congruence.
    rewrite (bool_decide_eq_true_2 _ Htid). reflexivity.
  - intros k Hk1 Hk2. rewrite Hfilter.
    rewrite !bool_decide_eq_false_2 by congruence. by rewrite !app_nil_r.
Qed.

End ledger_of_an_account.


(* ------------------------------------------------------------------ *)
(** * The HTTP side *)

Section http.
Variable NewFromString : string -> option Decimal.

(** The errors [Create] can return. *)
Lemma Create_error_cases env ctx userID input w e w' :
  Create NewFromString env ctx userID input w = (inl e, w') ->
  e = ErrInvalidAmount \/ e = ErrSameAccount \/ scopeFailure e \/
  (exists msg message, e = Wrap (DriverError msg) "INTERNAL_ERROR" message 500) \/
  (exists format msg, e = Errorf1 format (DriverError msg)) \/
  (exists format a b, e = Errorf2 format a b).
Proof.
  intros H. unfold Create in H. unfold bind at 1 in H.
  destruct (checkIdempotencyKey env ctx input w) as [[e0|[t0|]] w0] eqn:Hchk.
  - inversion H; subst. do 3 right. left.
    unfold checkIdempotencyKey in Hchk. unfold_store.
    repeat (case_match; simplify_eq/=). eauto.
  - inversion H.
  - destruct (NewFromString _) as [amount|]; [|inversion H; auto].
    destruct (Qle_bool amount 0); [inversion H; auto|].
    destruct (bool_decide _); [inversion H; auto|].
    unfold WithTransaction in H.
    destruct (fails env Begin); [inversion H; subst; do 4 right; left; eauto|].
    destruct (createTx _ _ _ _ _ _) as [[err|a] w1] eqn:Htx.
    + destruct (fails env Rollback); inversion H; subst.
      * do 5 right. eauto.
      * do 2 right. left. exact (createTx_error _ _ _ _ _ _ _ Htx).
    + destruct (fails env Commit); inversion H; subst.
      do 4 right. left. eauto.
Qed.

(** X24.  How the handlers answer a failed [Create]: a business failure
    is answered with its own status and code (400 for InvalidAmount,
    SameAccount, CurrencyMismatch and InsufficientBalance, 403 for
    Forbidden and AccountInactive, 404 for AccountNotFound), and every
    other failure, wrapped store errors and the untyped errors of the
    transaction alike, with status 500 and the code INTERNAL_ERROR. *)
Theorem handleError_of_Create env ctx userID input w e w' :
  Create NewFromString env ctx userID input w = (inl e, w') ->
  exists status code message,
    handler.handleError e = handler.JSONError status code message /\
    (In (e, status, code)
        [(ErrInvalidAmount, 400, "INVALID_AMOUNT");
         (ErrSameAccount, 400, "SAME_ACCOUNT");
         (ErrAccountNotFound, 404, "ACCOUNT_NOT_FOUND");
         (ErrForbidden, 403, "FORBIDDEN");
         (ErrCurrencyMismatch, 400, "CURRENCY_MISMATCH");
         (ErrInsufficientBalance, 400, "INSUFFICIENT_BALANCE");
         (ErrAccountInactive, 403, "ACCOUNT_INACTIVE")] \/
     (status = 500 /\ code = "INTERNAL_ERROR")).
Proof.
  intros H. apply Create_error_cases in H.
  destruct H as [->|[->|[Hs|[(msg & message & ->)|[(f & msg & ->)|(f & a & b & ->)]]]]].
  - eexists _, _, _. split; [reflexivity|]. left. simpl. auto.
  - eexists _, _, _. split; [reflexivity|]. left. simpl. auto.
  - destruct Hs as [->|[->|[->|[->|[->|(msg & message & ->)]]]]];
      eexists _, _, _; (split; [reflexivity|]); simpl; auto 10.
  - eexists _, _, _. split; [reflexivity|]. right. auto.
  - eexists _, _, _. split; [reflexivity|]. right. auto.
  - eexists _, _, _. split; [reflexivity|]. right. auto.
Qed.

End http.

(** On a store that reports no error, and with an offset that fits Go's
    [int], the listing of the service returns its page. *)
Lemma GetByUserID_runs env ctx userID page pageSize w :
  let p := effectivePage page in
  let ps := effectivePageSize pageSize in
  (p - 1) * ps < 2 ^ 63 ->
  fails env (SelectTransfersByUser userID ps ((p - 1) * ps)) = None ->
  exists rows,
    GetByUserID env ctx userID page pageSize w
    = (inr (rows, Z.of_nat (length rows)), w).
Proof.
  intros p ps Hfit Hok.
  pose proof (effectivePage_bounds page) as Hp.
  pose proof (effectivePageSize_bounds pageSize) as Hps.
  fold p in Hp. fold ps in Hps.
  unfold GetByUserID, transferRepository.GetByUserID.
  fold p ps. rewrite wrap64_small by nia.
  unfold wrapping, bind, ret, poolQuery.
  destruct (Z.ltb_spec ps 0); [lia|].
  destruct (Z.ltb_spec ((p - 1) * ps) 0); [nia|]. simpl.
  rewrite Hok. eexists. reflexivity.
Qed.

Section listing.
Variable StringFixed : Decimal -> Z -> string.
Variable Atoi : string -> Z.

(** X25.  The listing handler divides by the page size of the query as it
    was given: when page_size reads as 0 (the text "0", or any text [Atoi]
    rejects) and the service has returned its page, the handler panics
    with a division by zero instead of answering. *)
Theorem List_panics_on_zero_page_size env ctx c w userID :
  handler.userID c = Some userID ->
  Atoi (handler.DefaultQuery c "page_size" "10") = 0 ->
  let p := effectivePage (Atoi (handler.DefaultQuery c "page" "1")) in
  (p - 1) * 10 < 2 ^ 63 ->
  fails env (SelectTransfersByUser userID 10 ((p - 1) * 10)) = None ->
  handler.List StringFixed Atoi env ctx c w
  = (handler.Panic "runtime error: integer divide by zero", w).
Proof.
  intros Hu Hps p Hfit Hok. unfold handler.List. rewrite Hu, Hps.
  destruct (GetByUserID_runs env ctx userID
              (Atoi (handler.DefaultQuery c "page" "1")) 0 w Hfit Hok)
    as (rows & Hrun).
  rewrite Hrun. reflexivity.
Qed.

(** X26.  What the listing handler reports when it answers: the page
    size it echoes is the one of the query, not the one in force; the
    total is the number of rows of the page, at most the page size in
    force; and for a page size in [1, 100] the number of pages it reports
    is 0 for an empty page and 1 otherwise, however many transfers the
    requester has. *)
Theorem List_pagination env ctx c w w' status data page pageSize total
    totalPages :
  handler.List StringFixed Atoi env ctx c w
  = (handler.JSONList status data page pageSize total totalPages, w') ->
  pageSize = Atoi (handler.DefaultQuery c "page_size" "10") /\
  total = Z.of_nat (length data) /\
  total <= effectivePageSize pageSize /\
  (1 <= pageSize <= 100 ->
   totalPages = if total =? 0 then 0 else 1).
Proof.
  unfold handler.List. intros H.
  destruct (handler.userID c) as [u|]; [|inversion H].
  set (pg := Atoi (handler.DefaultQuery c "page" "1")) in *.
  set (ps := Atoi (handler.DefaultQuery c "page_size" "10")) in *.
  destruct (GetByUserID env ctx u pg ps w) as [[e|[ts tot]] w1] eqn:Hrun.
  { unfold handler.handleError in H. repeat case_match; inversion H. }
  destruct (Z.eqb_spec ps 0) as [|Hnz]; [inversion H|].
  inversion H; subst status data page pageSize total totalPages w1.
  clear H.
  apply GetByUserID_ok in Hrun as (offset & Hoff & Hts & Htot & ->).
  pose proof (effectivePageSize_bounds ps) as [Hps [Hin _]].
  assert (Hle : tot <= effectivePageSize ps).
  { rewrite Htot, Hts. unfold transferRepository.limitOffset.
    rewrite length_take. lia. }
  split; [reflexivity|]. split; [by rewrite List.length_map|].
  split; [exact Hle|].
  intros Hr. specialize (Hin Hr).
  assert (0 <= tot) by lia.
  rewrite (wrap64_small (tot + ps)) by lia.
  rewrite (wrap64_small (tot + ps - 1)) by lia.
  destruct (Z.eqb_spec tot 0) as [->|Hpos].
  - rewrite Z.quot_small by lia. reflexivity.
  - assert (Hq : Z.quot (tot + ps - 1) ps = 1).
    { rewrite Z.quot_div_nonneg by lia.
      symmetry. apply (Z.div_unique_pos _ _ 1 (tot - 1)); lia. }
    rewrite Hq. reflexivity.
Qed.

End listing.

(* ------------------------------------------------------------------ *)
(** * The rate limiter *)

Section rate_limiter.
Import redis.

(** All the instants of one minute use one key. *)
Lemma windowKey_inWindow key n now :
  inWindow n now -> windowKey key now = windowKey key (60 * n).
Proof.
  intros [_ <-]. unfold windowKey. do 4 f_equal.
  rewrite Z.mul_comm, Z.quot_mul by lia. reflexivity.
Qed.

(** Two minutes use two keys. *)
Lemma windowKey_inj key n m :
  windowKey key (60 * n) = windowKey key (60 * m) -> n = m.
Proof.
  unfold windowKey, fmt.Sprintf_d.
  rewrite !(Z.mul_comm 60), !Z.quot_mul by lia.
  intros H. do 3 apply String.app_inj in H.
  exact (pretty_Z_inj _ _ H).
Qed.

Lemma inWindow_bounds n now : inWindow n now -> 60 * n <= now < 60 * n + 60.
Proof.
  intros [Hnow <-]. rewrite Z.quot_div_nonneg by lia.
  pose proof (Z.div_mod now 60 ltac:(lia)).
  pose proof (Z.mod_pos_bound now 60 ltac:(lia)). lia.
Qed.

(** The first request of a window creates its counter, which expires
    sixty seconds later. *)
Lemma Allow_first rpm now key s :
  0 <= rpm < 2 ^ 63 ->
  (forall c, failing s c = None) ->
  live now s (windowKey key now) = None ->
  Allow (NewRateLimiter rpm) now key s
  = (inr (1 <=? rpm, Z.max 0 (rpm - 1)),
     mkServer (<[windowKey key now := mkEntry 1 (Some (now + 60))]> (keys s))
       (failing s)).
Proof.
  intros Hrpm Hok Hlive. unfold Allow, Incr.
  rewrite Hok, Hlive. cbn [Z.eqb Pos.eqb]. unfold Expire. cbn [failing].
  rewrite Hok. unfold live at 1. cbn [keys].
  rewrite lookup_insert_eq. cbn [expiresAt value windowSize NewRateLimiter].
  cbn [Z.leb Z.compare]. rewrite insert_insert_eq.
  change (requestsPerMinute (NewRateLimiter rpm)) with rpm.
  assert (Hw : wrap64 (rpm - 1) = rpm - 1).
  { unfold wrap64. rewrite Z.mod_small; lia. }
  rewrite Hw. f_equal. f_equal. f_equal.
  destruct (Z.ltb_spec (rpm - 1) 0); lia.
Qed.

(** A later request of the window counts one more and leaves the expiry
    of the counter as it is. *)
Lemma Allow_next rpm now key s k t :
  0 <= rpm < 2 ^ 63 ->
  (forall c, failing s c = None) ->
  keys s !! windowKey key now = Some (mkEntry k (Some t)) ->
  now < t -> 1 <= k < 2 ^ 63 - 1 ->
  Allow (NewRateLimiter rpm) now key s
  = (inr (k + 1 <=? rpm, Z.max 0 (rpm - (k + 1))),
     mkServer (<[windowKey key now := mkEntry (k + 1) (Some t)]> (keys s))
       (failing s)).
Proof.
  intros Hrpm Hok Hkey Hnow Hk. unfold Allow, Incr, live.
  rewrite Hok, Hkey. cbn [expiresAt value].
  destruct (Z.leb_spec t now); [lia|]. cbn [expiresAt value].
  destruct (Z.eqb_spec k (2 ^ 63 - 1)); [lia|].
  destruct (Z.eqb_spec (k + 1) 1); [lia|].
  change (requestsPerMinute (NewRateLimiter rpm)) with rpm.
  assert (Hw : wrap64 (rpm - (k + 1)) = rpm - (k + 1)).
  { unfold wrap64. rewrite Z.mod_small; lia. }
  rewrite Hw. f_equal. f_equal. f_equal.
  destruct (Z.ltb_spec (rpm - (k + 1)) 0); lia.
Qed.

(** The requests of a window that follow the [k]-th. *)
Lemma AllowEach_next rpm n key nows : forall s k t,
  0 <= rpm < 2 ^ 63 ->
  (forall c, failing s c = None) ->
  Forall (inWindow n) nows ->
  keys s !! windowKey key (60 * n) = Some (mkEntry k (Some t)) ->
  60 * n + 60 <= t -> 1 <= k ->
  k + Z.of_nat (length nows) < 2 ^ 63 ->
  exists s',
    AllowEach (NewRateLimiter rpm) nows key s
    = (counted rpm (k + 1) (Z.of_nat (length nows)), s') /\
    (forall c, failing s' c = None) /\
    keys s' !! windowKey key (60 * n)
    = Some (mkEntry (k + Z.of_nat (length nows)) (Some t)) /\
    (forall key', key' <> windowKey key (60 * n) ->
       keys s' !! key' = keys s !! key').
Proof.
  induction nows as [|now nows IH]; intros s k t Hrpm Hok Hall Hkey Ht Hk Hlen.
  - exists s. simpl. rewrite Z.add_0_r. auto.
  - apply Forall_cons in Hall as [Hnow Hall].
    pose proof (inWindow_bounds _ _ Hnow) as Hb.
    pose proof (windowKey_inWindow key _ _ Hnow) as Hwk.
    simpl length in *.
    cbn [AllowEach].
    rewrite (Allow_next rpm now key s k t); [|done|done|by rewrite Hwk|lia|lia].
    rewrite Hwk.
    edestruct (IH (mkServer (<[windowKey key (60 * n) := mkEntry (k + 1) (Some t)]> (keys s))
                   (failing s)) (k + 1) t) as (s' & Hrun & Hok' & Hkey' & Hframe);
      [done|done|done|by cbn; rewrite lookup_insert_eq|lia|lia|lia|].
    rewrite Hrun. exists s'. split; [|split; [done|split]].
    + f_equal. unfold counted. rewrite (seqZ_cons (k + 1)) by lia.
      cbn [map]. do 3 f_equal; lia.
    + rewrite Hkey'. do 2 f_equal. lia.
    + intros key' Hne. rewrite Hframe by done. cbn.
      by rewrite lookup_insert_ne.
Qed.

(** The requests of a window whose counter does not exist yet. *)
Lemma AllowEach_window rpm n key nows s :
  0 <= rpm < 2 ^ 63 ->
  (forall c, failing s c = None) ->
  Forall (inWindow n) nows ->
  live (60 * n) s (windowKey key (60 * n)) = None ->
  Z.of_nat (length nows) < 2 ^ 63 ->
  exists s',
    AllowEach (NewRateLimiter rpm) nows key s
    = (counted rpm 1 (Z.of_nat (length nows)), s') /\
    (forall c, failing s' c = None) /\
    (forall key', key' <> windowKey key (60 * n) ->
       keys s' !! key' = keys s !! key').
Proof.
  intros Hrpm Hok Hall Hlive Hlen.
  destruct nows as [|now nows].
  { exists s. auto. }
  apply Forall_cons in Hall as [Hnow Hall].
  pose proof (inWindow_bounds _ _ Hnow) as Hb.
  pose proof (windowKey_inWindow key _ _ Hnow) as Hwk.
  simpl length in *. cbn [AllowEach].
  assert (Hlive' : live now s (windowKey key now) = None).
  { rewrite Hwk. unfold live in *.
    destruct (keys s !! windowKey key (60 * n)) as [e|]; [|done].
    destruct (expiresAt e) as [t|]; [|done].
    destruct (Z.leb_spec t (60 * n)); [|done].
    destruct (Z.leb_spec t now); [done|lia]. }
  rewrite (Allow_first rpm now key s Hrpm Hok Hlive'). rewrite Hwk.
  edestruct (AllowEach_next rpm n key nows
               (mkServer (<[windowKey key (60 * n) := mkEntry 1 (Some (now + 60))]> (keys s))
                  (failing s)) 1 (now + 60))
    as (s' & Hrun & Hok' & _ & Hframe);
    [done|done|done|by cbn; rewrite lookup_insert_eq|lia|lia|lia|].
  rewrite Hrun. exists s'. split; [|split; [done|]].
  - f_equal. unfold counted. rewrite (seqZ_cons 1) by lia.
    cbn [map]. do 3 f_equal. lia.
  - intros key' Hne. rewrite Hframe by done. cbn.
    by rewrite lookup_insert_ne.
Qed.

Lemma AllowEach_app rl nows1 nows2 key s :
  AllowEach rl (nows1 ++ nows2)%list key s
  = let '(rs1, s1) := AllowEach rl nows1 key s in
    let '(rs2, s2) := AllowEach rl nows2 key s1 in
    ((rs1 ++ rs2)%list, s2).
Proof.
  revert s. induction nows1 as [|now nows1 IH]; intros s; simpl.
  - by destruct (AllowEach rl nows2 key s).
  - destruct (Allow rl now key s) as [r s1]. rewrite IH.
    destruct (AllowEach rl nows1 key s1) as [rs1 s2].
    by destruct (AllowEach rl nows2 key s2).
Qed.

(** X27.  A limiter of [rpm] requests per minute counts the requests of
    a key within one minute: on a Redis server that reports no error,
    where the counter of that minute does not exist yet, the requests
    made in that minute are answered in order, the [i]-th being allowed
    exactly when [i <= rpm] and told that [max 0 (rpm - i)] requests
    remain. *)
Theorem Allow_limits_a_window rpm n key nows s :
  0 <= rpm < 2 ^ 63 ->
  (forall c, failing s c = None) ->
  Forall (inWindow n) nows ->
  live (60 * n) s (windowKey key (60 * n)) = None ->
  Z.of_nat (length nows) < 2 ^ 63 ->
  fst (AllowEach (NewRateLimiter rpm) nows key s)
  = map (fun i => inr (i <=? rpm, Z.max 0 (rpm - i)))
        (seqZ 1 (Z.of_nat (length nows))).
Proof.
  intros Hrpm Hok Hall Hlive Hlen.
  destruct (AllowEach_window rpm n key nows s Hrpm Hok Hall Hlive Hlen)
    as (s' & -> & _). reflexivity.
Qed.

(** X28.  The window is a fixed one: the count starts again with the
    next minute.  Requests of a key made in the minute [n] and then in
    another minute [m] are counted apart, so that up to twice the limit
    is allowed when they fall on the two sides of the turn of a
    minute. *)
Theorem Allow_starts_over_each_minute rpm n m key nows1 nows2 s :
  0 <= rpm < 2 ^ 63 ->
  (forall c, failing s c = None) ->
  n <> m ->
  Forall (inWindow n) nows1 ->
  Forall (inWindow m) nows2 ->
  live (60 * n) s (windowKey key (60 * n)) = None ->
  live (60 * m) s (windowKey key (60 * m)) = None ->
  Z.of_nat (length nows1) < 2 ^ 63 ->
  Z.of_nat (length nows2) < 2 ^ 63 ->
  fst (AllowEach (NewRateLimiter rpm) (nows1 ++ nows2)%list key s)
  = (counted rpm 1 (Z.of_nat (length nows1))
     ++ counted rpm 1 (Z.of_nat (length nows2)))%list.
Proof.
  intros Hrpm Hok Hnm H1 H2 Hl1 Hl2 Hn1 Hn2.
  rewrite AllowEach_app.
  destruct (AllowEach_window rpm n key nows1 s Hrpm Hok H1 Hl1 Hn1)
    as (s1 & -> & Hok1 & Hframe).
  assert (Hl2' : live (60 * m) s1 (windowKey key (60 * m)) = None).
  { unfold live in *. rewrite Hframe; [done|].
    intros Heq. apply windowKey_inj in Heq. congruence. }
  destruct (AllowEach_window rpm m key nows2 s1 Hrpm Hok1 H2 Hl2' Hn2)
    as (s2 & -> & _). reflexivity.
Qed.

(** X29.  The limiter fails open: while Redis answers INCR with an
    error, the middleware hands every request on, sets no rate-limit
    header and leaves the server as it is, whatever the number of
    requests before. *)
Theorem RateLimitByIP_fails_open limiter now clientIP s :
  (forall key, failing s (INCR key) <> None) ->
  middleware.RateLimitByIP limiter now clientIP s = (middleware.Next [], s).
Proof.
  intros Hdown. unfold middleware.RateLimitByIP, Allow, Incr.
  specialize (Hdown (windowKey ("ip:" +:+ clientIP) now)).
  destruct (failing s _); [reflexivity|congruence].
Qed.

(** X30.  What the middleware answers within one minute on a server that
    reports no error: the request that finds [k] earlier ones counted
    ([k >= 1]) is handed on with the headers of the limit and of what
    remains when [k + 1 <= rpm], and is otherwise answered 429
    TOO_MANY_REQUESTS with 0 remaining. *)
Theorem RateLimitByIP_decision rpm now clientIP s k t :
  0 <= rpm < 2 ^ 63 ->
  (forall c, failing s c = None) ->
  keys s !! windowKey ("ip:" +:+ clientIP) now = Some (mkEntry k (Some t)) ->
  now < t -> 1 <= k < 2 ^ 63 - 1 ->
  fst (middleware.RateLimitByIP (NewRateLimiter rpm) now clientIP s)
  = if k + 1 <=? rpm
    then middleware.Next
           [("X-RateLimit-Limit", fmt.Sprintf_d rpm);
            ("X-RateLimit-Remaining", fmt.Sprintf_d (rpm - (k + 1)))]
    else middleware.AbortWithStatusJSON
           [("X-RateLimit-Limit", fmt.Sprintf_d rpm);
            ("X-RateLimit-Remaining", "0")]
           429 (apperror_fields.mkAppError "TOO_MANY_REQUESTS"
                  "Too many requests" 429 None).
Proof.
  intros Hrpm Hok Hkey Hnow Hk. unfold middleware.RateLimitByIP.
  rewrite (Allow_next rpm now _ s k t Hrpm Hok Hkey Hnow Hk).
  destruct (Z.leb_spec (k + 1) rpm); cbn.
  - rewrite Z.max_r by lia. reflexivity.
  - rewrite Z.max_l by lia. reflexivity.
Qed.

End rate_limiter.

(* ------------------------------------------------------------------ *)
(** * The further properties on worked examples *)

Section scenarios.
Import Example Scenario.

(** A request without a readable amount, and a request from X to X, are
    refused before the store is written. *)
Lemma Create_rejects_before_store_witness :
  Create plainDecimal env0 Background alice
    (CreateTransferInput.mk 10%N 10%N "forty" "") w0
  = (inl ErrInvalidAmount, w0) /\
  Create plainDecimal env0 Background alice
    (CreateTransferInput.mk 10%N 10%N "40" "") w0
  = (inl ErrSameAccount, w0).
Proof.
  split.
  - destruct (Create_rejects_before_store plainDecimal env0 Background alice
                (CreateTransferInput.mk 10%N 10%N "forty" "") w0 eq_refl)
      as (H & _).
    apply H. reflexivity.
  - destruct (Create_rejects_before_store plainDecimal env0 Background alice
                (CreateTransferInput.mk 10%N 10%N "40" "") w0 eq_refl)
      as (_ & _ & H).
    apply (H (40 # 1)); reflexivity.
Defined.

(** alice's transfer of 40 from X to Y completes. *)
Lemma Create_succeeds_witness :
  Create plainDecimal env0 Background alice (fromXtoY "k1") w0
  = (inr (completedTransfer env0 (fromXtoY "k1") (40 # 1) CurrencyUSD),
     mkWorld (executed env0 (fromXtoY "k1") (40 # 1) X Y db0) None
       [10%N; 20%N]).
Proof.
  apply (Create_succeeds plainDecimal env0 Background alice (fromXtoY "k1") w0
           (40 # 1) X Y).
  - repeat split; try reflexivity. discriminate.
  - reflexivity.
  - reflexivity.
  - reflexivity.
  - reflexivity.
Defined.

(** The frozen X holds 100 and cannot pay 40: InsufficientBalance. *)
Lemma Create_inactive_source_witness :
  fst (Create plainDecimal env0 Background alice (fromXtoY "k1") wFrozen)
  = inl ErrInsufficientBalance.
Proof.
  apply (Create_inactive_source plainDecimal env0 Background alice
           (fromXtoY "k1") wFrozen (40 # 1) Xfrozen Y).
  - repeat split; try reflexivity. discriminate.
  - reflexivity.
  - reflexivity.
  - reflexivity.
  - reflexivity.
  - reflexivity.
  - discriminate.
Defined.

(** X and Y hold 150 together before and after alice's transfer. *)
Lemma Create_conserves_total_witness :
  (totalBalance (committed w1) == totalBalance (committed w0))%Q.
Proof.
  apply (Create_conserves_total plainDecimal env0 Background alice
           (fromXtoY "k1") w0
           (fst (Create plainDecimal env0 Background alice (fromXtoY "k1") w0))
           w1).
  - apply (bool_decide_unpack _). vm_compute. reflexivity.
  - repeat constructor.
  - intros amount Hparse. injection Hparse as <-. reflexivity.
  - apply surjective_pairing.
Defined.

(** X and Y are the accounts they were after alice's transfer. *)
Lemma Create_keeps_account_identity_witness :
  List.map identityOf (accounts (committed w1))
  = List.map identityOf (accounts (committed w0)).
Proof.
  apply (Create_keeps_account_identity plainDecimal env0 Background alice
           (fromXtoY "k1") w0
           (fst (Create plainDecimal env0 Background alice (fromXtoY "k1") w0))
           w1).
  apply surjective_pairing.
Defined.

(** No transfer is pending after alice's second transfer. *)
Lemma Create_leaves_none_pending_witness : nonePending (committed w2).
Proof.
  apply (Create_leaves_none_pending plainDecimal env1 Background alice
           (fromXtoY "k2") w1
           (fst (Create plainDecimal env1 Background alice (fromXtoY "k2") w1))
           w2).
  - apply (bool_decide_unpack _). vm_compute. reflexivity.
  - apply surjective_pairing.
Defined.

(** The keys k1 and k2 are in use once each after alice's second
    transfer. *)
Lemma Create_keeps_keys_unique_witness : NoDup (keysInUse (committed w2)).
Proof.
  apply (Create_keeps_keys_unique plainDecimal env1 Background alice
           (fromXtoY "k2") w1
           (fst (Create plainDecimal env1 Background alice (fromXtoY "k2") w1))
           w2).
  - apply (bool_decide_unpack _). vm_compute. reflexivity.
  - apply surjective_pairing.
Defined.

(** carol owns neither X nor Y and may not read alice's transfer; bob,
    who owns Y, may. *)
Lemma GetByID_decision_witness :
  fst (GetByID env0 Background carol 100%N w1) = inl ErrForbidden /\
  fst (GetByID env0 Background bob 100%N w1)
  = inr (completedTransfer env0 (fromXtoY "k1") (40 # 1) CurrencyUSD) /\
  fst (GetByID env0 Background alice 999%N w1) = inl ErrTransferNotFound.
Proof.
  rewrite !(GetByID_decision env0 Background _ _ w1 (fun _ => eq_refl)).
  repeat split.
Defined.

(** alice moves 40.00001 to Y under the key k3; bob, who owns Y, reads the
    transfer back with the amount 40.0000. *)
Lemma Create_then_GetByID_witness :
  fst (GetByID env1 Background bob 100%N
         (snd (Create plainDecimal env0 Background alice (fineFromXtoY "k3") w0)))
  = inr (Transfer.mk 100%N (Some "k3") 10%N 20%N (40 # 1) "USD" "completed"
           1000 (Some 1003)).
Proof.
  destruct (Create_then_GetByID plainDecimal env0 Background alice
              (fineFromXtoY "k3") w0
              (Transfer.mk 100%N (Some "k3") 10%N 20%N (4000001 # 100000) "USD"
                 "completed" 1000 (Some 1003))
              (snd (Create plainDecimal env0 Background alice
                      (fineFromXtoY "k3") w0))
              env1 Background bob) as [Hread _].
  - reflexivity.
  - reflexivity.
  - reflexivity.
  - reflexivity.
  - right. reflexivity.
  - cbn [Transfer.ID] in Hread. rewrite Hread. reflexivity.
Defined.

(** alice's transfer of 40.00001 is listed for her with the amount
    40.0000. *)
Lemma Create_then_listed_witness :
  In (Transfer.mk 100%N (Some "k3") 10%N 20%N (40 # 1) "USD" "completed"
        1000 (Some 1003))
     (transferRepository.selectByUser alice
        (committed
           (snd (Create plainDecimal env0 Background alice
                   (fineFromXtoY "k3") w0)))).
Proof.
  apply (Create_then_listed plainDecimal env0 Background alice
           (fineFromXtoY "k3") w0
           (Transfer.mk 100%N (Some "k3") 10%N 20%N (4000001 # 100000) "USD"
              "completed" 1000 (Some 1003))
           (snd (Create plainDecimal env0 Background alice
                   (fineFromXtoY "k3") w0))).
  - reflexivity.
  - reflexivity.
Defined.

(** The closure of alice's transfer to an account that does not exist
    fails, and the committed tables are as before. *)
Lemma WithTransaction_all_or_nothing_witness :
  committed
    (snd (WithTransaction env0 Background
            (createTx env0 alice fromXtoNowhere (40 # 1)) w0))
  = committed w0.
Proof.
  apply (WithTransaction_all_or_nothing env0 Background
           (createTx env0 alice fromXtoNowhere (40 # 1)) w0
           (inl ErrAccountNotFound)
           (snd (WithTransaction env0 Background
                   (createTx env0 alice fromXtoNowhere (40 # 1)) w0))).
  - apply createTx_keepsCommitted.
  - reflexivity.
Defined.

(** The draws 42 and 43 give the numbers 0000000042 and 0000000043. *)
Lemma generateAccountNumber_ten_digits_witness :
  String.length (account_repo.generateAccountNumber 42) = 10%nat /\
  allDigits (account_repo.generateAccountNumber 42) = true /\
  (account_repo.generateAccountNumber 42 = account_repo.generateAccountNumber 43 ->
   42 = 43).
Proof.
  apply (generateAccountNumber_ten_digits 42 43); lia.
Defined.

(** No account and no transfer has the identifier 99. *)
Lemma update_of_unknown_id_is_silent_witness :
  accountRepository.UpdateBalance env0 Background 99%N (7 # 1) w1 = (inr tt, w1) /\
  transferRepository.UpdateStatus env0 Background 99%N TransferStatusFailed
    None w1 = (inr tt, w1).
Proof.
  destruct (update_of_unknown_id_is_silent env0 99%N (7 # 1)
              TransferStatusFailed None w1 (fun _ => eq_refl)) as (Ha & Ht).
  split; [apply Ha|apply Ht]; reflexivity.
Defined.

(** Inside a transaction the balance of X is set to 7.00005: the
    transaction reads 7.0001 back, and the pool still reads 100. *)
Lemma UpdateBalance_then_GetByID_witness :
  exists w1,
    accountRepository.UpdateBalance env0 TxCtx 10%N (700005 # 100000) wOpen
      = (inr tt, w1) /\
    Account.Balance <$>
      match fst (accountRepository.GetByIDForUpdate env0 TxCtx 10%N w1) with
      | inr row => row
      | inl _ => None
      end = Some (70001 # 10000) /\
    Account.Balance <$>
      match fst (accountRepository.GetByID env0 Background 10%N w1) with
      | inr row => row
      | inl _ => None
      end = Some (100 # 1).
Proof.
  destruct (UpdateBalance_then_GetByID env0 Background 10%N (700005 # 100000)
              10%N wOpen db0 (fun _ => eq_refl) eq_refl)
    as (w1 & Hrun & Htx & Hpool & _).
  exists w1. split; [exact Hrun|]. split.
  - rewrite Htx. reflexivity.
  - rewrite Hpool. reflexivity.
Defined.

(** A transfer of 5.00005 is inserted in a transaction that commits, and
    read back: its amount is 5.0001 and its completion instant is gone. *)
Lemma transfer_insert_then_read_witness :
  exists w',
    WithTransaction env0 Background
      (fun tx => transferRepository.Create env0 tx settled) w0 = (inr tt, w') /\
    transferRepository.GetByID env0 Background 400%N w'
      = (inr (Some (Transfer.mk 400%N (Some "k4") 10%N 20%N (50001 # 10000)
                      CurrencyUSD TransferStatusCompleted 4 None)), w').
Proof.
  destruct (transfer_insert_then_read env0 Background Background settled w0
              (fun _ => eq_refl) eq_refl) as (w' & Hrun & Hread & _).
  exists w'. split; [exact Hrun|]. exact Hread.
Defined.

(** X is frozen by an update of the account: the balances stay. *)
Lemma account_Update_keeps_balances_witness :
  totalBalance
    (committed (snd (account_repo.Update env0 aenv0 Background Xfrozen w0)))
  = totalBalance (committed w0).
Proof.
  destruct (account_Update_keeps_balances env0 aenv0 Xfrozen w0
              (snd (account_repo.Update env0 aenv0 Background Xfrozen w0))
              eq_refl) as (_ & H & _).
  exact H.
Defined.

(** alice opens a savings account: it gets the number 0000000042. *)
Lemma account_Create_opens_account_witness :
  account.Create env0 aenv0 Background alice savings w0
  = (inr (Some (Account.mk 30%N alice
                  (account_repo.generateAccountNumber 42) "savings"
                  CurrencyUSD 0%Q AccountStatusActive 500 500)),
     mkWorld (mkDB (accounts (committed w0) ++
                    [Account.mk 30%N alice
                       (account_repo.generateAccountNumber 42) "savings"
                       CurrencyUSD 0%Q AccountStatusActive 500 500])
                (transfers (committed w0)) (transactions (committed w0)))
       (pending w0) (lockLog w0)).
Proof.
  apply (account_Create_opens_account env0 aenv0 alice savings w0);
    reflexivity.
Defined.

(** The same inside an open transaction: neither account nor error. *)
Lemma account_Create_inside_transaction_witness :
  fst (account.Create env0 aenv0 TxCtx alice savings wOpen) = inr None.
Proof.
  rewrite (account_Create_inside_transaction env0 aenv0 alice savings wOpen db0);
    reflexivity.
Defined.

(** bob may not read X. *)
Lemma account_read_outcome_witness :
  account.GetByID env0 Background bob 10%N w0 = (inl ErrForbidden, w0).
Proof.
  rewrite (account_read_outcome env0 Background bob 10%N w0 eq_refl).
  reflexivity.
Defined.

(** alice has one account. *)
Lemma account_listing_page_witness :
  account.GetByUserID aenv0 Background alice 1 10 w0 = (inr ([X], 1), w0).
Proof.
  destruct (account_listing_page aenv0 Background alice 1 10 w0)
    as (H & _).
  - reflexivity.
  - reflexivity.
  - exact H.
Defined.

(** The ledger of X after alice's transfer holds one row, for alice; bob
    may not read it. *)
Lemma account_GetTransactions_page_witness :
  account.GetTransactions env0 aenv0 Background bob 10%N 1 10 w1
  = (inl ErrForbidden, w1).
Proof.
  destruct (account_GetTransactions_page env0 aenv0 Background bob 10%N 1 10 w1
              eq_refl) as (_ & H & _).
  apply (H (withBalance 1004 (60 # 1) X)).
  - reflexivity.
  - discriminate.
Defined.

(** alice's transfer adds one row to the ledger of X and one to the
    ledger of Y. *)
Lemma Create_ledger_per_account_witness :
  exists debit credit,
    Transaction.Type_ debit = TransactionTypeDebit /\
    Transaction.Type_ credit = TransactionTypeCredit /\
    transaction_repo.ofAccount 10%N (committed w1) = [debit] /\
    transaction_repo.ofAccount 20%N (committed w1) = [credit].
Proof.
  destruct (Create_ledger_per_account plainDecimal env0 Background alice
              (fromXtoY "k1") w0
              (completedTransfer env0 (fromXtoY "k1") (40 # 1) CurrencyUSD) w1
              eq_refl eq_refl)
    as (debit & credit & Hd & Hc & Hfrom & Hto & _).
  exists debit, credit. auto.
Defined.

(** A transfer to an account that does not exist is answered 404. *)
Lemma handleError_of_Create_witness :
  exists status code message,
    handler.handleError ErrAccountNotFound
    = handler.JSONError status code message /\
    status = 404 /\ code = "ACCOUNT_NOT_FOUND".
Proof.
  destruct (handleError_of_Create plainDecimal env0 Background alice
              fromXtoNowhere w0 ErrAccountNotFound (mkWorld db0 None [10%N])
              eq_refl)
    as (status & code & message & H & _).
  exists status, code, message. split; [exact H|].
  injection H as <- <- <-. split; reflexivity.
Defined.

(** The query page_size=0 makes the listing panic. *)
Lemma List_panics_on_zero_page_size_witness :
  handler.List fixed atoi env0 Background (listWith "0") w3
  = (handler.Panic "runtime error: integer divide by zero", w3).
Proof.
  apply (List_panics_on_zero_page_size fixed atoi env0 Background
           (listWith "0") w3 alice); reflexivity.
Defined.

(** alice has three transfers; with page_size=2 the listing reports a
    total of 2, on 1 page. *)
Lemma List_pagination_witness :
  exists data total totalPages w',
    handler.List fixed atoi env0 Background (listWith "2") w3
    = (handler.JSONList 200 data 1 2 total totalPages, w') /\
    total = Z.of_nat (length data) /\
    total = 2 /\ totalPages = 1.
Proof.
  destruct (handler.List fixed atoi env0 Background (listWith "2") w3)
    as [r w'] eqn:H.
  assert (Hr := H). vm_compute in Hr.
  injection Hr as <- <-.
  destruct (List_pagination fixed atoi env0 Background (listWith "2") w3 _ _ _
              _ _ _ _ H) as (_ & Hlen & _ & Hpages).
  eexists _, _, _, _. split; [reflexivity|]. split; [exact Hlen|].
  split; [reflexivity|]. apply Hpages. lia.
Defined.

(** A limiter of two requests per minute, three requests in the minute
    1: the third is refused. *)
Lemma Allow_limits_a_window_witness :
  fst (redis.AllowEach (redis.NewRateLimiter 2) [60; 75; 119] "ip:1.2.3.4" srv0)
  = [inr (true, 1); inr (true, 0); inr (false, 0)].
Proof.
  rewrite (Allow_limits_a_window 2 1 "ip:1.2.3.4" [60; 75; 119] srv0).
  - reflexivity.
  - lia.
  - reflexivity.
  - repeat (apply List.Forall_cons; [split; [lia|reflexivity]|]).
    apply List.Forall_nil.
  - reflexivity.
  - simpl. lia.
Defined.

(** The same limiter, two requests at the end of the minute 1 and two
    at the start of the minute 2: four requests in four seconds, all
    allowed. *)
Lemma Allow_starts_over_each_minute_witness :
  fst (redis.AllowEach (redis.NewRateLimiter 2) [118; 119; 120; 121]
         "ip:1.2.3.4" srv0)
  = [inr (true, 1); inr (true, 0); inr (true, 1); inr (true, 0)].
Proof.
  change [118; 119; 120; 121] with ([118; 119] ++ [120; 121])%list.
  rewrite (Allow_starts_over_each_minute 2 1 2 "ip:1.2.3.4" [118; 119]
             [120; 121] srv0).
  - reflexivity.
  - lia.
  - reflexivity.
  - discriminate.
  - repeat (apply List.Forall_cons; [split; [lia|reflexivity]|]).
    apply List.Forall_nil.
  - repeat (apply List.Forall_cons; [split; [lia|reflexivity]|]).
    apply List.Forall_nil.
  - reflexivity.
  - reflexivity.
  - simpl. lia.
  - simpl. lia.
Defined.

(** Redis cannot be reached: the request passes. *)
Lemma RateLimitByIP_fails_open_witness :
  middleware.RateLimitByIP (redis.NewRateLimiter 0) 60 "1.2.3.4" srvDown
  = (middleware.Next [], srvDown).
Proof.
  apply (RateLimitByIP_fails_open (redis.NewRateLimiter 0) 60 "1.2.3.4" srvDown).
  intros key. discriminate.
Defined.

(** A limiter of one request per minute answers the second request of
    the minute with 429. *)
Lemma RateLimitByIP_decision_witness :
  fst (middleware.RateLimitByIP (redis.NewRateLimiter 1) 75 "1.2.3.4" srv1)
  = middleware.AbortWithStatusJSON
      [("X-RateLimit-Limit", "1"); ("X-RateLimit-Remaining", "0")]
      429 (apperror_fields.mkAppError "TOO_MANY_REQUESTS"
             "Too many requests" 429 None).
Proof.
  rewrite (RateLimitByIP_decision 1 75 "1.2.3.4" srv1 1 120).
  - reflexivity.
  - lia.
  - reflexivity.
  - reflexivity.
  - reflexivity.
  - lia.
Defined.


End scenarios.
